(** * SPDX header verification: a model of [spdx_verify.py]

    The development embeds the file classification and header matching
    engine of the SPDX verification tool: the language registry, the
    skip-rule engine, the header matcher, the path walker and the REUSE
    compliance cross-checker.

    Conventions of the model.
    - Text is a [string] over 8-bit code points; the predicates on
      characters ([py_isspace], [py_lower_char]) follow Python's [str]
      methods on the code points below 256.
    - A [Path] object is represented by the string it was built from;
      [path_name] and [path_suffix] compute what [pathlib] computes for
      POSIX paths.
    - Everything the program obtains from outside (file system, [git],
      the optional [pathspec] package, [fnmatch], the iteration order of
      a Python [set]) is a field of the records [FileSystem] and [Env]. *)

From Stdlib Require Import String Ascii List Bool Arith Lia Permutation.
Import ListNotations.

Open Scope string_scope.
Open Scope list_scope.

Infix "^^" := String.append (at level 60, right associativity).

(* ================================================================== *)
(** ** Python string primitives *)

Module PyStr.

(** [needle in hay]. *)
Fixpoint contains (needle hay : string) : bool :=
  prefix needle hay ||
  match hay with
  | EmptyString => false
  | String _ t => contains needle t
  end.

(** [s.startswith(p)]. *)
Definition startswith (p s : string) : bool := prefix p s.

(** [s.endswith(suf)]: some tail of [s] is [suf]. *)
Fixpoint endswith (suf s : string) : bool :=
  String.eqb s suf ||
  match s with
  | EmptyString => false
  | String _ t => endswith suf t
  end.

(** [c.isspace()] on the code points below 256: TAB..CR, FS..US, SPACE,
    NEL and NBSP. *)
Definition py_isspace (c : ascii) : bool :=
  let n := nat_of_ascii c in
  (((9 <=? n) && (n <=? 13)) || ((28 <=? n) && (n <=? 32))
   || (n =? 133) || (n =? 160))%nat.

Fixpoint lstrip (s : string) : string :=
  match s with
  | EmptyString => EmptyString
  | String c t => if py_isspace c then lstrip t else s
  end.

Fixpoint rstrip (s : string) : string :=
  match s with
  | EmptyString => EmptyString
  | String c t =>
      match rstrip t with
      | EmptyString => if py_isspace c then EmptyString else String c EmptyString
      | r => String c r
      end
  end.

(** [s.strip()]. *)
Definition strip (s : string) : string := rstrip (lstrip s).

(** [c.lower()] on the code points below 256: A..Z and the Latin-1
    capitals (all of 192..222 but the multiplication sign 215). *)
Definition py_lower_char (c : ascii) : ascii :=
  let n := nat_of_ascii c in
  if (((65 <=? n) && (n <=? 90))
      || ((192 <=? n) && (n <=? 222) && negb (n =? 215)))%nat
  then ascii_of_nat (n + 32) else c.

Fixpoint lower (s : string) : string :=
  match s with
  | EmptyString => EmptyString
  | String c t => String (py_lower_char c) (lower t)
  end.

(** Push a character on the piece in progress (the head of the list). *)
Definition cons_head (c : ascii) (pieces : list string) : list string :=
  match pieces with
  | [] => [String c EmptyString]
  | h :: r => String c h :: r
  end.

(** [s.split(sep)] for a non-empty separator, scanning left to right
    without overlap; [skip] counts the characters of a separator
    occurrence still to be dropped. *)
Fixpoint split_from (sep : string) (skip : nat) (s : string) : list string :=
  match s with
  | EmptyString => [EmptyString]
  | String c t =>
      match skip with
      | S k => split_from sep k t
      | O =>
          if prefix sep s
          then EmptyString :: split_from sep (String.length sep - 1) t
          else cons_head c (split_from sep 0 t)
      end
  end.

Definition split (sep s : string) : list string := split_from sep 0 s.

(** [s.replace(old, new)] for a non-empty [old]. *)
Fixpoint replace_from (old new : string) (skip : nat) (s : string) : string :=
  match s with
  | EmptyString => EmptyString
  | String c t =>
      match skip with
      | S k => replace_from old new k t
      | O =>
          if prefix old s
          then new ^^ replace_from old new (String.length old - 1) t
          else String c (replace_from old new 0 t)
      end
  end.

Definition replace (old new s : string) : string := replace_from old new 0 s.

(** [sep.join(pieces)]. *)
Fixpoint join (sep : string) (pieces : list string) : string :=
  match pieces with
  | [] => EmptyString
  | [p] => p
  | p :: r => p ^^ sep ^^ join sep r
  end.

(** Truthiness of a [str]. *)
Definition truthy (s : string) : bool := negb (String.eqb s EmptyString).

(** [x in xs] for a list or set of strings. *)
Definition mem (x : string) (xs : list string) : bool :=
  existsb (String.eqb x) xs.

End PyStr.

Definition NL : string := String (ascii_of_nat 10) EmptyString.

(* ================================================================== *)
(** ** Pure POSIX paths *)

Module PyPath.

(** The components [pathlib] keeps: empty and [.] components are dropped. *)
Definition parts (s : string) : list string :=
  filter (fun c => negb (String.eqb c "") && negb (String.eqb c "."))
         (PyStr.split "/" s).

(** [Path(s).name]: the final component, or the empty string. *)
Definition path_name (s : string) : string := last (parts s) "".

(** The tail of [s] that starts at its last dot. *)
Fixpoint last_dot_tail (s : string) : option string :=
  match s with
  | EmptyString => None
  | String c t =>
      match last_dot_tail t with
      | Some r => Some r
      | None => if Ascii.eqb c "." then Some s else None
      end
  end.

(** The suffix of a final component [name]: with [i = name.rfind('.')],
    [name[i:]] when [0 < i < len(name) - 1], the empty string otherwise. *)
Definition name_suffix (name : string) : string :=
  match name with
  | EmptyString => EmptyString
  | String _ t =>
      match last_dot_tail t with
      | Some r => if (1 <? String.length r)%nat then r else EmptyString
      | None => EmptyString
      end
  end.

(** [Path(s).suffix]. *)
Definition path_suffix (s : string) : string := name_suffix (path_name s).

(** [str(Path(s))]; a leading double slash is not told apart from a
    single one. *)
Definition path_str (s : string) : string :=
  let body := PyStr.join "/" (parts s) in
  if prefix "/" s then "/" ^^ body
  else if String.eqb body "" then "." else body.

(** [Path(d) / rel]: an absolute right operand replaces the left one,
    and [Path("")] is [Path(".")]. *)
Definition path_join (d rel : string) : string :=
  if prefix "/" rel then rel
  else if String.eqb rel "" then d
  else if String.eqb d "." || String.eqb d "" then rel
  else if PyStr.endswith "/" d then d ^^ rel
  else d ^^ "/" ^^ rel.

(** [Path(s).parent] as a string. *)
Definition path_parent (s : string) : string :=
  let body := PyStr.join "/" (removelast (parts s)) in
  if prefix "/" s then "/" ^^ body
  else if String.eqb body "" then "." else body.

End PyPath.

(* ================================================================== *)
(** ** Python dictionaries with string keys

    A [dict] keeps its keys in insertion order, and assigning to a key
    that is present replaces the value where the key stands. *)

Module PyDict.

Definition dict : Type := list (string * string).

Fixpoint get (k : string) (d : dict) : option string :=
  match d with
  | [] => None
  | (k', v) :: r => if String.eqb k' k then Some v else get k r
  end.

(** [d[k] = v]. *)
Fixpoint set (k v : string) (d : dict) : dict :=
  match d with
  | [] => [(k, v)]
  | (k', v') :: r =>
      if String.eqb k' k then (k', v) :: r else (k', v') :: set k v r
  end.

Definition keys (d : dict) : list string := map fst d.

End PyDict.

(* ================================================================== *)
(** ** Exceptions *)

Inductive exc (A : Type) : Type :=
| Ok (a : A)
| Raise (e : string).

Arguments Ok {A} a.
Arguments Raise {A} e.

Definition exc_bind {A B : Type} (m : exc A) (k : A -> exc B) : exc B :=
  match m with
  | Ok a => k a
  | Raise e => Raise e
  end.

Notation "x <- m ;; k" := (exc_bind m (fun x => k))
  (at level 61, m at next level, right associativity).

(** [try: body  except Exception: return dflt]. *)
Definition try_except {A : Type} (body : exc A) (dflt : A) : A :=
  match body with
  | Ok a => a
  | Raise _ => dflt
  end.

(* ================================================================== *)
(** ** Constants *)

Definition DEFAULT_LICENSE : string := "Apache-2.0".
Definition DEFAULT_COPYRIGHT : string := "The Linux Foundation".
Definition SPDX_LICENSE_IDENTIFIER : string := "SPDX-License-Identifier:".
Definition SPDX_FILE_COPYRIGHT : string := "SPDX-FileCopyrightText:".

Definition HASH_SPDX_LICENSE := "# " ^^ SPDX_LICENSE_IDENTIFIER.
Definition HASH_SPDX_COPYRIGHT := "# " ^^ SPDX_FILE_COPYRIGHT.
Definition SLASH_SPDX_LICENSE := "// " ^^ SPDX_LICENSE_IDENTIFIER.
Definition SLASH_SPDX_COPYRIGHT := "// " ^^ SPDX_FILE_COPYRIGHT.
Definition C_STYLE_SPDX_LICENSE := "/* " ^^ SPDX_LICENSE_IDENTIFIER.
Definition C_STYLE_SPDX_COPYRIGHT := "/* " ^^ SPDX_FILE_COPYRIGHT.
Definition HTML_SPDX_LICENSE := "<!-- " ^^ SPDX_LICENSE_IDENTIFIER.
Definition HTML_SPDX_COPYRIGHT := "<!-- " ^^ SPDX_FILE_COPYRIGHT.

(* ================================================================== *)
(** ** Configuration *)

(** One entry of the [languages] mapping; the keys [extensions] and
    [filenames] may each be missing. *)
Record LangConfig : Type := {
  extensions : option (list string);
  filenames : option (list string);
  comment_style : string;
  patterns : list string
}.

(** The optional [default_file_type] block. *)
Record DefaultFileType : Type := {
  dft_enabled : bool;
  dft_language : option string
}.

Record Config : Type := {
  languages : list (string * LangConfig);
  default_skip_patterns : list string;
  default_file_type : option DefaultFileType
}.

Definition lang (exts : list string) (style : string) (pats : list string)
  : LangConfig :=
  {| extensions := Some exts; filenames := None;
     comment_style := style; patterns := pats |}.

Definition hash_patterns := [HASH_SPDX_LICENSE; HASH_SPDX_COPYRIGHT].
Definition slash_patterns := [SLASH_SPDX_LICENSE; SLASH_SPDX_COPYRIGHT].
Definition c_style_patterns := [C_STYLE_SPDX_LICENSE; C_STYLE_SPDX_COPYRIGHT].
Definition html_patterns := [HTML_SPDX_LICENSE; HTML_SPDX_COPYRIGHT].

(** The built-in configuration of [load_config]. *)
Definition default_config : Config := {|
  languages := [
    ("python", lang [".py"; ".pyx"; ".pyi"] "hash" hash_patterns);
    ("javascript", lang [".js"; ".jsx"; ".ts"; ".tsx"] "double_slash" slash_patterns);
    ("css", lang [".css"; ".scss"; ".sass"; ".less"] "c_style" c_style_patterns);
    ("html", lang [".html"; ".xml"; ".svg"] "html" html_patterns);
    ("shell", lang [".sh"; ".bash"; ".zsh"] "hash" hash_patterns);
    ("c_cpp", lang [".c"; ".cpp"; ".h"; ".hpp"; ".cc"; ".cxx"] "double_slash" slash_patterns);
    ("java", lang [".java"] "double_slash" slash_patterns);
    ("rust", lang [".rs"] "double_slash" slash_patterns);
    ("go", lang [".go"] "double_slash" slash_patterns);
    ("ruby", lang [".rb"; ".rake"] "hash" hash_patterns);
    ("php", lang [".php"] "double_slash" slash_patterns);
    ("yaml", lang [".yml"; ".yaml"] "hash" hash_patterns);
    ("dockerfile", lang ["Dockerfile"; "dockerfile"] "hash" hash_patterns);
    ("makefile", lang ["Makefile"; "makefile"; ".mk"] "hash" hash_patterns);
    ("markdown", lang [".md"; ".markdown"] "html" html_patterns)
  ];
  default_skip_patterns := [
    "*.min.js"; "*.min.css"; "node_modules/**"; ".git/**"; "__pycache__/**";
    "__pypackages__/**"; "*.pyc"; "*.pyo"; "*.pyd"; ".pytest_cache/**";
    ".mypy_cache/**"; ".DS_Store"; "*.log"; "*.egg-info/**"; "dist/**";
    "build/**"; ".venv/**"; "venv/**"
  ];
  default_file_type := None
|}.

(** The top-level keys a configuration file may carry. *)
Record LoadedConfig : Type := {
  ld_languages : option (list (string * LangConfig));
  ld_default_skip_patterns : option (list string);
  ld_default_file_type : option DefaultFileType
}.

(** What [load_config] finds where the configuration file should be:
    nothing, a file it cannot load (with the error it reports), or the
    mapping the file holds. *)
Inductive ConfigFile : Type :=
| ConfigAbsent
| ConfigUnreadable (e : string)
| ConfigLoaded (l : LoadedConfig).

(** [load_config]: without a file that loads, the built-in
    configuration; a loaded file replaces the built-in value of each
    top-level key it carries ([dict.update]). *)
Definition load_config (file : ConfigFile) : Config :=
  match file with
  | ConfigAbsent => default_config
  | ConfigUnreadable _ => default_config
  | ConfigLoaded l => {|
      languages :=
        match ld_languages l with
        | Some x => x
        | None => languages default_config
        end;
      default_skip_patterns :=
        match ld_default_skip_patterns l with
        | Some x => x
        | None => default_skip_patterns default_config
        end;
      default_file_type :=
        match ld_default_file_type l with
        | Some x => Some x
        | None => default_file_type default_config
        end
    |}
  end.

(* ================================================================== *)
(** ** The outside world *)

Inductive read_result : Type :=
| ReadOk (content : string)
| ReadError (msg : string).

(** The three status queries are given where they answer: what a name
    the operating system refuses does to them ([OSError]) is not part
    of the model. *)
Record FileSystem : Type := {
  fs_exists : string -> bool;
  fs_is_file : string -> bool;
  fs_is_dir : string -> bool;
  (** [open(p, errors="ignore").read()] *)
  fs_read : string -> read_result;
  (** [for line in open(p)] with strict decoding: the lines handed out,
      and the error that ends the iteration when there is one (a file
      that cannot be opened hands out nothing) *)
  fs_iter_lines : string -> list string * option string;
  (** the entries [Path(d).rglob("*")] yields, relative to [d] *)
  fs_rglob : string -> list string;
  (** the names [Path(d).iterdir()] yields; [None] when it raises *)
  fs_iterdir : string -> option (list string);
  (** [Path(p).resolve()] *)
  fs_resolve : string -> string
}.

Record Env : Type := {
  env_fs : FileSystem;
  env_cwd : string;
  env_config_file : ConfigFile;
  (** the [pathspec] package when it is installed: compiling a list of
      patterns gives a matcher, or fails *)
  env_pathspec : option (list string -> option (string -> bool));
  (** [fnmatch.fnmatch(name, pattern)], which may raise *)
  env_fnmatch : string -> string -> exc bool;
  (** the order in which [list(set(xs))] and iteration over [set(xs)]
      enumerate the members, given the order they were inserted in *)
  env_set_order : list string -> list string;
  (** the standard output of [git ls-files]; [None] when the command
      fails *)
  env_git_ls_files : option string
}.

(** What the language leaves open about [env_set_order]: the result
    lists every member once. *)
Definition set_order_ok (order : list string -> list string) : Prop :=
  forall xs, NoDup (order xs) /\ (forall x, In x (order xs) <-> In x xs).

(** One admissible order: members in order of first insertion. *)
Fixpoint insertion_order_from (seen xs : list string) : list string :=
  match xs with
  | [] => []
  | x :: r =>
      if PyStr.mem x seen then insertion_order_from seen r
      else x :: insertion_order_from (x :: seen) r
  end.

Definition insertion_order (xs : list string) : list string :=
  insertion_order_from [] xs.

(** Lines the program writes to the console; the banners of debug mode
    and the closing summary are left out. *)
Inductive Event : Type :=
| EvConfigWarning (e : string)
| EvGitignoreLoaded (n : nat)
| EvLangMissingKeys (lang_name : string)
| EvPathspecCompileFailed
| EvErrorNoDirectory (directory : string)
| EvSkipUntracked (path : string)
| EvSkip (path : string)
| EvSkipUnknown (path : string)
| EvPass (path : string)
| EvFail (path message : string)
| EvErrorNoPath (path : string)
| EvGitError
| EvGitWarning
| EvGitFallback
| EvReuseFailed
| EvReuseIssue (issue : string)
| EvReusePassed
| EvNoGitRoot.

(* ================================================================== *)
(** ** The verifier object *)

(** The counters [self.stats]. *)
Record Stats : Type := {
  checked : nat;
  passed : nat;
  missing_license : nat;
  missing_copyright : nat;
  wrong_license : nat;
  wrong_copyright : nat;
  skipped : nat
}.

Definition stats0 : Stats :=
  {| checked := 0; passed := 0; missing_license := 0; missing_copyright := 0;
     wrong_license := 0; wrong_copyright := 0; skipped := 0 |}.

(** The fields of the object that stay as the constructor leaves them;
    the counters, which the walker updates, travel in a [RunState]. *)
Record SPDXVerifier : Type := {
  license_id : string;
  copyright_holder : string;
  debug : bool;
  disable_default_file_type : bool;
  enable_default_file_type : bool;
  default_file_type_override : option string;
  config : Config;
  skip_patterns : list string;
  ext_to_lang : PyDict.dict;
  filename_to_lang : PyDict.dict;
  pathspec_matcher : option (string -> bool)
}.

(** What [load_config] prints. *)
Definition load_config_warning (file : ConfigFile) : list Event :=
  match file with
  | ConfigUnreadable e => [EvConfigWarning e]
  | _ => []
  end.

(** [load_gitignore_patterns]: the patterns are appended line by line,
    and an error that ends the reading leaves those appended so far. *)
Definition load_gitignore_patterns (fs : FileSystem) (directory : string)
  : list string :=
  let gitignore_path := PyPath.path_join directory ".gitignore" in
  if fs_exists fs gitignore_path then
    filter (fun line => PyStr.truthy line && negb (PyStr.startswith "#" line))
           (map PyStr.strip (fst (fs_iter_lines fs gitignore_path)))
  else [].

(** The registry under construction: the two dictionaries and the
    warnings printed so far. *)
Definition Registry : Type := PyDict.dict * PyDict.dict * list Event.

Definition register_keys (lang_name : string) (ks : option (list string))
  (d : PyDict.dict) : PyDict.dict :=
  match ks with
  | Some l => fold_left (fun d k => PyDict.set (PyStr.lower k) lang_name d) l d
  | None => d
  end.

(** One turn of the loop over [config["languages"].items()]. *)
Definition register_language (dbg : bool) (reg : Registry)
  (entry : string * LangConfig) : Registry :=
  let '(e2l, f2l, evs) := reg in
  let '(lang_name, lc) := entry in
  (register_keys lang_name (extensions lc) e2l,
   register_keys lang_name (filenames lc) f2l,
   match extensions lc, filenames lc with
   | None, None => if dbg then evs ++ [EvLangMissingKeys lang_name] else evs
   | _, _ => evs
   end).

Definition build_registry (dbg : bool) (cfg : Config) : Registry :=
  fold_left (register_language dbg) (languages cfg) ([], [], []).

Definition nonempty {A : Type} (l : list A) : bool :=
  match l with [] => false | _ => true end.

(** The last step of [__init__]: the patterns are compiled when
    [pathspec] is there and the list is not empty; a failure leaves the
    matcher unset. *)
Definition compile_skip_patterns (env : Env) (dbg : bool) (pats : list string)
  : option (string -> bool) * list Event :=
  match env_pathspec env with
  | Some from_lines =>
      if nonempty pats then
        match from_lines pats with
        | Some m => (Some m, [])
        | None => (None, if dbg then [EvPathspecCompileFailed] else [])
        end
      else (None, [])
  | None => (None, [])
  end.

(** [SPDXVerifier.__init__]: the object and the lines printed. *)
Definition SPDXVerifier_init (env : Env)
  (license copyright : string) (user_patterns : option (list string))
  (dbg disable enable : bool) (override : option string)
  (directory : option string) : SPDXVerifier * list Event :=
  let cfg := load_config (env_config_file env) in
  let user := match user_patterns with Some l => l | None => [] end in
  let work_dir := match directory with Some d => d | None => env_cwd env end in
  let gitignore_patterns := load_gitignore_patterns (env_fs env) work_dir in
  let all_skip_patterns :=
    env_set_order env (default_skip_patterns cfg ++ gitignore_patterns ++ user) in
  let ev_gitignore :=
    if dbg && nonempty gitignore_patterns
    then [EvGitignoreLoaded (List.length gitignore_patterns)] else [] in
  let '(e2l, f2l, ev_registry) := build_registry dbg cfg in
  let '(matcher, ev_pathspec) := compile_skip_patterns env dbg all_skip_patterns in
  ({| license_id := license;
      copyright_holder := copyright;
      debug := dbg;
      disable_default_file_type := disable;
      enable_default_file_type := enable;
      default_file_type_override := override;
      config := cfg;
      skip_patterns := all_skip_patterns;
      ext_to_lang := e2l;
      filename_to_lang := f2l;
      pathspec_matcher := matcher |},
   load_config_warning (env_config_file env)
   ++ ev_gitignore ++ ev_registry ++ ev_pathspec).

(* ================================================================== *)
(** ** Skip-rule engine *)

(** The body of [_glob_match], inside its [try]. *)
Definition glob_match_body (env : Env) (path pattern : string) : exc bool :=
  if PyStr.contains "*" pattern then
    a <- env_fnmatch env path pattern ;;
    if a then Ok true else env_fnmatch env (PyPath.path_name path) pattern
  else
    Ok (PyStr.contains pattern path
        || String.eqb pattern (PyPath.path_name path)).

(** [SPDXVerifier._glob_match]. *)
Definition _glob_match (env : Env) (path pattern : string) : bool :=
  try_except (glob_match_body env path pattern) false.

(** The fallback loop of [should_skip_file] over the patterns. *)
Fixpoint skip_loop (env : Env) (path_s relative_path : string)
  (pats : list string) : bool :=
  match pats with
  | [] => false
  | pattern :: rest =>
      if _glob_match env path_s pattern || _glob_match env relative_path pattern
      then true
      else skip_loop env path_s relative_path rest
  end.

(** [SPDXVerifier.should_skip_file]. *)
Definition should_skip_file (env : Env) (v : SPDXVerifier) (file_path : string)
  : bool :=
  let path_s := PyPath.path_str file_path in
  let relative_path := PyPath.path_name file_path in
  match pathspec_matcher v with
  | Some match_file => match_file path_s || match_file relative_path
  | None => skip_loop env path_s relative_path (skip_patterns v)
  end.

(* ================================================================== *)
(** ** Language registry lookup *)

(** The legacy loop over [ext_to_lang.items()]: the first entry whose
    extension the lower-cased name equals or ends with. *)
Fixpoint legacy_match (name_lower : string) (d : PyDict.dict) : option string :=
  match d with
  | [] => None
  | (ext, lang_name) :: rest =>
      if String.eqb name_lower (PyStr.lower ext)
         || PyStr.endswith (PyStr.lower ext) name_lower
      then Some lang_name
      else legacy_match name_lower rest
  end.

(** [config.get("default_file_type", {}).get("enabled", False)]. *)
Definition config_default_enabled (cfg : Config) : bool :=
  match default_file_type cfg with
  | Some d => dft_enabled d
  | None => false
  end.

(** [config.get("default_file_type", {}).get("language")]. *)
Definition config_default_language (cfg : Config) : option string :=
  match default_file_type cfg with
  | Some d => dft_language d
  | None => None
  end.

(** [SPDXVerifier.get_language_for_file]. *)
Definition get_language_for_file (v : SPDXVerifier) (file_path : string)
  : option string :=
  let suffix := PyStr.lower (PyPath.path_suffix file_path) in
  match PyDict.get suffix (ext_to_lang v) with
  | Some l => Some l
  | None =>
  let name := PyPath.path_name file_path in
  match PyDict.get (PyStr.lower name) (filename_to_lang v) with
  | Some l => Some l
  | None =>
  match legacy_match (PyStr.lower name) (ext_to_lang v) with
  | Some l => Some l
  | None =>
  let should_use_default :=
    if enable_default_file_type v then true
    else if negb (disable_default_file_type v)
         then config_default_enabled (config v)
         else false in
  if should_use_default then
    let default_lang :=
      match default_file_type_override v with
      | Some o => if PyStr.truthy o then Some o
                  else config_default_language (config v)
      | None => config_default_language (config v)
      end in
    match default_lang with
    | Some l =>
        if PyStr.truthy l && PyStr.mem l (map fst (languages (config v)))
        then Some l else None
    | None => None
    end
  else None
  end end end.

(** [not lang] for an optional language name. *)
Definition no_language (l : option string) : bool :=
  match l with
  | Some n => negb (PyStr.truthy n)
  | None => true
  end.

(* ================================================================== *)
(** ** Header matcher *)

(** The four flags of [check_license_header]. *)
Record Flags : Type := {
  license_found : bool;
  copyright_found : bool;
  correct_license : bool;
  correct_copyright : bool
}.

Definition flags0 : Flags :=
  {| license_found := false; copyright_found := false;
     correct_license := false; correct_copyright := false |}.

(** One turn of the loop over [first_lines]. *)
Definition scan_line (license copyright : string) (fl : Flags) (raw : string)
  : Flags :=
  let line := PyStr.strip raw in
  let fl1 :=
    if PyStr.contains "SPDX-License-Identifier:" line then
      {| license_found := true;
         copyright_found := copyright_found fl;
         correct_license :=
           if PyStr.contains license line then true else correct_license fl;
         correct_copyright := correct_copyright fl |}
    else fl in
  if PyStr.contains "SPDX-FileCopyrightText:" line then
    {| license_found := license_found fl1;
       copyright_found := true;
       correct_license := correct_license fl1;
       correct_copyright :=
         if PyStr.contains copyright line then true else correct_copyright fl1 |}
  else fl1.

(** [content.split("\n")[:10]]. *)
Definition first_lines (content : string) : list string :=
  firstn 10 (PyStr.split NL content).

Definition scan (license copyright content : string) : Flags :=
  fold_left (scan_line license copyright) (first_lines content) flags0.

(** The [if]/[elif] chain that turns the flags into a verdict. *)
Definition determine_result (license copyright : string) (fl : Flags)
  : bool * string :=
  if negb (license_found fl) && negb (copyright_found fl) then
    (false, "Missing both license and copyright headers")
  else if negb (license_found fl) then
    (false, "Missing license header")
  else if negb (copyright_found fl) then
    (false, "Missing copyright header")
  else if negb (correct_license fl) && negb (correct_copyright fl) then
    (false, "Wrong license and copyright (expected " ^^ license ^^ " and "
            ^^ copyright ^^ ")")
  else if negb (correct_license fl) then
    (false, "Wrong license (expected " ^^ license ^^ ")")
  else if negb (correct_copyright fl) then
    (false, "Wrong copyright (expected " ^^ copyright ^^ ")")
  else
    (true, "Valid SPDX headers found").

(** [SPDXVerifier.check_license_header]. *)
Definition check_license_header (env : Env) (v : SPDXVerifier)
  (file_path : string) : bool * string :=
  if no_language (get_language_for_file v file_path) then
    (true, "Unknown file type, skipping")
  else
    match fs_read (env_fs env) file_path with
    | ReadOk content =>
        determine_result (license_id v) (copyright_holder v)
          (scan (license_id v) (copyright_holder v) content)
    | ReadError e => (false, "Error reading file: " ^^ e)
    end.

(* ================================================================== *)
(** ** Directory and path walker *)

(** The mutable part of a run: [verifier.stats] and the console. *)
Record RunState : Type := {
  rs_stats : Stats;
  rs_log : list Event
}.

Definition log_if (cond : bool) (e : Event) (st : RunState) : RunState :=
  if cond then {| rs_stats := rs_stats st; rs_log := rs_log st ++ [e] |}
  else st.

Definition say (e : Event) (st : RunState) : RunState := log_if true e st.

Definition bump (f : Stats -> Stats) (st : RunState) : RunState :=
  {| rs_stats := f (rs_stats st); rs_log := rs_log st |}.

Definition add_skipped (s : Stats) : Stats :=
  {| checked := checked s; passed := passed s;
     missing_license := missing_license s;
     missing_copyright := missing_copyright s;
     wrong_license := wrong_license s; wrong_copyright := wrong_copyright s;
     skipped := skipped s + 1 |}.

Definition add_checked (s : Stats) : Stats :=
  {| checked := checked s + 1; passed := passed s;
     missing_license := missing_license s;
     missing_copyright := missing_copyright s;
     wrong_license := wrong_license s; wrong_copyright := wrong_copyright s;
     skipped := skipped s |}.

Definition add_passed (s : Stats) : Stats :=
  {| checked := checked s; passed := passed s + 1;
     missing_license := missing_license s;
     missing_copyright := missing_copyright s;
     wrong_license := wrong_license s; wrong_copyright := wrong_copyright s;
     skipped := skipped s |}.

Definition b2n (b : bool) : nat := if b then 1 else 0.

(** The failure counters of [verify_directory], driven by the words of
    the message. *)
Definition add_failure (message : string) (s : Stats) : Stats :=
  let has_license := PyStr.contains "license" (PyStr.lower message) in
  let has_copyright := PyStr.contains "copyright" (PyStr.lower message) in
  if PyStr.contains "Missing" message then
    {| checked := checked s; passed := passed s;
       missing_license := missing_license s + b2n has_license;
       missing_copyright := missing_copyright s + b2n has_copyright;
       wrong_license := wrong_license s; wrong_copyright := wrong_copyright s;
       skipped := skipped s |}
  else if PyStr.contains "Wrong" message then
    {| checked := checked s; passed := passed s;
       missing_license := missing_license s;
       missing_copyright := missing_copyright s;
       wrong_license := wrong_license s + b2n has_license;
       wrong_copyright := wrong_copyright s + b2n has_copyright;
       skipped := skipped s |}
  else s.

(** [git_tracked_files is not None and p.resolve() not in git_tracked_files]. *)
Definition untracked (env : Env) (tracked : option (list string)) (p : string)
  : bool :=
  match tracked with
  | Some t => negb (PyStr.mem (fs_resolve (env_fs env) p) t)
  | None => false
  end.

(** One turn of the loop of [verify_directory] over [rglob("*")]; the
    boolean is [all_passed]. *)
Definition directory_step (env : Env) (v : SPDXVerifier) (directory : string)
  (tracked : option (list string)) (acc : bool * RunState) (rel : string)
  : bool * RunState :=
  let '(all_passed, st) := acc in
  let file_path := PyPath.path_join directory rel in
  if negb (fs_is_file (env_fs env) file_path) then acc
  else if untracked env tracked file_path then
    (all_passed, log_if (debug v) (EvSkipUntracked rel) st)
  else if should_skip_file env v rel then
    (all_passed, log_if (debug v) (EvSkip rel) (bump add_skipped st))
  else if no_language (get_language_for_file v file_path) then
    (all_passed, log_if (debug v) (EvSkipUnknown rel) (bump add_skipped st))
  else
    let '(ok, message) := check_license_header env v file_path in
    let st := bump add_checked st in
    if ok then (all_passed, log_if (debug v) (EvPass rel) (bump add_passed st))
    else (false, say (EvFail rel message) (bump (add_failure message) st)).

(** [SPDXVerifier.verify_directory]. *)
Definition verify_directory (env : Env) (v : SPDXVerifier) (directory : string)
  (tracked : option (list string)) (st : RunState) : bool * RunState :=
  if negb (fs_exists (env_fs env) directory) then
    (false, say (EvErrorNoDirectory directory) st)
  else
    fold_left (directory_step env v directory tracked)
              (fs_rglob (env_fs env) directory) (true, st).

(* ================================================================== *)
(** ** REUSE compliance cross-checker *)

(** The identifiers one scanned line contributes. *)
Definition line_license_ids (raw : string) : list string :=
  let line := PyStr.strip raw in
  if PyStr.contains SPDX_LICENSE_IDENTIFIER line then
    match PyStr.split SPDX_LICENSE_IDENTIFIER line with
    | _ :: part :: _ =>
        [PyStr.strip
           (PyStr.replace "*/" "" (PyStr.replace "-->" "" (PyStr.strip part)))]
    | _ => []
    end
  else [].

(** [extract_license_identifiers_from_file]: the identifiers in the
    order they are added to the set. *)
Definition extract_license_identifiers_from_file (fs : FileSystem)
  (file_path : string) : list string :=
  match fs_read fs file_path with
  | ReadOk content =>
      flat_map line_license_ids (firstn 20 (PyStr.split NL content))
  | ReadError _ => []
  end.

Definition missing_license_issue (license : string) : string :=
  "Missing license file: LICENSES/" ^^ license ^^ ".txt".

Definition bad_extension_issue (name : string) : string :=
  "License file with incorrect extension: LICENSES/" ^^ name
  ^^ " (should be .txt)".

(** The identifiers in use, as the loop over [used_licenses] meets them. *)
Definition used_licenses (env : Env) (git_tracked_files : list string)
  : list string :=
  env_set_order env
    (flat_map (fun p => if fs_is_file (env_fs env) p
                        then extract_license_identifiers_from_file (env_fs env) p
                        else [])
              git_tracked_files).

(** [verify_reuse_compliance]; [iterdir] on something that is not a
    directory raises, and nothing catches it. *)
Definition verify_reuse_compliance (env : Env) (git_tracked_files : list string)
  (git_root : string) : exc (bool * list string) :=
  let fs := env_fs env in
  let licenses_dir := PyPath.path_join git_root "LICENSES" in
  if negb (fs_exists fs licenses_dir) then
    Ok (false, ["LICENSES directory not found at repository root"])
  else
    let missing :=
      flat_map (fun license =>
                  if fs_exists fs (PyPath.path_join licenses_dir (license ^^ ".txt"))
                  then [] else [missing_license_issue license])
               (used_licenses env git_tracked_files) in
    match fs_iterdir fs licenses_dir with
    | None => Raise "NotADirectoryError"
    | Some names =>
        let misnamed :=
          flat_map (fun name =>
                      if fs_is_file fs (PyPath.path_join licenses_dir name)
                         && negb (PyStr.endswith ".txt" name)
                      then [bad_extension_issue name] else [])
                   names in
        let issues := missing ++ misnamed in
        Ok (Nat.eqb (List.length issues) 0, issues)
    end.

(** [get_git_tracked_files]: [None] when [git] fails. *)
Definition get_git_tracked_files (env : Env) : option (list string) :=
  match env_git_ls_files env with
  | Some stdout =>
      Some (env_set_order env
              (map (fun f => fs_resolve (env_fs env) (PyPath.path_join "." f))
                   (filter PyStr.truthy
                           (PyStr.split NL (PyStr.strip stdout)))))
  | None => None
  end.

(** The loop of [find_git_root], bounded by the depth of the start. *)
Fixpoint find_git_root_from (fs : FileSystem) (fuel : nat) (current : string)
  : option string :=
  match fuel with
  | O => None
  | S k =>
      if String.eqb current (PyPath.path_parent current) then None
      else if fs_exists fs (PyPath.path_join current ".git") then Some current
      else find_git_root_from fs k (PyPath.path_parent current)
  end.

Definition find_git_root (env : Env) : option string :=
  let start := fs_resolve (env_fs env) "." in
  find_git_root_from (env_fs env) (S (List.length (PyPath.parts start))) start.

(* ================================================================== *)
(** ** The verification run *)

Record VerifyArgs : Type := {
  arg_paths : list string;
  arg_license : string;
  arg_copyright_holder : string;
  arg_skip : option string;
  arg_debug : bool;
  arg_disable_default_file_type : bool;
  arg_enable_default_file_type : bool;
  arg_default_file_type_override : option string;
  arg_pre_commit_mode : bool;
  arg_reuse_compliance : bool
}.

(** The patterns of the comma-separated [skip] argument. *)
Definition parse_skip (skip : option string) : list string :=
  match skip with
  | Some s =>
      if PyStr.truthy s
      then filter PyStr.truthy (map PyStr.strip (PyStr.split "," s))
      else []
  | None => []
  end.

(** The directory whose [.gitignore] is loaded, chosen from the first
    path. *)
Definition choose_work_dir (env : Env) (paths : list string) : string :=
  let fs := env_fs env in
  match paths with
  | [] => env_cwd env
  | first_path :: _ =>
      if fs_is_dir fs first_path then env_cwd env
      else if fs_is_file fs first_path then PyPath.path_parent first_path
      else
        let resolved_path := fs_resolve fs first_path in
        if fs_is_dir fs resolved_path then env_cwd env
        else if fs_exists fs (PyPath.path_parent resolved_path)
             then PyPath.path_parent resolved_path
             else env_cwd env
  end.

(** One turn of the loop of [verify] over the paths; the boolean is
    [all_passed]. *)
Definition verify_step (env : Env) (v : SPDXVerifier)
  (tracked : option (list string)) (acc : bool * RunState) (path : string)
  : bool * RunState :=
  let '(all_passed, st) := acc in
  let fs := env_fs env in
  if fs_is_file fs path then
    if untracked env tracked path then
      (all_passed, log_if (debug v) (EvSkipUntracked path) st)
    else if should_skip_file env v path then
      (all_passed, log_if (debug v) (EvSkip path) (bump add_skipped st))
    else if no_language (get_language_for_file v path) then
      (all_passed, log_if (debug v) (EvSkipUnknown path) (bump add_skipped st))
    else
      let '(ok, message) := check_license_header env v path in
      let st := bump add_checked st in
      if ok then (all_passed, log_if (debug v) (EvPass path) (bump add_passed st))
      else (false, say (EvFail path message) st)
  else if fs_is_dir fs path then
    let '(dir_ok, st') := verify_directory env v path tracked st in
    (if dir_ok then all_passed else false, st')
  else
    (false, say (EvErrorNoPath path) st).

Definition verify_paths (env : Env) (v : SPDXVerifier)
  (tracked : option (list string)) (paths : list string)
  (acc : bool * RunState) : bool * RunState :=
  fold_left (verify_step env v tracked) paths acc.

(** How the process ends, and what it leaves behind. *)
Record RunResult : Type := {
  exit_status : nat;
  final_stats : Stats;
  console : list Event
}.

(** The REUSE section of [verify]: [None] when the check raises. *)
Definition reuse_section (env : Env) (a : VerifyArgs)
  (tracked : option (list string)) (acc : bool * RunState)
  : option (bool * RunState) :=
  let '(all_passed, st) := acc in
  let tracked_nonempty :=
    match tracked with Some t => nonempty t | None => false end in
  if arg_reuse_compliance a && arg_pre_commit_mode a && tracked_nonempty then
    match find_git_root env with
    | Some git_root =>
        match verify_reuse_compliance env
                (match tracked with Some t => t | None => [] end) git_root with
        | Ok (reuse_passed, reuse_issues) =>
            if reuse_passed then Some (all_passed, say EvReusePassed st)
            else
              Some (false,
                    fold_left (fun s i => log_if (arg_debug a) (EvReuseIssue i) s)
                              reuse_issues (say EvReuseFailed st))
        | Raise _ => None
        end
    | None => Some (all_passed, say EvNoGitRoot st)
    end
  else Some acc.

Definition git_failed (env : Env) (a : VerifyArgs) : bool :=
  arg_pre_commit_mode a
  && match env_git_ls_files env with Some _ => false | None => true end.

(** What the first call of [get_git_tracked_files] prints when [git]
    fails; its result is discarded. *)
Definition git_first_attempt (env : Env) (a : VerifyArgs) : list Event :=
  if git_failed env a
  then EvGitError :: (if arg_debug a then [EvGitWarning] else [])
  else [].

(** What the second call prints when [git] fails. *)
Definition git_second_attempt (env : Env) (a : VerifyArgs) : list Event :=
  if git_failed env a then [EvGitError; EvGitFallback] else [].

(** [verify]: the exit status is 1 after [sys.exit(1)] and after an
    exception nothing catches, 0 when the function returns. *)
Definition verify (env : Env) (a : VerifyArgs) : RunResult :=
  let paths := match arg_paths a with [] => ["."] | l => l end in
  let skip_pats := parse_skip (arg_skip a) in
  let work_dir := choose_work_dir env paths in
  let '(v, init_log) :=
    SPDXVerifier_init env (arg_license a) (arg_copyright_holder a)
      (Some skip_pats) (arg_debug a) (arg_disable_default_file_type a)
      (arg_enable_default_file_type a) (arg_default_file_type_override a)
      (Some work_dir) in
  let tracked :=
    if arg_pre_commit_mode a then get_git_tracked_files env else None in
  let after_paths :=
    verify_paths env v tracked paths
      (true, {| rs_stats := stats0;
                rs_log := git_first_attempt env a ++ init_log
                          ++ git_second_attempt env a |}) in
  match reuse_section env a tracked after_paths with
  | Some (all_passed, st) =>
      {| exit_status := if all_passed then 0 else 1;
         final_stats := rs_stats st; console := rs_log st |}
  | None =>
      {| exit_status := 1;
         final_stats := rs_stats (snd after_paths);
         console := rs_log (snd after_paths) |}
  end.

(* ================================================================== *)
(** ** The documented behaviour, restated

    The definitions of this section follow the prose description of the
    tool; the theorems below compare them with the functions above. *)

Module Documented.

(** A scanned line carries a marker. *)
Definition has_marker (marker raw : string) : bool :=
  PyStr.contains marker (PyStr.strip raw).

(** A scanned line carries a marker together with a value. *)
Definition declares (marker value raw : string) : bool :=
  PyStr.contains marker (PyStr.strip raw)
  && PyStr.contains value (PyStr.strip raw).

(** The four columns of the decision table for a list of lines. *)
Definition table_flags (license copyright : string) (lines : list string)
  : Flags :=
  {| license_found := existsb (has_marker "SPDX-License-Identifier:") lines;
     copyright_found := existsb (has_marker "SPDX-FileCopyrightText:") lines;
     correct_license :=
       existsb (declares "SPDX-License-Identifier:" license) lines;
     correct_copyright :=
       existsb (declares "SPDX-FileCopyrightText:" copyright) lines |}.

(** The seven rows. *)
Definition decision_table (license copyright : string)
  (lic_found cp_found lic_correct cp_correct : bool) : bool * string :=
  match lic_found, cp_found, lic_correct, cp_correct with
  | false, false, _, _ => (false, "Missing both license and copyright headers")
  | false, true, _, _ => (false, "Missing license header")
  | true, false, _, _ => (false, "Missing copyright header")
  | true, true, false, false =>
      (false, "Wrong license and copyright (expected " ^^ license ^^ " and "
              ^^ copyright ^^ ")")
  | true, true, false, true =>
      (false, "Wrong license (expected " ^^ license ^^ ")")
  | true, true, true, false =>
      (false, "Wrong copyright (expected " ^^ copyright ^^ ")")
  | true, true, true, true => (true, "Valid SPDX headers found")
  end.

(** The first [Some] of a list of stages. *)
Fixpoint first_match (stages : list (option string)) : option string :=
  match stages with
  | [] => None
  | Some l :: _ => Some l
  | None :: rest => first_match rest
  end.

(** Stage 1: the extension, compared in lower case. *)
Definition stage_extension (v : SPDXVerifier) (p : string) : option string :=
  PyDict.get (PyStr.lower (PyPath.path_suffix p)) (ext_to_lang v).

(** Stage 2: the whole file name, compared in lower case. *)
Definition stage_filename (v : SPDXVerifier) (p : string) : option string :=
  PyDict.get (PyStr.lower (PyPath.path_name p)) (filename_to_lang v).

(** Stage 3: the first registered extension the file name equals or
    ends with. *)
Definition stage_legacy (v : SPDXVerifier) (p : string) : option string :=
  let name := PyStr.lower (PyPath.path_name p) in
  option_map snd
    (find (fun e => String.eqb name (PyStr.lower (fst e))
                    || PyStr.endswith (PyStr.lower (fst e)) name)
          (ext_to_lang v)).

(** Default-file-type mode is active. *)
Definition default_mode_active (v : SPDXVerifier) : bool :=
  enable_default_file_type v
  || (config_default_enabled (config v) && negb (disable_default_file_type v)).

(** A name is valid when it is a configured language. *)
Definition valid_language (v : SPDXVerifier) (l : string) : bool :=
  PyStr.truthy l && PyStr.mem l (map fst (languages (config v))).

Definition keep_valid (v : SPDXVerifier) (l : option string) : option string :=
  match l with
  | Some n => if valid_language v n then Some n else None
  | None => None
  end.

(** The override supplied by the caller, when there is one. *)
Definition override_present (v : SPDXVerifier) : option string :=
  match default_file_type_override v with
  | Some o => if PyStr.truthy o then Some o else None
  | None => None
  end.

(** Stage 4, as documented: in default mode the override of the
    caller, if present and valid, comes before the configured fallback
    language. *)
Definition stage_default (v : SPDXVerifier) : option string :=
  if default_mode_active v then
    first_match [keep_valid v (override_present v);
                 keep_valid v (config_default_language (config v))]
  else None.

(** The documented order of resolution. *)
Definition resolve (v : SPDXVerifier) (p : string) : option string :=
  first_match
    [stage_extension v p; stage_filename v p; stage_legacy v p; stage_default v].

(** The first three stages find nothing. *)
Definition unregistered (v : SPDXVerifier) (p : string) : Prop :=
  stage_extension v p = None /\ stage_filename v p = None
  /\ stage_legacy v p = None.

(** Stage 4, amended: in default mode an override that is present is
    the only candidate, and the configured fallback language is the
    candidate when there is none; the candidate counts when valid. *)
Definition stage_default_amended (v : SPDXVerifier) : option string :=
  if default_mode_active v then
    match override_present v with
    | Some o => keep_valid v (Some o)
    | None => keep_valid v (config_default_language (config v))
    end
  else None.

Definition resolve_amended (v : SPDXVerifier) (p : string) : option string :=
  first_match
    [stage_extension v p; stage_filename v p; stage_legacy v p;
     stage_default_amended v].

(** A pattern with one of the wildcard characters of shell-style
    matching. *)
Definition has_wildcard (pattern : string) : bool :=
  PyStr.contains "*" pattern || PyStr.contains "?" pattern
  || PyStr.contains "[" pattern.

(** The fallback matcher, as documented: shell-style matching of the
    full path and of the bare name for a pattern with a wildcard,
    containment in the full path or equality with the bare name for a
    pattern without one, and no match on an internal error. *)
Definition glob_match (env : Env) (path pattern : string) : bool :=
  if has_wildcard pattern then
    try_except
      (a <- env_fnmatch env path pattern ;;
       if a then Ok true else env_fnmatch env (PyPath.path_name path) pattern)
      false
  else
    PyStr.contains pattern path || String.eqb pattern (PyPath.path_name path).

(** The languages of a configuration that list [ext] (in lower case)
    among their extensions, in configuration order. *)
Definition claimants (key : LangConfig -> option (list string))
  (cfg : Config) (ext : string) : list string :=
  map fst
    (filter (fun e => match key (snd e) with
                      | Some l => PyStr.mem ext (map PyStr.lower l)
                      | None => false
                      end)
            (languages cfg)).

(** Two differently named profiles claim one extension. *)
Definition contested (cfg : Config) (ext : string) : Prop :=
  exists a b, a <> b /\ In a (claimants extensions cfg ext)
              /\ In b (claimants extensions cfg ext).

(** Two lists with the same members. *)
Definition same_members (a b : list string) : Prop :=
  forall x, In x a <-> In x b.

(** The list [__init__] hands to [set]. *)
Definition skip_sources (env : Env) (user : option (list string))
  (directory : option string) : list string :=
  default_skip_patterns (load_config (env_config_file env))
  ++ load_gitignore_patterns (env_fs env)
       (match directory with Some d => d | None => env_cwd env end)
  ++ match user with Some l => l | None => [] end.

Definition raised {A : Type} (r : exc A) : bool :=
  match r with Raise _ => true | Ok _ => false end.


(** The files of the directory whose name does not end in [.txt]. *)
Definition misnamed (env : Env) (licenses_dir : string) (names : list string)
  : list string :=
  filter (fun n => fs_is_file (env_fs env) (PyPath.path_join licenses_dir n)
                   && negb (PyStr.endswith ".txt" n)) names.

(** A string neither begins nor ends with white space. *)
Definition edge_clean (s : string) : bool :=
  match s with
  | EmptyString => true
  | String c t =>
      negb (PyStr.py_isspace c) && String.eqb (PyStr.rstrip s) s
  end.

(** The profile an extension resolves to: the last one to claim it. *)
Definition winner (key : LangConfig -> option (list string))
  (cfg : Config) (ext : string) : option string :=
  last (map Some (claimants key cfg ext)) None.

(** The three components of a registry. *)
Definition registry_extensions (r : Registry) : PyDict.dict := fst (fst r).
Definition registry_filenames (r : Registry) : PyDict.dict := snd (fst r).
Definition registry_warnings (r : Registry) : list Event := snd r.

(** Both lists have the same members, as a test. *)
Definition same_membersb (a b : list string) : bool :=
  forallb (fun x => PyStr.mem x b) a && forallb (fun x => PyStr.mem x a) b.

(** Two states of the loop with the same counters. *)
Definition same_stats (a b : bool * RunState) : Prop :=
  rs_stats (snd a) = rs_stats (snd b).

(** A non-empty string that ends with a visible character. *)
Definition ends_visible (s : string) : Prop := s <> "" /\ PyStr.rstrip s = s.

End Documented.

(* ================================================================== *)
(** ** Concrete environments

    An in-memory file system and small stand-ins for the optional
    packages, used to run the model on examples. *)

Module Sample.

(** Shell-style matching for patterns made of literal characters, [*]
    and [?]. *)
Fixpoint wildcard_match (pattern : string) : string -> bool :=
  match pattern with
  | EmptyString => fun s => String.eqb s EmptyString
  | String c rest =>
      if Ascii.eqb c "*" then
        fix star (s : string) : bool :=
          wildcard_match rest s
          || match s with
             | EmptyString => false
             | String _ t => star t
             end
      else
        fun s =>
          match s with
          | EmptyString => false
          | String d t => (Ascii.eqb c "?" || Ascii.eqb c d) && wildcard_match rest t
          end
  end.

Definition fnmatch_lite (name pattern : string) : exc bool :=
  Ok (wildcard_match pattern name).

(** A [fnmatch] that fails on every call. *)
Definition fnmatch_broken (name pattern : string) : exc bool :=
  Raise "error".

(** Two rules of gitignore matching: a pattern that starts with [!]
    re-includes what it matches, and the last matching pattern decides.
    A pattern here matches the files that bear its name. *)
Definition gitignore_step (file : string) (ignored : bool) (pattern : string)
  : bool :=
  match pattern with
  | String "!" p => if String.eqb p (PyPath.path_name file) then false else ignored
  | p => if String.eqb p (PyPath.path_name file) then true else ignored
  end.

Definition gitignore_lite (pats : list string) : option (string -> bool) :=
  Some (fun file => fold_left (gitignore_step file) pats false).

Fixpoint lookup {A : Type} (k : string) (d : list (string * A)) : option A :=
  match d with
  | [] => None
  | (k', a) :: r => if String.eqb k' k then Some a else lookup k r
  end.

Definition is_some {A : Type} (o : option A) : bool :=
  match o with Some _ => true | None => false end.

(** The lines of a text, each with the newline that ends it. *)
Fixpoint keepends (s : string) : list string :=
  match s with
  | EmptyString => []
  | String c t =>
      if Ascii.eqb c (ascii_of_nat 10) then NL :: keepends t
      else PyStr.cons_head c (keepends t)
  end.

(** A file system given by the content of its files and the entries of
    its directories; directories hold files only. *)
Definition files_fs (files : list (string * string))
  (dirs : list (string * list string)) : FileSystem :=
  let read p :=
    match lookup p files with
    | Some c => ReadOk c
    | None => ReadError "No such file or directory"
    end in
  {| fs_exists := fun p => is_some (lookup p files) || is_some (lookup p dirs);
     fs_is_file := fun p => is_some (lookup p files);
     fs_is_dir := fun p => is_some (lookup p dirs);
     fs_read := read;
     fs_iter_lines := fun p =>
       match lookup p files with
       | Some c => (keepends c, None)
       | None => ([], Some "No such file or directory")
       end;
     fs_rglob := fun d => match lookup d dirs with Some l => l | None => [] end;
     fs_iterdir := fun d => lookup d dirs;
     fs_resolve := fun p => p |}.

(** No configuration file, no [pathspec], no [git]. *)
Definition plain_env (fs : FileSystem) : Env :=
  {| env_fs := fs; env_cwd := "."; env_config_file := ConfigAbsent;
     env_pathspec := None; env_fnmatch := fnmatch_lite;
     env_set_order := insertion_order; env_git_ls_files := None |}.

Definition with_pathspec (env : Env) : Env :=
  {| env_fs := env_fs env; env_cwd := env_cwd env;
     env_config_file := env_config_file env;
     env_pathspec := Some gitignore_lite; env_fnmatch := env_fnmatch env;
     env_set_order := env_set_order env;
     env_git_ls_files := env_git_ls_files env |}.

(** The same environment, where sets list their members the other
    way round. *)
Definition reversed (env : Env) : Env :=
  {| env_fs := env_fs env; env_cwd := env_cwd env;
     env_config_file := env_config_file env;
     env_pathspec := env_pathspec env; env_fnmatch := env_fnmatch env;
     env_set_order := fun xs => rev (env_set_order env xs);
     env_git_ls_files := env_git_ls_files env |}.

Definition with_broken_fnmatch (env : Env) : Env :=
  {| env_fs := env_fs env; env_cwd := env_cwd env;
     env_config_file := env_config_file env;
     env_pathspec := env_pathspec env; env_fnmatch := fnmatch_broken;
     env_set_order := env_set_order env;
     env_git_ls_files := env_git_ls_files env |}.

Definition with_config (env : Env) (file : LoadedConfig) : Env :=
  {| env_fs := env_fs env; env_cwd := env_cwd env;
     env_config_file := ConfigLoaded file;
     env_pathspec := env_pathspec env; env_fnmatch := env_fnmatch env;
     env_set_order := env_set_order env;
     env_git_ls_files := env_git_ls_files env |}.

(** The verifier the constructor builds with default switches. *)
Definition verifier (env : Env) (license copyright : string)
  (user : option (list string)) : SPDXVerifier :=
  fst (SPDXVerifier_init env license copyright user false false false None None).

Definition lines (ls : list string) : string := PyStr.join NL ls.

(** A Python file with both headers as the tool expects them. *)
Definition good_py : string :=
  lines ["# SPDX-License-Identifier: Apache-2.0";
         "# SPDX-FileCopyrightText: 2025 The Linux Foundation";
         "";
         "def hello(): pass"].

(** The expected license ends with a blank. *)
Definition padded_license : string := "MIT ".

Definition padded_line : string := "# SPDX-License-Identifier: MIT ".

Definition padded_py : string :=
  lines [padded_line; "# SPDX-FileCopyrightText: 2025 ACME"].

Definition padded_env : Env := plain_env (files_fs [("a.py", padded_py)] []).

Definition padded_verifier : SPDXVerifier :=
  verifier padded_env padded_license "ACME" None.

(** A declaration of another license before the expected one. *)
Definition two_licenses_py : string :=
  lines ["# SPDX-License-Identifier: MIT";
         "# SPDX-License-Identifier: Apache-2.0";
         "# SPDX-FileCopyrightText: 2025 The Linux Foundation"].

(** Markers from the eleventh line on. *)
Definition late_head : list string :=
  ["#!/usr/bin/env python3"; "#"; "#"; "#"; "#"; "#"; "#"; "#"; "#"; "#"].

Definition late_tail : list string :=
  ["# SPDX-License-Identifier: Apache-2.0";
   "# SPDX-FileCopyrightText: 2025 The Linux Foundation"].

(** The padded file, after a declaration of another license. *)
Definition mixed_py : string :=
  lines ["# SPDX-License-Identifier: GPL-3.0-only"; padded_line;
         "# SPDX-FileCopyrightText: 2025 ACME"].

Definition mixed_env : Env := plain_env (files_fs [("a.py", mixed_py)] []).

(** Two profiles that claim [.h]. *)
Definition contested_file : LoadedConfig :=
  {| ld_languages :=
       Some [("c", lang [".c"; ".h"] "double_slash" slash_patterns);
             ("cpp", lang [".cpp"; ".h"] "double_slash" slash_patterns)];
     ld_default_skip_patterns := None;
     ld_default_file_type := None |}.

(** A profile with neither extensions nor file names. *)
Definition keyless_config : Config :=
  {| languages :=
       [("python", lang [".py"] "hash" hash_patterns);
        ("notes", {| extensions := None; filenames := None;
                     comment_style := "hash"; patterns := hash_patterns |})];
     default_skip_patterns := [];
     default_file_type := None |}.

Definition contested_env : Env := with_config (plain_env (files_fs [] [])) contested_file.

(** A configuration file with the languages of [keyless_config]. *)
Definition keyless_env : Env :=
  with_config (plain_env (files_fs [] []))
    {| ld_languages := Some (languages keyless_config);
       ld_default_skip_patterns := Some [];
       ld_default_file_type := None |}.

(** A [.gitignore] that ignores a file and a caller that re-includes
    it, and the other way round. *)
Definition ignore_then_keep : Env :=
  with_pathspec (plain_env (files_fs [(".gitignore", "notes.txt")] [])).

Definition keep_then_ignore : Env :=
  with_pathspec (plain_env (files_fs [(".gitignore", "!notes.txt")] [])).

(** A repository whose files declare two licenses, with the text of one. *)
Definition reuse_fs : FileSystem :=
  files_fs
    [("/repo/a.py", good_py);
     ("/repo/b.js", lines ["// SPDX-License-Identifier: MIT";
                           "// SPDX-FileCopyrightText: 2025 The Linux Foundation"]);
     ("/repo/c.py", good_py);
     ("/repo/LICENSES/Apache-2.0.txt", "Apache License")]
    [("/repo/LICENSES", ["Apache-2.0.txt"])].

Definition reuse_env : Env := plain_env reuse_fs.

Definition reuse_tracked : list string := ["/repo/a.py"; "/repo/b.js"; "/repo/c.py"].

(** Arguments of a run with default switches. *)
Definition args (paths : list string) : VerifyArgs :=
  {| arg_paths := paths; arg_license := DEFAULT_LICENSE;
     arg_copyright_holder := DEFAULT_COPYRIGHT; arg_skip := None;
     arg_debug := false; arg_disable_default_file_type := false;
     arg_enable_default_file_type := false;
     arg_default_file_type_override := None;
     arg_pre_commit_mode := false; arg_reuse_compliance := false |}.

Definition run_fs : FileSystem :=
  files_fs [("good.py", good_py); ("bad.py", "def hello(): pass");
            ("two.py", two_licenses_py); ("empty.py", "");
            ("late.py", lines (late_head ++ late_tail))] [].

Definition run_env : Env := plain_env run_fs.

(** A configuration file that turns default mode on, with Python as
    the fallback language. *)
Definition fallback_file : LoadedConfig :=
  {| ld_languages := None;
     ld_default_skip_patterns := None;
     ld_default_file_type :=
       Some {| dft_enabled := true; dft_language := Some "python" |} |}.

Definition fallback_env : Env := with_config run_env fallback_file.

(** The verifier of [fallback_env] for a given override. *)
Definition fallback_verifier (override : option string) : SPDXVerifier :=
  fst (SPDXVerifier_init fallback_env DEFAULT_LICENSE DEFAULT_COPYRIGHT None
         false false false override None).

Definition run_verifier : SPDXVerifier :=
  verifier run_env DEFAULT_LICENSE DEFAULT_COPYRIGHT None.

(** A verifier that expects nothing in particular. *)
Definition lax_verifier : SPDXVerifier := verifier run_env "" "" None.

End Sample.

(* ================================================================== *)
(** ** More concrete inputs *)

Module Fixtures.

(** A [.gitignore] with a comment, a blank line, an indented pattern
    and a negation. *)
Definition gitignore_text : string :=
  Sample.lines ["# build output"; ""; "  dist/  "; "!keep.txt"; "*.tmp"].

Definition gitignore_fs : FileSystem :=
  Sample.files_fs [(".gitignore", gitignore_text)] [].

Definition gitignore_env : Env := Sample.plain_env gitignore_fs.

(** An ignore file whose reading stops at a byte that is not UTF-8,
    after two lines have been handed out. *)
Definition torn_fs : FileSystem :=
  {| fs_exists := fun p => String.eqb p ".gitignore";
     fs_is_file := fun p => String.eqb p ".gitignore";
     fs_is_dir := fun _ => false;
     fs_read := fun _ => ReadOk "";
     fs_iter_lines := fun _ =>
       (["early.txt" ^^ NL; "# later" ^^ NL],
        Some "'utf-8' codec can't decode byte 0xff");
     fs_rglob := fun _ => [];
     fs_iterdir := fun _ => None;
     fs_resolve := fun p => p |}.

(** A verifier with a literal pattern of the caller, matching without
    [pathspec]. *)
Definition literal_verifier : SPDXVerifier :=
  Sample.verifier Sample.run_env "MIT" "ACME" (Some ["build"]).

(** A C file with block comments around both declarations. *)
Definition block_c : string :=
  Sample.lines ["/* SPDX-License-Identifier: Apache-2.0 */";
                "/* SPDX-FileCopyrightText: 2025 The Linux Foundation */";
                "int main(void) { return 0; }"].

Definition block_env : Env :=
  Sample.plain_env (Sample.files_fs [("main.c", block_c)] []).

Definition block_verifier : SPDXVerifier :=
  Sample.verifier block_env DEFAULT_LICENSE DEFAULT_COPYRIGHT None.

(** A directory with a valid file, a file without headers, a file of
    unknown type and a file the default patterns skip. *)
Definition tree_fs : FileSystem :=
  Sample.files_fs
    [("src/a.py", Sample.good_py); ("src/b.py", "def hello(): pass");
     ("src/notes.txt", "plain text"); ("src/app.min.js", "var a=1;");
     ("top.py", "def hello(): pass")]
    [("src", ["a.py"; "b.py"; "notes.txt"; "app.min.js"])].

Definition tree_env : Env := Sample.plain_env tree_fs.

Definition tree_verifier : SPDXVerifier :=
  Sample.verifier tree_env DEFAULT_LICENSE DEFAULT_COPYRIGHT None.

Definition state0 : RunState := {| rs_stats := stats0; rs_log := [] |}.

(** A holder whose name contains the word license, and a directory
    with a file that names another holder. *)
Definition licensing_holder : string := "Open License Trust".

Definition holder_fs : FileSystem :=
  Sample.files_fs [("pkg/a.py", Sample.good_py)] [("pkg", ["a.py"])].

Definition holder_env : Env := Sample.plain_env holder_fs.

Definition holder_verifier : SPDXVerifier :=
  Sample.verifier holder_env DEFAULT_LICENSE licensing_holder None.



(** A repository whose [LICENSES] is a regular file. *)
Definition licenses_file_fs : FileSystem :=
  let base :=
    Sample.files_fs
      [("/repo/a.py", Sample.good_py); ("/repo/LICENSES", "All rights reserved")]
      [("/repo", ["a.py"; "LICENSES"])] in
  {| fs_exists := fun p => fs_exists base p || String.eqb p "/repo/.git";
     fs_is_file := fs_is_file base;
     fs_is_dir := fun p => fs_is_dir base p || String.eqb p "/repo/.git";
     fs_read := fs_read base;
     fs_iter_lines := fs_iter_lines base;
     fs_rglob := fs_rglob base;
     fs_iterdir := fs_iterdir base;
     fs_resolve := fun p =>
       if prefix "/" p then p
       else if String.eqb p "." then "/repo" else "/repo/" ^^ p |}.

Definition licenses_file_env : Env :=
  {| env_fs := licenses_file_fs; env_cwd := "/repo";
     env_config_file := ConfigAbsent;
     env_pathspec := None; env_fnmatch := Sample.fnmatch_lite;
     env_set_order := insertion_order;
     env_git_ls_files := Some ("LICENSES" ^^ NL ^^ "a.py" ^^ NL) |}.

(** Pre-commit arguments for a list of paths. *)
Definition pre_commit_args (paths : list string) : VerifyArgs :=
  {| arg_paths := paths; arg_license := DEFAULT_LICENSE;
     arg_copyright_holder := DEFAULT_COPYRIGHT; arg_skip := None;
     arg_debug := false; arg_disable_default_file_type := false;
     arg_enable_default_file_type := false;
     arg_default_file_type_override := None;
     arg_pre_commit_mode := true; arg_reuse_compliance := true |}.

(** A checkout two levels below a repository. *)
Definition nested_fs : FileSystem :=
  {| fs_exists := fun p => String.eqb p "/home/dev/project/.git";
     fs_is_file := fun _ => false;
     fs_is_dir := fun _ => true;
     fs_read := fun _ => ReadError "Is a directory";
     fs_iter_lines := fun _ => ([], Some "Is a directory");
     fs_rglob := fun _ => [];
     fs_iterdir := fun _ => Some [];
     fs_resolve := fun _ => "/home/dev/project/src/lib" |}.

Definition nested_env : Env := Sample.plain_env nested_fs.

(** Twenty lines without a marker, then a declaration. *)
Definition long_head : list string :=
  ["1"; "2"; "3"; "4"; "5"; "6"; "7"; "8"; "9"; "10";
   "11"; "12"; "13"; "14"; "15"; "16"; "17"; "18"; "19"; "20"].

Definition long_tail : list string := ["# SPDX-License-Identifier: MIT"].

Definition long_fs : FileSystem :=
  Sample.files_fs
    [("late.py", Sample.lines (long_head ++ long_tail));
     ("dual.c", "/* SPDX-License-Identifier:   Apache-2.0 OR MIT   */")] [].

End Fixtures.

(* ================================================================== *)
(** ** Notions for the walker *)

Module Walk.

(** The entries of a directory the walker considers: regular files,
    tracked ones when a filter is given. *)
Definition candidate (env : Env) (directory : string)
  (tracked : option (list string)) (rel : string) : bool :=
  fs_is_file (env_fs env) (PyPath.path_join directory rel)
  && negb (untracked env tracked (PyPath.path_join directory rel)).

Definition candidates (env : Env) (directory : string)
  (tracked : option (list string)) : list string :=
  filter (candidate env directory tracked) (fs_rglob (env_fs env) directory).

(** A candidate that is not examined: a skip pattern matches it, or it
    has no language. *)
Definition left_out (env : Env) (v : SPDXVerifier) (directory rel : string)
  : bool :=
  should_skip_file env v rel
  || no_language (get_language_for_file v (PyPath.path_join directory rel)).

Definition examined (env : Env) (v : SPDXVerifier) (directory : string)
  (tracked : option (list string)) : list string :=
  filter (fun rel => negb (left_out env v directory rel))
         (candidates env directory tracked).

(** The verdict on an entry passes. *)
Definition header_ok (env : Env) (v : SPDXVerifier) (directory rel : string)
  : bool :=
  fst (check_license_header env v (PyPath.path_join directory rel)).

(** The counters of the failures. *)
Definition failure_counters (s : Stats) : list nat :=
  [checked s - passed s; missing_license s; missing_copyright s;
   wrong_license s; wrong_copyright s].

(** What the walker keeps true from a start [s0]: no more files passed
    than checked, and as long as nothing failed, the failure counters
    of the start. *)
Definition sound_counters (s0 : Stats) (acc : bool * RunState) : Prop :=
  passed (rs_stats (snd acc)) <= checked (rs_stats (snd acc))
  /\ (fst acc = true ->
      failure_counters (rs_stats (snd acc)) = failure_counters s0).

(** The arguments with the REUSE switch set to [b]. *)
Definition with_reuse_compliance (a : VerifyArgs) (b : bool) : VerifyArgs :=
  {| arg_paths := arg_paths a; arg_license := arg_license a;
     arg_copyright_holder := arg_copyright_holder a; arg_skip := arg_skip a;
     arg_debug := arg_debug a;
     arg_disable_default_file_type := arg_disable_default_file_type a;
     arg_enable_default_file_type := arg_enable_default_file_type a;
     arg_default_file_type_override := arg_default_file_type_override a;
     arg_pre_commit_mode := arg_pre_commit_mode a;
     arg_reuse_compliance := b |}.

(** The arguments with pre-commit mode set to [b]. *)
Definition with_pre_commit_mode (a : VerifyArgs) (b : bool) : VerifyArgs :=
  {| arg_paths := arg_paths a; arg_license := arg_license a;
     arg_copyright_holder := arg_copyright_holder a; arg_skip := arg_skip a;
     arg_debug := arg_debug a;
     arg_disable_default_file_type := arg_disable_default_file_type a;
     arg_enable_default_file_type := arg_enable_default_file_type a;
     arg_default_file_type_override := arg_default_file_type_override a;
     arg_pre_commit_mode := b;
     arg_reuse_compliance := arg_reuse_compliance a |}.

(** The four counters that classify failures. *)
Definition failure_kinds (s : Stats) : list nat :=
  [missing_license s; missing_copyright s; wrong_license s; wrong_copyright s].

(** Two states of the loop that differ by the console at most. *)
Definition same_outcome (a b : bool * RunState) : Prop :=
  fst a = fst b /\ rs_stats (snd a) = rs_stats (snd b).

(** The paths of a run: the current directory when none is given. *)
Definition run_paths (a : VerifyArgs) : list string :=
  match arg_paths a with [] => ["."] | l => l end.

(** The verifier [verify] builds, with the lines the constructor
    prints. *)
Definition run_init (env : Env) (a : VerifyArgs) : SPDXVerifier * list Event :=
  SPDXVerifier_init env (arg_license a) (arg_copyright_holder a)
    (Some (parse_skip (arg_skip a))) (arg_debug a)
    (arg_disable_default_file_type a) (arg_enable_default_file_type a)
    (arg_default_file_type_override a)
    (Some (choose_work_dir env (run_paths a))).

(** The tracked files [verify] filters with. *)
Definition run_tracked (env : Env) (a : VerifyArgs) : option (list string) :=
  if arg_pre_commit_mode a then get_git_tracked_files env else None.

(** The state in which the loop of [verify] starts. *)
Definition run_start (env : Env) (a : VerifyArgs) : bool * RunState :=
  (true, {| rs_stats := stats0;
            rs_log := git_first_attempt env a ++ snd (run_init env a)
                      ++ git_second_attempt env a |}).

(** The loop of [verify] over a list of paths. *)
Definition run_loop (env : Env) (a : VerifyArgs) (paths : list string)
  : bool * RunState :=
  verify_paths env (fst (run_init env a)) (run_tracked env a) paths
               (run_start env a).

(** The console of the second state continues that of the first. *)
Definition log_extends (s s' : RunState) : Prop :=
  exists rest, rs_log s' = rs_log s ++ rest.


(** A path component as [resolve] leaves them. *)
Definition clean_component (c : string) : bool :=
  negb (String.eqb c "") && negb (String.eqb c ".")
  && negb (PyStr.contains "/" c).

(** The absolute path with the given components. *)
Definition absolute (cs : list string) : string := "/" ^^ PyStr.join "/" cs.

(** The directories from the one with components [rev rcs] up to, and
    without, the root. *)
Fixpoint ancestors_of (rcs : list string) : list string :=
  match rcs with
  | [] => []
  | c :: r => absolute (rev (c :: r)) :: ancestors_of r
  end.

Definition ancestors (cs : list string) : list string := ancestors_of (rev cs).

End Walk.

(* ================================================================== *)
(** * Properties *)

(** ** Substring search and trimming *)

Section Substrings.

Import PyStr.
Import Documented.

Lemma prefix_nil (s : string) : prefix "" s = true.
Proof. destruct s; reflexivity. Qed.

Lemma contains_nil (s : string) : contains "" s = true.
Proof. destruct s; reflexivity. Qed.

Lemma contains_cons (n : string) (c : ascii) (t : string) :
  contains n (String c t) = prefix n (String c t) || contains n t.
Proof. reflexivity. Qed.

Lemma contains_empty_hay (n : string) :
  contains n "" = true -> n = "".
Proof.
  destruct n as [|a n]; [reflexivity|]. simpl. discriminate.
Qed.

Lemma prefix_cons_inv (a : ascii) (n : string) (c : ascii) (t : string) :
  prefix (String a n) (String c t) = true -> a = c /\ prefix n t = true.
Proof.
  simpl. destruct (ascii_dec a c) as [->|]; [auto | discriminate].
Qed.

Lemma prefix_cons_same (a : ascii) (n t : string) :
  prefix (String a n) (String a t) = prefix n t.
Proof.
  simpl. destruct (ascii_dec a a); [reflexivity | congruence].
Qed.

(** What is found in a trimmed string is found in the string. *)
Lemma contains_lstrip_sub (n s : string) :
  contains n (lstrip s) = true -> contains n s = true.
Proof.
  induction s as [|c t IH]; simpl; [auto|].
  destruct (py_isspace c); [|auto].
  intros H. rewrite (IH H). apply orb_true_r.
Qed.

Lemma rstrip_cons (c : ascii) (t : string) :
  rstrip (String c t) =
  if String.eqb (rstrip t) "" then (if py_isspace c then "" else String c "")
  else String c (rstrip t).
Proof.
  simpl. destruct (rstrip t); reflexivity.
Qed.

Lemma prefix_rstrip_sub (n s : string) :
  prefix n (rstrip s) = true -> prefix n s = true.
Proof.
  revert n. induction s as [|c t IH]; intros n; [auto|].
  rewrite rstrip_cons.
  destruct n as [|a n]; [intros _; reflexivity|].
  destruct (String.eqb (rstrip t) "") eqn:E.
  - destruct (py_isspace c); [discriminate|].
    intros H. apply prefix_cons_inv in H as [-> H].
    rewrite prefix_cons_same. destruct n; [apply prefix_nil | discriminate].
  - intros H. apply prefix_cons_inv in H as [-> H].
    rewrite prefix_cons_same. auto.
Qed.

Lemma contains_rstrip_sub (n s : string) :
  contains n (rstrip s) = true -> contains n s = true.
Proof.
  induction s as [|c t IH]; [auto|].
  intros H. rewrite contains_cons.
  destruct n as [|a n]; [reflexivity|].
  rewrite rstrip_cons in H.
  destruct (String.eqb (rstrip t) "") eqn:E.
  - destruct (py_isspace c); [discriminate|].
    rewrite contains_cons in H. apply orb_true_iff in H as [H|H].
    + apply prefix_cons_inv in H as [-> H]. rewrite prefix_cons_same.
      destruct n; [rewrite prefix_nil; reflexivity | discriminate].
    + discriminate.
  - rewrite contains_cons in H. apply orb_true_iff in H as [H|H].
    + apply prefix_cons_inv in H as [-> H]. rewrite prefix_cons_same.
      rewrite (prefix_rstrip_sub _ _ H). reflexivity.
    + rewrite (IH H). apply orb_true_r.
Qed.

Lemma contains_strip_sub (n s : string) :
  contains n (strip s) = true -> contains n s = true.
Proof.
  unfold strip. intros H.
  apply contains_lstrip_sub, contains_rstrip_sub, H.
Qed.

(** A needle that begins with a visible character survives [lstrip]. *)
Lemma contains_lstrip_keep (a : ascii) (n s : string) :
  py_isspace a = false ->
  contains (String a n) s = true -> contains (String a n) (lstrip s) = true.
Proof.
  intros Ha. induction s as [|c t IH]; [auto|].
  rewrite contains_cons. simpl lstrip.
  destruct (py_isspace c) eqn:Ec.
  - intros H. apply orb_true_iff in H as [H|H]; [|auto].
    apply prefix_cons_inv in H as [-> _]. congruence.
  - intros H. rewrite contains_cons. exact H.
Qed.

Lemma ends_visible_tail (a b : ascii) (n : string) :
  ends_visible (String a (String b n)) -> ends_visible (String b n).
Proof.
  intros [_ H]. split; [discriminate|].
  rewrite rstrip_cons in H.
  destruct (String.eqb (rstrip (String b n)) "") eqn:E.
  - destruct (py_isspace a); discriminate.
  - congruence.
Qed.

Lemma ends_visible_single (a : ascii) :
  ends_visible (String a "") -> py_isspace a = false.
Proof.
  intros [_ H]. simpl in H. destruct (py_isspace a); [discriminate | reflexivity].
Qed.

Lemma rstrip_nonempty_of_prefix (n s : string) :
  n <> "" -> prefix n (rstrip s) = true -> String.eqb (rstrip s) "" = false.
Proof.
  intros Hn H. destruct (rstrip s); [|reflexivity].
  destruct n; [congruence | discriminate].
Qed.

Lemma prefix_rstrip_keep (n s : string) :
  ends_visible n -> prefix n s = true -> prefix n (rstrip s) = true.
Proof.
  revert s. induction n as [|a n IH]; intros s Hn H.
  - destruct Hn as [Hn _]. congruence.
  - destruct s as [|c t]; [discriminate|].
    apply prefix_cons_inv in H as [<- H].
    rewrite rstrip_cons. destruct n as [|b n].
    + apply ends_visible_single in Hn. rewrite Hn.
      destruct (String.eqb (rstrip t) "");
        rewrite prefix_cons_same; apply prefix_nil.
    + pose proof (IH t (ends_visible_tail _ _ _ Hn) H) as IHt.
      rewrite (rstrip_nonempty_of_prefix (String b n) t); [|discriminate|exact IHt].
      rewrite prefix_cons_same. exact IHt.
Qed.

Lemma contains_rstrip_keep (n s : string) :
  ends_visible n -> contains n s = true -> contains n (rstrip s) = true.
Proof.
  intros Hn. induction s as [|c t IH].
  - intros H. apply contains_empty_hay in H. destruct Hn; congruence.
  - rewrite contains_cons. intros H. apply orb_true_iff in H as [H|H].
    + pose proof (prefix_rstrip_keep _ _ Hn H) as P.
      destruct (rstrip (String c t)); [|simpl in *; rewrite P; reflexivity].
      destruct n; [destruct Hn; congruence | discriminate].
    + pose proof (IH H) as C. rewrite rstrip_cons.
      destruct (String.eqb (rstrip t) "") eqn:E.
      * apply String.eqb_eq in E. rewrite E in C.
        apply contains_empty_hay in C. destruct Hn; congruence.
      * rewrite contains_cons, C. apply orb_true_r.
Qed.

(** A needle with clean edges is found in the trimmed line whenever it
    is found in the line. *)
Lemma contains_strip_keep (n s : string) :
  Documented.edge_clean n = true ->
  contains n s = true -> contains n (strip s) = true.
Proof.
  unfold Documented.edge_clean, strip. destruct n as [|a n].
  - intros _ _. apply contains_nil.
  - intros H C. apply andb_true_iff in H as [Ha Hr].
    apply negb_true_iff in Ha. apply String.eqb_eq in Hr.
    apply contains_rstrip_keep; [split; [discriminate | exact Hr]|].
    apply contains_lstrip_keep; assumption.
Qed.

Lemma contains_strip_iff (n s : string) :
  Documented.edge_clean n = true ->
  contains n (strip s) = contains n s.
Proof.
  intros H. apply eq_true_iff_eq. split.
  - apply contains_strip_sub.
  - apply contains_strip_keep, H.
Qed.

End Substrings.

(** ** Splitting into lines *)

Section Lines.

Import PyStr.

Lemma prefix_single_head (a c : ascii) (t t' : string) :
  prefix (String a "") (String c t) = prefix (String a "") (String c t').
Proof.
  simpl. destruct (ascii_dec a c); [|reflexivity].
  rewrite !prefix_nil. reflexivity.
Qed.

Lemma split_single (l : string) :
  contains NL l = false -> split NL l = [l].
Proof.
  unfold split. induction l as [|c t IH]; [reflexivity|].
  rewrite contains_cons. intros H. apply orb_false_iff in H as [P C].
  cbn [split_from]. rewrite P, (IH C). reflexivity.
Qed.

Lemma split_line (l rest : string) :
  contains NL l = false -> split NL (l ^^ NL ^^ rest) = l :: split NL rest.
Proof.
  unfold split. induction l as [|c t IH].
  - intros _. cbn. rewrite prefix_nil. reflexivity.
  - rewrite contains_cons. intros H. apply orb_false_iff in H as [P C].
    change (String c t ^^ NL ^^ rest) with (String c (t ^^ NL ^^ rest)).
    cbn [split_from].
    replace (prefix NL (String c (t ^^ NL ^^ rest)))
      with (prefix NL (String c t)) by apply prefix_single_head.
    rewrite P, (IH C). reflexivity.
Qed.

Lemma split_join (ls : list string) :
  ls <> [] -> (forall l, In l ls -> contains NL l = false) ->
  split NL (join NL ls) = ls.
Proof.
  induction ls as [|p r IH]; [congruence|]. intros _ H.
  destruct r as [|q r].
  - apply split_single, H. left; reflexivity.
  - change (join NL (p :: q :: r)) with (p ^^ NL ^^ join NL (q :: r)).
    rewrite split_line by (apply H; left; reflexivity).
    rewrite IH; [reflexivity | discriminate |].
    intros l Hl. apply H. right; exact Hl.
Qed.

(** The first ten lines of a text given by its lines. *)
Lemma first_lines_join (head tail : list string) :
  List.length head = 10 ->
  (forall l, In l (head ++ tail) -> contains NL l = false) ->
  first_lines (join NL (head ++ tail)) = head.
Proof.
  intros Hlen H. unfold first_lines.
  rewrite split_join; [| destruct head; discriminate | exact H].
  rewrite firstn_app, Hlen, Nat.sub_diag. simpl firstn at 2.
  rewrite app_nil_r. rewrite <- Hlen. apply firstn_all.
Qed.

End Lines.

(** ** The scan of the header lines *)

Section HeaderScan.

Import PyStr.
Import Documented.

Variables license copyright : string.

Lemma scan_line_flags (fl : Flags) (raw : string) :
  scan_line license copyright fl raw =
  {| license_found :=
       license_found fl || has_marker "SPDX-License-Identifier:" raw;
     copyright_found :=
       copyright_found fl || has_marker "SPDX-FileCopyrightText:" raw;
     correct_license :=
       correct_license fl || declares "SPDX-License-Identifier:" license raw;
     correct_copyright :=
       correct_copyright fl || declares "SPDX-FileCopyrightText:" copyright raw |}.
Proof.
  unfold scan_line, has_marker, declares.
  destruct fl as [lf cf lc cc]; cbn [license_found copyright_found
    correct_license correct_copyright].
  destruct (contains "SPDX-License-Identifier:" (strip raw));
    destruct (contains "SPDX-FileCopyrightText:" (strip raw));
    destruct (contains license (strip raw));
    destruct (contains copyright (strip raw));
    cbn; rewrite ?orb_true_r, ?orb_false_r; reflexivity.
Qed.

(** The loop leaves in each flag the disjunction of the tests of the
    lines it has met. *)
Lemma scan_loop_flags (lines : list string) (fl : Flags) :
  fold_left (scan_line license copyright) lines fl =
  {| license_found :=
       license_found fl || existsb (has_marker "SPDX-License-Identifier:") lines;
     copyright_found :=
       copyright_found fl || existsb (has_marker "SPDX-FileCopyrightText:") lines;
     correct_license :=
       correct_license fl
       || existsb (declares "SPDX-License-Identifier:" license) lines;
     correct_copyright :=
       correct_copyright fl
       || existsb (declares "SPDX-FileCopyrightText:" copyright) lines |}.
Proof.
  revert fl. induction lines as [|raw rest IH]; intros fl.
  - destruct fl; cbn; rewrite !orb_false_r; reflexivity.
  - cbn [fold_left existsb]. rewrite IH, scan_line_flags.
    cbn [license_found copyright_found correct_license correct_copyright].
    rewrite !orb_assoc. reflexivity.
Qed.

Lemma scan_table (content : string) :
  scan license copyright content =
  table_flags license copyright (first_lines content).
Proof.
  unfold scan. rewrite scan_loop_flags. reflexivity.
Qed.

Lemma determine_result_table (fl : Flags) :
  determine_result license copyright fl =
  decision_table license copyright (license_found fl) (copyright_found fl)
    (correct_license fl) (correct_copyright fl).
Proof.
  unfold determine_result, decision_table.
  destruct (license_found fl), (copyright_found fl), (correct_license fl),
    (correct_copyright fl); reflexivity.
Qed.

Lemma declares_found (marker value raw : string) :
  declares marker value raw = true -> has_marker marker raw = true.
Proof.
  unfold declares, has_marker. intros H.
  apply andb_true_iff in H. tauto.
Qed.

Lemma existsb_declares_found (marker value : string) (lines : list string) :
  existsb (declares marker value) lines = true ->
  existsb (has_marker marker) lines = true.
Proof.
  rewrite !existsb_exists. intros [l [Hin H]].
  exists l. split; [exact Hin | eapply declares_found, H].
Qed.

(** With both declarations met, the verdict is the last row. *)
Lemma verdict_valid (lines : list string) :
  existsb (declares "SPDX-License-Identifier:" license) lines = true ->
  existsb (declares "SPDX-FileCopyrightText:" copyright) lines = true ->
  determine_result license copyright (table_flags license copyright lines)
  = (true, "Valid SPDX headers found").
Proof.
  intros L C. rewrite determine_result_table. unfold table_flags.
  cbn [license_found copyright_found correct_license correct_copyright].
  rewrite (existsb_declares_found _ _ _ L), (existsb_declares_found _ _ _ C), L, C.
  reflexivity.
Qed.

(** With no marker met, the verdict is the first row. *)
Lemma verdict_missing_both (lines : list string) :
  existsb (has_marker "SPDX-License-Identifier:") lines = false ->
  existsb (has_marker "SPDX-FileCopyrightText:") lines = false ->
  determine_result license copyright (table_flags license copyright lines)
  = (false, "Missing both license and copyright headers").
Proof.
  intros L C. rewrite determine_result_table. unfold table_flags.
  cbn [license_found copyright_found correct_license correct_copyright].
  rewrite L, C. reflexivity.
Qed.

End HeaderScan.

(** On raw lines: a value with clean edges is declared by the line that
    contains it next to the marker. *)
Lemma declares_raw (marker value raw : string) :
  Documented.edge_clean marker = true ->
  Documented.edge_clean value = true ->
  PyStr.contains marker raw = true -> PyStr.contains value raw = true ->
  Documented.declares marker value raw = true.
Proof.
  intros Hm Hv M V. unfold Documented.declares.
  rewrite !contains_strip_iff by assumption. rewrite M, V. reflexivity.
Qed.

Lemma has_marker_raw (marker raw : string) :
  Documented.edge_clean marker = true ->
  Documented.has_marker marker raw = PyStr.contains marker raw.
Proof.
  intros Hm. unfold Documented.has_marker. apply contains_strip_iff, Hm.
Qed.

Lemma existsb_false_all {A : Type} (f : A -> bool) (l : list A) :
  (forall x, In x l -> f x = false) -> existsb f l = false.
Proof.
  intros H. induction l as [|a l IH]; [reflexivity|].
  simpl. rewrite H by (left; reflexivity). apply IH.
  intros x Hx. apply H. right; exact Hx.
Qed.

(* ================================================================== *)
(** ** Header matcher: the claims *)

Section HeaderClaims.

Import PyStr.
Import Documented.

(** C1. For a file that resolves to a language profile and is read
    without I/O error, [check_license_header] returns the verdict of the
    seven-row decision table over the four flags of the first ten
    lines: missing both, missing license, missing copyright, wrong
    both (the message names both expected values), wrong license,
    wrong copyright, valid. *)
Theorem check_license_header_decision_table
  (env : Env) (v : SPDXVerifier) (p content : string) :
  no_language (get_language_for_file v p) = false ->
  fs_read (env_fs env) p = ReadOk content ->
  check_license_header env v p =
  let fl := table_flags (license_id v) (copyright_holder v) (first_lines content) in
  decision_table (license_id v) (copyright_holder v)
    (license_found fl) (copyright_found fl)
    (correct_license fl) (correct_copyright fl).
Proof.
  intros Hlang Hread. unfold check_license_header.
  rewrite Hlang, Hread, determine_result_table, scan_table. reflexivity.
Qed.

Lemma check_license_header_decision_table_witness :
  no_language (get_language_for_file Sample.run_verifier "good.py") = false /\
  fs_read (env_fs Sample.run_env) "good.py" = ReadOk Sample.good_py /\
  check_license_header Sample.run_env Sample.run_verifier "good.py" =
  (true, "Valid SPDX headers found").
Proof.
  assert (Hlang : no_language
                    (get_language_for_file Sample.run_verifier "good.py") = false)
    by (vm_compute; reflexivity).
  assert (Hread : fs_read (env_fs Sample.run_env) "good.py"
                  = ReadOk Sample.good_py)
    by (vm_compute; reflexivity).
  split; [exact Hlang|]. split; [exact Hread|].
  rewrite (check_license_header_decision_table Sample.run_env
             Sample.run_verifier "good.py" Sample.good_py Hlang Hread).
  vm_compute; reflexivity.
Defined.

(** The verdict when the file was read. *)
Lemma check_license_header_read
  (env : Env) (v : SPDXVerifier) (p content : string) :
  no_language (get_language_for_file v p) = false ->
  fs_read (env_fs env) p = ReadOk content ->
  check_license_header env v p =
  determine_result (license_id v) (copyright_holder v)
    (table_flags (license_id v) (copyright_holder v) (first_lines content)).
Proof.
  intros Hlang Hread. unfold check_license_header.
  rewrite Hlang, Hread, scan_table. reflexivity.
Qed.

Lemma existsb_intro {A : Type} (f : A -> bool) (l : list A) (x : A) :
  In x l -> f x = true -> existsb f l = true.
Proof.
  intros Hin Hf. apply existsb_exists. exists x. auto.
Qed.

(** C2, as stated, fails: the expected license ["MIT "] ends with a
    blank; the first line of the file contains the license marker and
    that very text, the second the copyright marker and the holder,
    and the verdict is a wrong license. *)
Lemma first_ten_lines_raw_counterexample :
  no_language (get_language_for_file Sample.padded_verifier "a.py") = false /\
  fs_read (env_fs Sample.padded_env) "a.py" = ReadOk Sample.padded_py /\
  (exists l, In l (first_lines Sample.padded_py)
     /\ contains "SPDX-License-Identifier:" l = true
     /\ contains (license_id Sample.padded_verifier) l = true) /\
  (exists l, In l (first_lines Sample.padded_py)
     /\ contains "SPDX-FileCopyrightText:" l = true
     /\ contains (copyright_holder Sample.padded_verifier) l = true) /\
  check_license_header Sample.padded_env Sample.padded_verifier "a.py"
  = (false, "Wrong license (expected MIT )").
Proof.
  split; [vm_compute; reflexivity|]. split; [vm_compute; reflexivity|].
  split; [|split].
  - exists Sample.padded_line.
    split; [vm_compute; left; reflexivity|]. split; vm_compute; reflexivity.
  - exists "# SPDX-FileCopyrightText: 2025 ACME".
    split; [vm_compute; right; left; reflexivity|]. split; vm_compute; reflexivity.
  - vm_compute; reflexivity.
Qed.

(** C2, amended. [check_license_header] inspects the first ten lines,
    each without its leading and trailing white space: when among them
    a line contains the license marker with the expected license and
    a line the copyright marker with the expected holder, the verdict
    is valid, whatever the length of the content; on the lines as they
    stand in the file this holds when neither expected value begins or
    ends with white space; markers that occur only after the tenth line
    are not detected; and empty content gives missing both. *)
Theorem check_license_header_first_ten_lines
  (env : Env) (v : SPDXVerifier) (p : string) :
  no_language (get_language_for_file v p) = false ->
  (forall content,
     fs_read (env_fs env) p = ReadOk content ->
     (exists l, In l (first_lines content)
        /\ declares "SPDX-License-Identifier:" (license_id v) l = true) ->
     (exists l, In l (first_lines content)
        /\ declares "SPDX-FileCopyrightText:" (copyright_holder v) l = true) ->
     check_license_header env v p = (true, "Valid SPDX headers found"))
  /\
  (forall content,
     fs_read (env_fs env) p = ReadOk content ->
     edge_clean (license_id v) = true ->
     edge_clean (copyright_holder v) = true ->
     (exists l, In l (first_lines content)
        /\ contains "SPDX-License-Identifier:" l = true
        /\ contains (license_id v) l = true) ->
     (exists l, In l (first_lines content)
        /\ contains "SPDX-FileCopyrightText:" l = true
        /\ contains (copyright_holder v) l = true) ->
     check_license_header env v p = (true, "Valid SPDX headers found"))
  /\
  (forall head tail,
     List.length head = 10 ->
     (forall l, In l (head ++ tail) -> contains NL l = false) ->
     fs_read (env_fs env) p = ReadOk (join NL (head ++ tail)) ->
     check_license_header env v p =
     determine_result (license_id v) (copyright_holder v)
       (table_flags (license_id v) (copyright_holder v) head)
     /\
     ((forall l, In l head ->
         contains "SPDX-License-Identifier:" l = false
         /\ contains "SPDX-FileCopyrightText:" l = false) ->
      check_license_header env v p
      = (false, "Missing both license and copyright headers")))
  /\
  (fs_read (env_fs env) p = ReadOk "" ->
   check_license_header env v p
   = (false, "Missing both license and copyright headers")).
Proof.
  intros Hlang. repeat split.
  - intros content Hread [l [Hl L]] [c [Hc C]].
    rewrite (check_license_header_read _ _ _ _ Hlang Hread).
    apply verdict_valid;
      [apply (existsb_intro _ _ l Hl L) | apply (existsb_intro _ _ c Hc C)].
  - intros content Hread El Ec [l [Hl [L1 L2]]] [c [Hc [C1 C2]]].
    rewrite (check_license_header_read _ _ _ _ Hlang Hread).
    apply verdict_valid;
      [apply (existsb_intro _ _ l Hl) | apply (existsb_intro _ _ c Hc)];
      apply declares_raw; auto.
  - rewrite (check_license_header_read _ _ _ _ Hlang H1).
    rewrite first_lines_join by assumption. reflexivity.
  - intros Hnone.
    rewrite (check_license_header_read _ _ _ _ Hlang H1).
    rewrite first_lines_join by assumption.
    apply verdict_missing_both; apply existsb_false_all; intros l Hl;
      rewrite has_marker_raw by reflexivity; apply Hnone, Hl.
  - intros Hread.
    rewrite (check_license_header_read _ _ _ _ Hlang Hread). reflexivity.
Qed.

Lemma check_license_header_first_ten_lines_witness :
  check_license_header Sample.run_env Sample.run_verifier "good.py"
  = (true, "Valid SPDX headers found")
  /\ check_license_header Sample.run_env Sample.run_verifier "late.py"
     = (false, "Missing both license and copyright headers")
  /\ check_license_header Sample.run_env Sample.run_verifier "empty.py"
     = (false, "Missing both license and copyright headers").
Proof.
  split; [|split].
  - assert (Hlang : no_language
                      (get_language_for_file Sample.run_verifier "good.py") = false)
      by (vm_compute; reflexivity).
    apply (proj1 (check_license_header_first_ten_lines Sample.run_env
                    Sample.run_verifier "good.py" Hlang) Sample.good_py).
    + vm_compute; reflexivity.
    + exists "# SPDX-License-Identifier: Apache-2.0".
      split; [vm_compute; left; reflexivity | vm_compute; reflexivity].
    + exists "# SPDX-FileCopyrightText: 2025 The Linux Foundation".
      split; [vm_compute; right; left; reflexivity | vm_compute; reflexivity].
  - assert (Hlang : no_language
                      (get_language_for_file Sample.run_verifier "late.py") = false)
      by (vm_compute; reflexivity).
    apply (proj1 (proj2 (proj2 (check_license_header_first_ten_lines
             Sample.run_env Sample.run_verifier "late.py" Hlang)))
             Sample.late_head Sample.late_tail).
    + reflexivity.
    + intros l Hl. simpl in Hl.
      repeat (destruct Hl as [<-|Hl]; [vm_compute; reflexivity|]). destruct Hl.
    + vm_compute; reflexivity.
    + intros l Hl. simpl in Hl.
      repeat (destruct Hl as [<-|Hl]; [split; vm_compute; reflexivity|]).
      destruct Hl.
  - assert (Hlang : no_language
                      (get_language_for_file Sample.run_verifier "empty.py") = false)
      by (vm_compute; reflexivity).
    apply (proj2 (proj2 (proj2 (check_license_header_first_ten_lines
             Sample.run_env Sample.run_verifier "empty.py" Hlang)))).
    vm_compute; reflexivity.
Defined.

(** C9, as stated, fails for the same reason as C2: the expected
    license ["MIT "] ends with a blank; the second of the first ten
    lines contains the license marker together with that text, yet the
    license is not classified correct and the verdict is a wrong
    license. *)
Lemma disjunctive_flags_raw_counterexample :
  no_language (get_language_for_file Sample.padded_verifier "a.py") = false /\
  fs_read (env_fs Sample.mixed_env) "a.py" = ReadOk Sample.mixed_py /\
  In Sample.padded_line (first_lines Sample.mixed_py) /\
  contains "SPDX-License-Identifier:" Sample.padded_line = true /\
  contains (license_id Sample.padded_verifier) Sample.padded_line = true /\
  correct_license (scan (license_id Sample.padded_verifier)
                        (copyright_holder Sample.padded_verifier)
                        Sample.mixed_py) = false /\
  check_license_header Sample.mixed_env Sample.padded_verifier "a.py"
  = (false, "Wrong license (expected MIT )").
Proof.
  split; [vm_compute; reflexivity|]. split; [vm_compute; reflexivity|].
  split; [vm_compute; right; left; reflexivity|]. repeat split; vm_compute; reflexivity.
Qed.

(** C9, amended. The flags accumulate disjunctively over the first ten
    lines, each taken without its leading and trailing white space:
    every flag is the disjunction of its test over those lines, so one
    line that contains the license marker together with the expected
    license makes the license correct whatever the other lines
    declare, and a file with such a line and a line that declares the
    expected holder is valid, also next to a declaration of another
    license. *)
Theorem check_license_header_flags_disjunctive
  (env : Env) (v : SPDXVerifier) (p content : string) :
  no_language (get_language_for_file v p) = false ->
  fs_read (env_fs env) p = ReadOk content ->
  scan (license_id v) (copyright_holder v) content
  = table_flags (license_id v) (copyright_holder v) (first_lines content)
  /\
  ((exists l, In l (first_lines content)
      /\ declares "SPDX-License-Identifier:" (license_id v) l = true) ->
   correct_license (scan (license_id v) (copyright_holder v) content) = true
   /\
   ((exists l, In l (first_lines content)
       /\ declares "SPDX-FileCopyrightText:" (copyright_holder v) l = true) ->
    check_license_header env v p = (true, "Valid SPDX headers found"))).
Proof.
  intros Hlang Hread. split; [apply scan_table|].
  intros [l [Hl L]]. split.
  - rewrite scan_table. unfold table_flags. cbn [correct_license].
    apply (existsb_intro _ _ l Hl L).
  - intros [c [Hc C]].
    rewrite (check_license_header_read _ _ _ _ Hlang Hread).
    apply verdict_valid;
      [apply (existsb_intro _ _ l Hl L) | apply (existsb_intro _ _ c Hc C)].
Qed.

Lemma check_license_header_flags_disjunctive_witness :
  has_marker "SPDX-License-Identifier:" "# SPDX-License-Identifier: MIT" = true
  /\ declares "SPDX-License-Identifier:" "Apache-2.0"
       "# SPDX-License-Identifier: MIT" = false
  /\ check_license_header Sample.run_env Sample.run_verifier "two.py"
     = (true, "Valid SPDX headers found").
Proof.
  split; [vm_compute; reflexivity|]. split; [vm_compute; reflexivity|].
  assert (Hlang : no_language
                    (get_language_for_file Sample.run_verifier "two.py") = false)
    by (vm_compute; reflexivity).
  assert (Hread : fs_read (env_fs Sample.run_env) "two.py"
                  = ReadOk Sample.two_licenses_py)
    by (vm_compute; reflexivity).
  apply (proj2 (check_license_header_flags_disjunctive Sample.run_env
           Sample.run_verifier "two.py" Sample.two_licenses_py Hlang Hread)).
  - exists "# SPDX-License-Identifier: Apache-2.0".
    split; [vm_compute; right; left; reflexivity | vm_compute; reflexivity].
  - exists "# SPDX-FileCopyrightText: 2025 The Linux Foundation".
    split; [vm_compute; right; right; left; reflexivity | vm_compute; reflexivity].
Defined.

(** With an empty expected value, declaring is carrying the marker. *)
Lemma declares_empty (marker raw : string) :
  declares marker "" raw = has_marker marker raw.
Proof.
  unfold declares, has_marker. rewrite contains_nil. apply andb_true_r.
Qed.

Lemma existsb_declares_empty (marker : string) (lines : list string) :
  existsb (declares marker "") lines = existsb (has_marker marker) lines.
Proof.
  induction lines as [|l r IH]; [reflexivity|].
  simpl. rewrite declares_empty, IH. reflexivity.
Qed.

(** C10. With an empty expected license every line that contains the
    license marker counts as a correct license, and likewise for an
    empty expected holder and the copyright marker; with both expected
    values empty the verdict is never a wrong license, a wrong
    copyright or wrong both: it is a pass, a missing-header failure or
    a read error. *)
Theorem check_license_header_empty_expectations
  (env : Env) (v : SPDXVerifier) (p : string) :
  (forall copyright content l,
     In l (first_lines content) ->
     contains "SPDX-License-Identifier:" l = true ->
     correct_license (scan "" copyright content) = true)
  /\
  (forall license content l,
     In l (first_lines content) ->
     contains "SPDX-FileCopyrightText:" l = true ->
     correct_copyright (scan license "" content) = true)
  /\
  (license_id v = "" -> copyright_holder v = "" ->
   check_license_header env v p = (true, "Valid SPDX headers found")
   \/ check_license_header env v p = (true, "Unknown file type, skipping")
   \/ check_license_header env v p
      = (false, "Missing both license and copyright headers")
   \/ check_license_header env v p = (false, "Missing license header")
   \/ check_license_header env v p = (false, "Missing copyright header")
   \/ exists e, check_license_header env v p
                = (false, "Error reading file: " ^^ e)).
Proof.
  split; [|split].
  - intros c content l Hl M. rewrite scan_table.
    unfold table_flags. cbn [correct_license correct_copyright].
    rewrite existsb_declares_empty. eapply existsb_intro; [exact Hl|].
    rewrite has_marker_raw by reflexivity. exact M.
  - intros c content l Hl M. rewrite scan_table.
    unfold table_flags. cbn [correct_license correct_copyright].
    rewrite existsb_declares_empty. eapply existsb_intro; [exact Hl|].
    rewrite has_marker_raw by reflexivity. exact M.
  - intros EL EC. unfold check_license_header.
    destruct (no_language (get_language_for_file v p)); [auto|].
    destruct (fs_read (env_fs env) p) as [content|e].
    + rewrite EL, EC, determine_result_table, scan_table.
      unfold table_flags.
      cbn [license_found copyright_found correct_license correct_copyright].
      rewrite !existsb_declares_empty.
      destruct (existsb (has_marker "SPDX-License-Identifier:") (first_lines content)),
        (existsb (has_marker "SPDX-FileCopyrightText:") (first_lines content));
        cbn [decision_table]; auto 6.
    + do 5 right. exists e. reflexivity.
Qed.

Lemma check_license_header_empty_expectations_witness :
  check_license_header Sample.run_env Sample.lax_verifier "two.py"
  = (true, "Valid SPDX headers found")
  \/ check_license_header Sample.run_env Sample.lax_verifier "two.py"
     = (true, "Unknown file type, skipping")
  \/ check_license_header Sample.run_env Sample.lax_verifier "two.py"
     = (false, "Missing both license and copyright headers")
  \/ check_license_header Sample.run_env Sample.lax_verifier "two.py"
     = (false, "Missing license header")
  \/ check_license_header Sample.run_env Sample.lax_verifier "two.py"
     = (false, "Missing copyright header")
  \/ exists e, check_license_header Sample.run_env Sample.lax_verifier "two.py"
               = (false, "Error reading file: " ^^ e).
Proof.
  apply (proj2 (proj2 (check_license_header_empty_expectations Sample.run_env
           Sample.lax_verifier "two.py"))); vm_compute; reflexivity.
Defined.

End HeaderClaims.

(* ================================================================== *)
(** ** Language registry: the claims *)

Section Resolution.

Import PyStr.
Import Documented.

Lemma legacy_match_find (name : string) (d : PyDict.dict) :
  legacy_match name d =
  option_map snd
    (find (fun e => String.eqb name (lower (fst e))
                    || endswith (lower (fst e)) name) d).
Proof.
  induction d as [|[ext l] r IH]; [reflexivity|].
  cbn [legacy_match find fst].
  destruct (String.eqb name (lower ext) || endswith (lower ext) name);
    [reflexivity | exact IH].
Qed.

Lemma default_mode_active_eq (v : SPDXVerifier) :
  (if enable_default_file_type v then true
   else if negb (disable_default_file_type v)
        then config_default_enabled (config v) else false)
  = default_mode_active v.
Proof.
  unfold default_mode_active.
  destruct (enable_default_file_type v), (disable_default_file_type v),
    (config_default_enabled (config v)); reflexivity.
Qed.

Lemma get_language_for_file_amended (v : SPDXVerifier) (p : string) :
  get_language_for_file v p = resolve_amended v p.
Proof.
  unfold get_language_for_file, resolve_amended, stage_extension,
    stage_filename, stage_legacy, stage_default_amended.
  cbn [first_match].
  destruct (PyDict.get (lower (PyPath.path_suffix p)) (ext_to_lang v));
    [reflexivity|].
  destruct (PyDict.get (lower (PyPath.path_name p)) (filename_to_lang v));
    [reflexivity|].
  rewrite legacy_match_find.
  destruct (option_map snd _); [reflexivity|].
  rewrite default_mode_active_eq.
  destruct (default_mode_active v); [|reflexivity].
  unfold override_present, keep_valid, valid_language.
  destruct (default_file_type_override v) as [o|].
  - destruct (truthy o) eqn:T; [rewrite T|].
    + destruct (mem o (map fst (languages (config v)))); reflexivity.
    + destruct (config_default_language (config v)) as [l|]; [|reflexivity].
      destruct (truthy l && mem l (map fst (languages (config v))));
        reflexivity.
  - destruct (config_default_language (config v)) as [l|]; [|reflexivity].
    destruct (truthy l && mem l (map fst (languages (config v)))); reflexivity.
Qed.

(** The documented stage 4 and the amended one part only on an
    override that is present and not valid. *)
Lemma stage_default_agree (v : SPDXVerifier) :
  (forall o, override_present v = Some o -> valid_language v o = true) ->
  stage_default_amended v = stage_default v.
Proof.
  intros H. unfold stage_default_amended, stage_default.
  destruct (default_mode_active v); [|reflexivity].
  destruct (override_present v) as [o|] eqn:O; cbn [first_match keep_valid].
  - rewrite (H o eq_refl). reflexivity.
  - destruct (config_default_language (config v)) as [l|]; [|reflexivity].
    cbn [keep_valid]. destruct (valid_language v l); reflexivity.
Qed.

(** C3, as stated, fails: with default mode on and Python as the
    configured fallback language, an override that names no configured
    language leaves a file of unknown type without a language, where
    the documented order falls back to Python. *)
Lemma invalid_override_counterexample :
  get_language_for_file (Sample.fallback_verifier (Some "cobol")) "README" = None
  /\ resolve (Sample.fallback_verifier (Some "cobol")) "README" = Some "python".
Proof. split; vm_compute; reflexivity. Qed.

(** C3, amended. [get_language_for_file] resolves in this order, the
    first match winning: the extension against the registered
    extensions, in lower case; the file name against the registered
    file names, in lower case; the first registered extension the file
    name equals or ends with; then, in default mode (enabled by the
    caller, or enabled by the configuration and not disabled by the
    caller), the override of the caller when there is one, and the
    configured fallback language when there is none, provided it names
    a configured language; none otherwise. An override that names no
    configured language gives none: the configured fallback is not
    consulted. This is the documented order whenever the override, if
    present, is valid. *)
Theorem get_language_for_file_resolution (v : SPDXVerifier) (p : string) :
  get_language_for_file v p = resolve_amended v p
  /\
  ((forall o, override_present v = Some o -> valid_language v o = true) ->
   get_language_for_file v p = resolve v p)
  /\
  (forall o,
     unregistered v p -> default_mode_active v = true ->
     override_present v = Some o ->
     get_language_for_file v p = if valid_language v o then Some o else None)
  /\
  (unregistered v p -> default_mode_active v = true ->
   override_present v = None ->
   get_language_for_file v p = keep_valid v (config_default_language (config v)))
  /\
  (unregistered v p -> default_mode_active v = false ->
   get_language_for_file v p = None).
Proof.
  split; [apply get_language_for_file_amended|].
  split; [|split; [|split]].
  - intros H. rewrite get_language_for_file_amended.
    unfold resolve_amended, resolve. rewrite (stage_default_agree v H).
    reflexivity.
  - intros o (E & F & L) A O. rewrite get_language_for_file_amended.
    unfold resolve_amended, stage_default_amended.
    rewrite E, F, L, A, O. cbn [first_match keep_valid].
    destruct (valid_language v o); reflexivity.
  - intros (E & F & L) A O. rewrite get_language_for_file_amended.
    unfold resolve_amended, stage_default_amended.
    rewrite E, F, L, A, O. cbn [first_match].
    destruct (keep_valid v (config_default_language (config v))); reflexivity.
  - intros (E & F & L) A. rewrite get_language_for_file_amended.
    unfold resolve_amended, stage_default_amended.
    rewrite E, F, L, A. reflexivity.
Qed.

End Resolution.

Lemma get_language_for_file_resolution_witness :
  get_language_for_file (Sample.fallback_verifier (Some "cobol")) "README" = None
  /\ get_language_for_file (Sample.fallback_verifier (Some "shell")) "README"
     = Documented.resolve (Sample.fallback_verifier (Some "shell")) "README".
Proof.
  split.
  - apply (proj1 (proj2 (proj2 (get_language_for_file_resolution
                                  (Sample.fallback_verifier (Some "cobol"))
                                  "README"))) "cobol").
    + repeat split; vm_compute; reflexivity.
    + vm_compute; reflexivity.
    + vm_compute; reflexivity.
  - apply (proj1 (proj2 (get_language_for_file_resolution
                           (Sample.fallback_verifier (Some "shell")) "README"))).
    intros o H. vm_compute in H. injection H as <-. vm_compute; reflexivity.
Defined.

Section RegistryInvariant.

Import PyStr.
Import Documented.

Lemma dict_get_set (k v k' : string) (d : PyDict.dict) :
  PyDict.get k' (PyDict.set k v d) =
  if String.eqb k k' then Some v else PyDict.get k' d.
Proof.
  induction d as [|[a b] r IH]; cbn [PyDict.set PyDict.get].
  - reflexivity.
  - destruct (String.eqb a k) eqn:E; cbn [PyDict.get].
    + apply String.eqb_eq in E. subst a.
      destruct (String.eqb k k'); reflexivity.
    + rewrite IH. destruct (String.eqb a k') eqn:E'; [|reflexivity].
      apply String.eqb_eq in E'. subst a. rewrite String.eqb_sym, E.
      reflexivity.
Qed.

Lemma dict_keys_set (k v : string) (d : PyDict.dict) :
  PyDict.keys (PyDict.set k v d) =
  if mem k (PyDict.keys d) then PyDict.keys d else PyDict.keys d ++ [k].
Proof.
  unfold PyDict.keys, mem.
  induction d as [|[a b] r IH]; cbn [PyDict.set map fst existsb].
  - reflexivity.
  - rewrite (String.eqb_sym k a). destruct (String.eqb a k) eqn:E.
    + reflexivity.
    + cbn [map fst orb]. rewrite IH.
      destruct (existsb (String.eqb k) (map fst r)); reflexivity.
Qed.

Lemma mem_In (x : string) (xs : list string) :
  mem x xs = true <-> In x xs.
Proof.
  unfold mem. rewrite existsb_exists. split.
  - intros [y [Hy E]]. apply String.eqb_eq in E. subst y. exact Hy.
  - intros H. exists x. split; [exact H | apply String.eqb_refl].
Qed.

Lemma mem_not_In (x : string) (xs : list string) :
  mem x xs = false <-> ~ In x xs.
Proof.
  rewrite <- mem_In. destruct (mem x xs); split; congruence.
Qed.

(** Assignment keeps the keys of a dictionary distinct. *)
Lemma dict_set_nodup (k v : string) (d : PyDict.dict) :
  NoDup (PyDict.keys d) -> NoDup (PyDict.keys (PyDict.set k v d)).
Proof.
  intros H. rewrite dict_keys_set. destruct (mem k (PyDict.keys d)) eqn:E.
  - exact H.
  - apply mem_not_In in E. apply NoDup_app; [exact H | repeat constructor; auto |].
    intros x Hx [<-|[]]. auto.
Qed.

Lemma register_keys_nodup (name : string) (ks : option (list string))
  (d : PyDict.dict) :
  NoDup (PyDict.keys d) -> NoDup (PyDict.keys (register_keys name ks d)).
Proof.
  destruct ks as [l|]; [|auto]. cbn [register_keys].
  revert d. induction l as [|k r IH]; intros d H; [exact H|].
  cbn [fold_left]. apply IH, dict_set_nodup, H.
Qed.

Lemma register_keys_get (name : string) (ks : option (list string))
  (d : PyDict.dict) (ext : string) :
  PyDict.get ext (register_keys name ks d) =
  if match ks with Some l => mem ext (map lower l) | None => false end
  then Some name else PyDict.get ext d.
Proof.
  destruct ks as [l|]; [|reflexivity]. cbn [register_keys].
  revert d. induction l as [|k r IH]; intros d; [reflexivity|].
  cbn [fold_left map]. rewrite IH, dict_get_set.
  unfold mem. cbn [existsb]. rewrite (String.eqb_sym ext (lower k)).
  destruct (existsb (String.eqb ext) (map lower r));
    destruct (String.eqb (lower k) ext); reflexivity.
Qed.

Lemma last_cons {A : Type} (a d : A) (l : list A) :
  last (a :: l) d = last l a.
Proof.
  revert a d. induction l as [|b l IH]; intros a d; [reflexivity|].
  change (last (a :: b :: l) d) with (last (b :: l) d).
  rewrite (IH b d), (IH b a). reflexivity.
Qed.

(** The state of the loop over the languages, from any start. *)
Lemma registry_loop (dbg : bool) (ls : list (string * LangConfig)) (r : Registry) :
  let r' := fold_left (register_language dbg) ls r in
  (NoDup (PyDict.keys (registry_extensions r)) ->
   NoDup (PyDict.keys (registry_extensions r')))
  /\ (NoDup (PyDict.keys (registry_filenames r)) ->
      NoDup (PyDict.keys (registry_filenames r')))
  /\ (forall ext,
        PyDict.get ext (registry_extensions r') =
        last (map Some (claimants extensions
                {| languages := ls; default_skip_patterns := [];
                   default_file_type := None |} ext))
             (PyDict.get ext (registry_extensions r)))
  /\ (forall name,
        PyDict.get name (registry_filenames r') =
        last (map Some (claimants filenames
                {| languages := ls; default_skip_patterns := [];
                   default_file_type := None |} name))
             (PyDict.get name (registry_filenames r)))
  /\ (forall e, In e (registry_warnings r') ->
        In e (registry_warnings r)
        \/ exists n lc, e = EvLangMissingKeys n /\ dbg = true /\ In (n, lc) ls
                        /\ extensions lc = None /\ filenames lc = None).
Proof.
  revert r. induction ls as [|[n lc] rest IH]; intros r.
  - cbn. repeat split; auto.
  - cbn [fold_left]. specialize (IH (register_language dbg r (n, lc))).
    cbv zeta in IH |- *. destruct IH as (I1 & I2 & I3 & I4 & I5).
    destruct r as [[e2l f2l] evs].
    unfold registry_extensions, registry_filenames, registry_warnings in *.
    cbn [register_language fst snd] in *.
    split; [|split; [|split; [|split]]].
    + intros H. apply I1, register_keys_nodup, H.
    + intros H. apply I2, register_keys_nodup, H.
    + intros ext. rewrite I3, register_keys_get.
      unfold claimants. cbn [languages filter snd].
      destruct (match extensions lc with
                | Some l => mem ext (map lower l) | None => false end);
        [|reflexivity].
      cbn [map fst]. symmetry. apply last_cons.
    + intros name. rewrite I4, register_keys_get.
      unfold claimants. cbn [languages filter snd].
      destruct (match filenames lc with
                | Some l => mem name (map lower l) | None => false end);
        [|reflexivity].
      cbn [map fst]. symmetry. apply last_cons.
    + intros e He. destruct (I5 e He) as [H|(m & c & E & Dm & Hin & X & F)].
      * destruct (extensions lc) eqn:X, (filenames lc) eqn:F; auto.
        destruct dbg; auto. apply in_app_or in H as [H|[<-|[]]]; auto.
        right. exists n, lc. repeat split; auto. left; reflexivity.
      * right. exists m, c. repeat split; auto. right; exact Hin.
Qed.

Lemma claimants_languages (key : LangConfig -> option (list string))
  (cfg : Config) (ext : string) :
  claimants key {| languages := languages cfg; default_skip_patterns := [];
                   default_file_type := None |} ext
  = claimants key cfg ext.
Proof. reflexivity. Qed.

(** C4, as stated, fails: two profiles of the configuration claim
    [.h]; the constructor prints nothing, also in debug mode, and the
    verifier resolves [x.h] to the second of them. *)
Lemma contested_extension_counterexample :
  contested (load_config (ConfigLoaded Sample.contested_file)) ".h" /\
  build_registry true (load_config (ConfigLoaded Sample.contested_file))
  = ([(".c", "c"); (".h", "cpp"); (".cpp", "cpp")], [], []) /\
  snd (SPDXVerifier_init Sample.contested_env "Apache-2.0" "ACME" None
         true false false None None) = [] /\
  get_language_for_file
    (fst (SPDXVerifier_init Sample.contested_env "Apache-2.0" "ACME" None
            true false false None None)) "x.h" = Some "cpp".
Proof.
  split; [|repeat split; vm_compute; reflexivity].
  exists "c", "cpp". split; [discriminate|].
  split; vm_compute; auto.
Qed.

(** The registry of a configuration. *)
Lemma build_registry_spec (dbg : bool) (cfg : Config) :
  NoDup (PyDict.keys (registry_extensions (build_registry dbg cfg)))
  /\ NoDup (PyDict.keys (registry_filenames (build_registry dbg cfg)))
  /\ (forall ext,
        PyDict.get ext (registry_extensions (build_registry dbg cfg))
        = winner extensions cfg ext)
  /\ (forall name,
        PyDict.get name (registry_filenames (build_registry dbg cfg))
        = winner filenames cfg name)
  /\ (forall e, In e (registry_warnings (build_registry dbg cfg)) ->
        exists n lc, e = EvLangMissingKeys n /\ dbg = true
                     /\ In (n, lc) (languages cfg)
                     /\ extensions lc = None /\ filenames lc = None).
Proof.
  pose proof (registry_loop dbg (languages cfg) ([], [], [])) as H.
  cbv zeta in H. destruct H as (H1 & H2 & H3 & H4 & H5).
  fold (build_registry dbg cfg) in *.
  split; [apply H1; constructor|]. split; [apply H2; constructor|].
  split; [|split].
  - intros ext. rewrite H3, claimants_languages. reflexivity.
  - intros name. rewrite H4, claimants_languages. reflexivity.
  - intros e He. destruct (H5 e He) as [[]|H]. exact H.
Qed.

(** The verifier carries the registry of its configuration. *)
Lemma init_registry (env : Env) (license copyright : string)
  (user : option (list string)) (dbg disable enable : bool)
  (override directory : option string) :
  let v := fst (SPDXVerifier_init env license copyright user dbg disable
                  enable override directory) in
  ext_to_lang v
  = registry_extensions (build_registry dbg (load_config (env_config_file env)))
  /\ filename_to_lang v
     = registry_filenames (build_registry dbg (load_config (env_config_file env))).
Proof.
  unfold SPDXVerifier_init.
  destruct (build_registry dbg (load_config (env_config_file env))) as [[e f] w].
  destruct (compile_skip_patterns _ _ _). split; reflexivity.
Qed.

(** What the last step of the constructor prints, and when. *)
Lemma compile_skip_patterns_events (env : Env) (dbg : bool) (pats : list string)
  (e : Event) :
  In e (snd (compile_skip_patterns env dbg pats)) ->
  e = EvPathspecCompileFailed /\ dbg = true
  /\ exists from_lines,
       env_pathspec env = Some from_lines /\ from_lines pats = None.
Proof.
  unfold compile_skip_patterns.
  destruct (env_pathspec env) as [from_lines|]; [|intros []].
  destruct (nonempty pats); [|intros []].
  destruct (from_lines pats) eqn:C; [intros []|].
  destruct dbg; [|intros []].
  intros [<-|[]]. repeat split. exists from_lines. split; [reflexivity | exact C].
Qed.

(** Every line the constructor prints, with its cause. *)
Lemma init_events (env : Env) (license copyright : string)
  (user : option (list string)) (dbg disable enable : bool)
  (override directory : option string) (e : Event) :
  let init := SPDXVerifier_init env license copyright user dbg disable
                enable override directory in
  In e (snd init) ->
  (exists m, e = EvConfigWarning m /\ env_config_file env = ConfigUnreadable m)
  \/ (exists n, e = EvGitignoreLoaded n /\ dbg = true)
  \/ (exists n lc,
        e = EvLangMissingKeys n /\ dbg = true
        /\ In (n, lc) (languages (load_config (env_config_file env)))
        /\ extensions lc = None /\ filenames lc = None)
  \/ (e = EvPathspecCompileFailed /\ dbg = true
      /\ exists from_lines,
           env_pathspec env = Some from_lines
           /\ from_lines (skip_patterns (fst init)) = None).
Proof.
  cbv zeta. unfold SPDXVerifier_init.
  pose proof (build_registry_spec dbg (load_config (env_config_file env)))
    as (_ & _ & _ & _ & W).
  destruct (build_registry dbg (load_config (env_config_file env)))
    as [[e2l f2l] w].
  unfold registry_warnings in W. cbn [snd] in W.
  destruct (compile_skip_patterns env dbg _) as [matcher evp] eqn:C.
  cbn [fst snd skip_patterns]. rewrite !in_app_iff.
  intros [H|[H|[H|H]]].
  - left. destruct (env_config_file env) as [|m|l];
      [destruct H | | destruct H].
    destruct H as [<-|[]]. exists m. split; reflexivity.
  - right. left. destruct dbg; [|destruct H].
    cbn [andb] in H. destruct (nonempty _); [|destruct H].
    destruct H as [<-|[]]. eexists. split; reflexivity.
  - right. right. left. apply W, H.
  - right. right. right.
    apply (compile_skip_patterns_events env dbg). rewrite C. exact H.
Qed.

(** C4, amended. In the verifier the constructor builds, every
    extension and every file name maps to at most one profile: the
    keys of both dictionaries are distinct. A key claimed by several
    profiles is not detected: it resolves to the profile that comes
    last in the configuration, a file with a contested extension is
    given that language, and nothing the constructor prints is about
    it: a line it prints is the warning of [load_config] for a
    configuration file that cannot be loaded or, in debug mode, the
    count of the patterns of the ignore file, the warning about a
    profile with neither extensions nor file names, or the warning
    that the skip patterns could not be compiled. *)
Theorem init_registry_last_claimant_wins (env : Env) (license copyright : string)
  (user : option (list string)) (dbg disable enable : bool)
  (override directory : option string) :
  let cfg := load_config (env_config_file env) in
  let init := SPDXVerifier_init env license copyright user dbg disable
                enable override directory in
  NoDup (PyDict.keys (ext_to_lang (fst init)))
  /\ NoDup (PyDict.keys (filename_to_lang (fst init)))
  /\ (forall ext,
        PyDict.get ext (ext_to_lang (fst init)) = winner extensions cfg ext)
  /\ (forall name,
        PyDict.get name (filename_to_lang (fst init)) = winner filenames cfg name)
  /\ (forall p l,
        winner extensions cfg (lower (PyPath.path_suffix p)) = Some l ->
        get_language_for_file (fst init) p = Some l)
  /\ (forall e, In e (snd init) ->
        (exists m, e = EvConfigWarning m
                   /\ env_config_file env = ConfigUnreadable m)
        \/ (exists n, e = EvGitignoreLoaded n /\ dbg = true)
        \/ (exists n lc,
              e = EvLangMissingKeys n /\ dbg = true
              /\ In (n, lc) (languages cfg)
              /\ extensions lc = None /\ filenames lc = None)
        \/ (e = EvPathspecCompileFailed /\ dbg = true
            /\ exists from_lines,
                 env_pathspec env = Some from_lines
                 /\ from_lines (skip_patterns (fst init)) = None)).
Proof.
  cbv zeta.
  destruct (init_registry env license copyright user dbg disable enable
              override directory) as [E F]. cbv zeta in E, F.
  destruct (build_registry_spec dbg (load_config (env_config_file env)))
    as (N1 & N2 & G1 & G2 & _).
  rewrite E, F.
  split; [exact N1|]. split; [exact N2|]. split; [exact G1|].
  split; [exact G2|]. split.
  - intros p l W. unfold get_language_for_file. rewrite E, G1, W. reflexivity.
  - intros e. apply init_events.
Qed.

Lemma init_registry_last_claimant_wins_witness :
  get_language_for_file
    (fst (SPDXVerifier_init Sample.contested_env "Apache-2.0" "ACME" None
            true false false None None)) "include/x.H" = Some "cpp"
  /\ ((exists m, EvLangMissingKeys "notes" = EvConfigWarning m
                 /\ env_config_file Sample.keyless_env = ConfigUnreadable m)
      \/ (exists n, EvLangMissingKeys "notes" = EvGitignoreLoaded n /\ true = true)
      \/ (exists n lc,
            EvLangMissingKeys "notes" = EvLangMissingKeys n /\ true = true
            /\ In (n, lc)
                  (languages (load_config (env_config_file Sample.keyless_env)))
            /\ extensions lc = None /\ filenames lc = None)
      \/ (EvLangMissingKeys "notes" = EvPathspecCompileFailed /\ true = true
          /\ exists from_lines,
               env_pathspec Sample.keyless_env = Some from_lines
               /\ from_lines
                    (skip_patterns
                       (fst (SPDXVerifier_init Sample.keyless_env "Apache-2.0"
                               "ACME" None true false false None None)))
                  = None)).
Proof.
  split.
  - apply (proj1 (proj2 (proj2 (proj2 (proj2
             (init_registry_last_claimant_wins Sample.contested_env
                "Apache-2.0" "ACME" None true false false None None)))))).
    vm_compute; reflexivity.
  - apply (proj2 (proj2 (proj2 (proj2 (proj2
             (init_registry_last_claimant_wins Sample.keyless_env
                "Apache-2.0" "ACME" None true false false None None)))))).
    vm_compute. left. reflexivity.
Defined.

End RegistryInvariant.

(* ================================================================== *)
(** ** Skip-rule engine: the claims *)

Section SkipRules.

Import PyStr.
Import Documented.

Lemma same_membersb_sound (a b : list string) :
  same_membersb a b = true -> same_members a b.
Proof.
  unfold same_membersb, same_members. intros H x.
  apply andb_true_iff in H as [H1 H2].
  rewrite forallb_forall in H1, H2. split; intros Hx.
  - apply mem_In, H1, Hx.
  - apply mem_In, H2, Hx.
Qed.

Lemma existsb_same_members (f : string -> bool) (a b : list string) :
  same_members a b -> existsb f a = existsb f b.
Proof.
  intros H. apply eq_true_iff_eq. rewrite !existsb_exists.
  split; intros [x [Hx F]]; exists x; split; auto; apply H, Hx.
Qed.

(** The fallback loop is a disjunction over the patterns. *)
Lemma skip_loop_existsb (env : Env) (path_s rel : string) (pats : list string) :
  skip_loop env path_s rel pats =
  existsb (fun pattern => _glob_match env path_s pattern
                          || _glob_match env rel pattern) pats.
Proof.
  induction pats as [|q r IH]; [reflexivity|].
  cbn [skip_loop existsb]. rewrite IH.
  destruct (_glob_match env path_s q || _glob_match env rel q); reflexivity.
Qed.

Lemma insertion_order_from_spec (seen xs : list string) :
  NoDup (insertion_order_from seen xs)
  /\ forall x, In x (insertion_order_from seen xs) <-> In x xs /\ ~ In x seen.
Proof.
  revert seen. induction xs as [|a r IH]; intros seen.
  - split; [constructor|]. cbn. tauto.
  - cbn [insertion_order_from]. destruct (mem a seen) eqn:M.
    + apply mem_In in M. destruct (IH seen) as [N S]. split; [exact N|].
      intros x. rewrite S. cbn. split; [tauto|].
      intros [[<-|H] K]; [contradiction | tauto].
    + apply mem_not_In in M. destruct (IH (a :: seen)) as [N S]. split.
      * constructor; [|exact N]. rewrite S. cbn. tauto.
      * intros x. cbn [In]. rewrite S. cbn. split.
        -- intros [<-|[H K]]; [tauto|]. split; [tauto|]. tauto.
        -- intros [[<-|H] K]; [tauto|].
           destruct (string_dec a x) as [E|E]; [tauto|]. right. tauto.
Qed.

Lemma insertion_order_ok : set_order_ok insertion_order.
Proof.
  intros xs. destruct (insertion_order_from_spec [] xs) as [N S].
  split; [exact N|]. intros x. unfold insertion_order. rewrite S. cbn. tauto.
Qed.

Lemma reversed_order_ok (order : list string -> list string) :
  set_order_ok order -> set_order_ok (fun xs => rev (order xs)).
Proof.
  intros O xs. destruct (O xs) as [N S]. split.
  - apply NoDup_rev, N.
  - intros x. rewrite <- in_rev. apply S.
Qed.

(** The patterns and the matcher the constructor leaves in the object. *)
Lemma init_skip_patterns (env : Env) (license copyright : string)
  (user : option (list string)) (dbg disable enable : bool)
  (override directory : option string) :
  let v := fst (SPDXVerifier_init env license copyright user dbg disable
                  enable override directory) in
  skip_patterns v = env_set_order env (skip_sources env user directory)
  /\ pathspec_matcher v
     = fst (compile_skip_patterns env dbg (skip_patterns v)).
Proof.
  unfold SPDXVerifier_init, skip_sources.
  destruct (build_registry dbg (load_config (env_config_file env))) as [[e f] w].
  destruct (compile_skip_patterns env dbg _) eqn:E.
  cbn [fst skip_patterns pathspec_matcher]. rewrite E. split; reflexivity.
Qed.

(** C5, as stated, fails when the patterns are compiled by a matcher
    for which the order of the patterns matters, as it does in
    gitignore matching. With a [.gitignore] that ignores [notes.txt]
    and a caller that re-includes it, the file is kept when the set
    lists its members in order of insertion and skipped when it lists
    them the other way round: the decision is not a function of the
    set. And with the members listed in order of insertion, exchanging
    the two sources, which leaves the set as it is, turns the decision
    round as well. *)
Lemma should_skip_file_order_counterexample :
  set_order_ok (env_set_order Sample.ignore_then_keep) /\
  set_order_ok (env_set_order (Sample.reversed Sample.ignore_then_keep)) /\
  should_skip_file Sample.ignore_then_keep
    (Sample.verifier Sample.ignore_then_keep "Apache-2.0" "ACME"
       (Some ["!notes.txt"])) "notes.txt" = false /\
  should_skip_file (Sample.reversed Sample.ignore_then_keep)
    (Sample.verifier (Sample.reversed Sample.ignore_then_keep)
       "Apache-2.0" "ACME" (Some ["!notes.txt"])) "notes.txt" = true /\
  env_set_order Sample.keep_then_ignore = env_set_order Sample.ignore_then_keep /\
  same_members
    (skip_sources Sample.ignore_then_keep (Some ["!notes.txt"]) None)
    (skip_sources Sample.keep_then_ignore (Some ["notes.txt"]) None) /\
  should_skip_file Sample.keep_then_ignore
    (Sample.verifier Sample.keep_then_ignore "Apache-2.0" "ACME"
       (Some ["notes.txt"])) "notes.txt" = true.
Proof.
  split; [apply insertion_order_ok|].
  split; [apply reversed_order_ok, insertion_order_ok|].
  split; [vm_compute; reflexivity|]. split; [vm_compute; reflexivity|].
  split; [reflexivity|].
  split; [apply same_membersb_sound; vm_compute; reflexivity|].
  vm_compute; reflexivity.
Qed.

(** C5, amended. When the verifier matches with its own fallback
    matcher, the decision of [should_skip_file] depends only on the set
    of skip patterns: two verifiers whose three sources of patterns
    have the same members, in whatever order and with whatever
    duplicates, and however the set lists its members, decide alike on
    every path. When the patterns were compiled, the decision is that
    of the compiled matcher on the path and on its name. Evaluation is
    a function of the verifier and the path and changes neither. *)
Theorem should_skip_file_depends_on_pattern_set
  (env env' : Env) (license copyright license' copyright' : string)
  (user user' : option (list string))
  (dbg disable enable dbg' disable' enable' : bool)
  (override directory override' directory' : option string) (path : string) :
  let v := fst (SPDXVerifier_init env license copyright user dbg disable
                  enable override directory) in
  let v' := fst (SPDXVerifier_init env' license' copyright' user' dbg' disable'
                   enable' override' directory') in
  (set_order_ok (env_set_order env) ->
   set_order_ok (env_set_order env') ->
   env_fnmatch env = env_fnmatch env' ->
   pathspec_matcher v = None ->
   pathspec_matcher v' = None ->
   same_members (skip_sources env user directory)
                (skip_sources env' user' directory') ->
   should_skip_file env v path = should_skip_file env' v' path)
  /\
  (forall match_file,
     pathspec_matcher v = Some match_file ->
     should_skip_file env v path
     = match_file (PyPath.path_str path) || match_file (PyPath.path_name path)).
Proof.
  cbv zeta. split.
  - intros O O' F M M' S. unfold should_skip_file. rewrite M, M'.
    rewrite !skip_loop_existsb.
    destruct (init_skip_patterns env license copyright user dbg disable enable
                override directory) as [P _].
    destruct (init_skip_patterns env' license' copyright' user' dbg' disable'
                enable' override' directory') as [P' _].
    cbv zeta in P, P'. rewrite P, P'.
    unfold _glob_match, glob_match_body. rewrite F.
    apply existsb_same_members. intros x.
    rewrite (proj2 (O _) x), (proj2 (O' _) x). apply S.
  - intros m M. unfold should_skip_file. rewrite M. reflexivity.
Qed.

Lemma should_skip_file_depends_on_pattern_set_witness :
  should_skip_file Sample.run_env
    (Sample.verifier Sample.run_env "Apache-2.0" "ACME"
       (Some ["*.tmp"; "docs"])) "docs/guide.tmp"
  = should_skip_file Sample.run_env
      (Sample.verifier Sample.run_env "MIT" "ACME"
         (Some ["docs"; "*.tmp"; "*.log"; "docs"])) "docs/guide.tmp".
Proof.
  apply (proj1 (should_skip_file_depends_on_pattern_set Sample.run_env
           Sample.run_env "Apache-2.0" "ACME" "MIT" "ACME"
           (Some ["*.tmp"; "docs"]) (Some ["docs"; "*.tmp"; "*.log"; "docs"])
           false false false false false false None None None None
           "docs/guide.tmp")).
  - apply insertion_order_ok.
  - apply insertion_order_ok.
  - reflexivity.
  - vm_compute; reflexivity.
  - vm_compute; reflexivity.
  - apply same_membersb_sound. vm_compute; reflexivity.
Defined.

(** C6, as stated, fails: [?] is a wildcard of shell-style matching,
    and [file?.py] matches [file1.py] that way; [_glob_match] looks for
    [*] only, takes the pattern for a literal and finds it neither in
    the path nor equal to the name. *)
Lemma question_mark_counterexample :
  has_wildcard "file?.py" = true
  /\ env_fnmatch Sample.run_env "file1.py" "file?.py" = Ok true
  /\ glob_match Sample.run_env "file1.py" "file?.py" = true
  /\ _glob_match Sample.run_env "file1.py" "file?.py" = false.
Proof. repeat split; vm_compute; reflexivity. Qed.

(** C6, amended. [_glob_match] answers with a boolean for every path
    and every pattern, whatever [fnmatch] does. A pattern that
    contains [*] is matched shell-style against the full path and,
    when that gives no match, against the bare name; an error raised
    by either call gives [false], and an error in the match against
    the full path does so even when the bare name would match. A
    pattern without [*], also one with [?] or a
    bracket, is not handed to [fnmatch] at all: it matches when the
    full path contains it or the bare name equals it. The answer is
    the documented one for every pattern that contains [*] or no
    wildcard character at all. *)
Theorem glob_match_never_raises (env : Env) (path pattern : string) :
  (contains "*" pattern = true ->
   (env_fnmatch env path pattern = Ok true ->
    _glob_match env path pattern = true)
   /\ (forall b,
         env_fnmatch env path pattern = Ok false ->
         env_fnmatch env (PyPath.path_name path) pattern = Ok b ->
         _glob_match env path pattern = b)
   /\ (forall e,
         env_fnmatch env path pattern = Ok false ->
         env_fnmatch env (PyPath.path_name path) pattern = Raise e ->
         _glob_match env path pattern = false)
   /\ (forall e,
         env_fnmatch env path pattern = Raise e ->
         _glob_match env path pattern = false))
  /\
  (contains "*" pattern = false ->
   forall env',
     _glob_match env' path pattern
     = contains pattern path || String.eqb pattern (PyPath.path_name path))
  /\
  (contains "*" pattern = true \/ has_wildcard pattern = false ->
   _glob_match env path pattern = glob_match env path pattern).
Proof.
  unfold _glob_match, glob_match, glob_match_body, has_wildcard.
  split; [|split].
  - intros W. rewrite W. split; [|split; [|split]].
    + intros A. rewrite A. reflexivity.
    + intros b A B. rewrite A. cbn. rewrite B. reflexivity.
    + intros e A B. rewrite A. cbn. rewrite B. reflexivity.
    + intros e A. rewrite A. reflexivity.
  - intros W env'. rewrite W. reflexivity.
  - intros [W|W].
    + rewrite W. reflexivity.
    + rewrite W. apply orb_false_iff in W as [W _].
      apply orb_false_iff in W as [W _]. rewrite W. reflexivity.
Qed.

Lemma glob_match_never_raises_witness :
  _glob_match Sample.run_env "static/app.min.js" "*.min.js" = true
  /\ _glob_match Sample.run_env "node_modules/pkg/index.js" "node_modules"
     = true
  /\ _glob_match
       (Sample.with_broken_fnmatch Sample.run_env) "static/app.min.js" "*.min.js"
     = false
  /\ _glob_match Sample.run_env "file1.py" "file?.py"
     = contains "file?.py" "file1.py" || String.eqb "file?.py" "file1.py".
Proof.
  split; [|split; [|split]].
  - apply (proj1 (proj1 (glob_match_never_raises Sample.run_env
             "static/app.min.js" "*.min.js") ltac:(vm_compute; reflexivity))).
    vm_compute; reflexivity.
  - rewrite (proj1 (proj2 (glob_match_never_raises Sample.run_env
               "node_modules/pkg/index.js" "node_modules"))
               ltac:(vm_compute; reflexivity) Sample.run_env).
    vm_compute; reflexivity.
  - apply (proj2 (proj2 (proj2 (proj1 (glob_match_never_raises
             (Sample.with_broken_fnmatch Sample.run_env)
             "static/app.min.js" "*.min.js") ltac:(vm_compute; reflexivity))))
             "error").
    vm_compute; reflexivity.
  - apply (proj1 (proj2 (glob_match_never_raises Sample.run_env
             "file1.py" "file?.py")) ltac:(vm_compute; reflexivity)).
Defined.

End SkipRules.

(* ================================================================== *)
(** ** REUSE compliance: the claims *)

Section Compliance.

Import PyStr.
Import Documented.






Lemma flat_map_filter {A B : Type} (f : A -> bool) (g : A -> B) (l : list A) :
  flat_map (fun x => if f x then [] else [g x]) l
  = map g (filter (fun x => negb (f x)) l).
Proof.
  induction l as [|a l IH]; [reflexivity|].
  cbn [flat_map filter]. rewrite IH. destruct (f a); reflexivity.
Qed.




(** When [LICENSES] exists and cannot be listed, the call raises. *)
Lemma verify_reuse_compliance_not_listed (env : Env) (tracked : list string)
  (root : string) :
  fs_exists (env_fs env) (PyPath.path_join root "LICENSES") = true ->
  fs_iterdir (env_fs env) (PyPath.path_join root "LICENSES") = None ->
  verify_reuse_compliance env tracked root = Raise "NotADirectoryError".
Proof.
  intros E L. unfold verify_reuse_compliance. rewrite E, L. reflexivity.
Qed.

(** C7. The code departs from the claim when [LICENSES] under the root
    is a regular file. There is no [LICENSES] directory then, and the
    call returns neither the issue about the missing directory nor any
    other: the entry exists, so the check goes on, and listing it
    raises [NotADirectoryError], which nothing catches. The run ends
    with exit status 1 where its one file passed, and prints no line
    about REUSE compliance. *)
Theorem verify_reuse_compliance_licenses_file :
  fs_exists Fixtures.licenses_file_fs "/repo/LICENSES" = true
  /\ fs_is_dir Fixtures.licenses_file_fs "/repo/LICENSES" = false
  /\ find_git_root Fixtures.licenses_file_env = Some "/repo"
  /\ get_git_tracked_files Fixtures.licenses_file_env
     = Some ["/repo/LICENSES"; "/repo/a.py"]
  /\ verify_reuse_compliance Fixtures.licenses_file_env
       ["/repo/LICENSES"; "/repo/a.py"] "/repo"
     = Raise "NotADirectoryError"
  /\ verify Fixtures.licenses_file_env (Fixtures.pre_commit_args ["/repo/a.py"])
     = {| exit_status := 1;
          final_stats :=
            {| checked := 1; passed := 1; missing_license := 0;
               missing_copyright := 0; wrong_license := 0;
               wrong_copyright := 0; skipped := 0 |};
          console := [] |}.
Proof. repeat split; vm_compute; reflexivity. Qed.



End Compliance.

(* ================================================================== *)
(** ** The verification run *)

Section Run.

Import Documented.

Variable env : Env.
Variable v : SPDXVerifier.
Variable tracked : option (list string).

Lemma stats_log_if (c : bool) (e : Event) (st : RunState) :
  rs_stats (log_if c e st) = rs_stats st.
Proof. destruct c; reflexivity. Qed.

Lemma stats_say (e : Event) (st : RunState) :
  rs_stats (say e st) = rs_stats st.
Proof. reflexivity. Qed.

Lemma stats_bump (f : Stats -> Stats) (st : RunState) :
  rs_stats (bump f st) = f (rs_stats st).
Proof. reflexivity. Qed.

Lemma directory_step_stats (directory rel : string) (a b : bool * RunState) :
  same_stats a b ->
  same_stats (directory_step env v directory tracked a rel)
             (directory_step env v directory tracked b rel).
Proof.
  destruct a as [pa sa], b as [pb sb]. unfold same_stats, directory_step.
  cbn [snd]. intros H.
  destruct (negb (fs_is_file (env_fs env) (PyPath.path_join directory rel)));
    [exact H|].
  destruct (untracked env tracked (PyPath.path_join directory rel));
    [cbn [snd]; rewrite !stats_log_if; exact H|].
  destruct (should_skip_file env v rel);
    [cbn [snd]; rewrite !stats_log_if, !stats_bump, H; reflexivity|].
  destruct (no_language (get_language_for_file v (PyPath.path_join directory rel)));
    [cbn [snd]; rewrite !stats_log_if, !stats_bump, H; reflexivity|].
  destruct (check_license_header env v (PyPath.path_join directory rel))
    as [ok message].
  destruct ok; cbn [snd];
    rewrite ?stats_log_if, ?stats_say, !stats_bump, H; reflexivity.
Qed.

Lemma fold_same_stats {A : Type} (step : bool * RunState -> A -> bool * RunState)
  (l : list A) (a b : bool * RunState) :
  (forall x a b, same_stats a b -> same_stats (step a x) (step b x)) ->
  same_stats a b -> same_stats (fold_left step l a) (fold_left step l b).
Proof.
  intros Hstep. revert a b. induction l as [|x r IH]; intros a b H; [exact H|].
  cbn [fold_left]. apply IH, Hstep, H.
Qed.

Lemma verify_directory_stats (directory : string) (sa sb : RunState) :
  rs_stats sa = rs_stats sb ->
  rs_stats (snd (verify_directory env v directory tracked sa))
  = rs_stats (snd (verify_directory env v directory tracked sb)).
Proof.
  intros H. unfold verify_directory.
  destruct (negb (fs_exists (env_fs env) directory)); [exact H|].
  apply (fold_same_stats (directory_step env v directory tracked)).
  - intros x a b. apply directory_step_stats.
  - exact H.
Qed.

Lemma verify_step_stats (path : string) (a b : bool * RunState) :
  same_stats a b ->
  same_stats (verify_step env v tracked a path) (verify_step env v tracked b path).
Proof.
  destruct a as [pa sa], b as [pb sb]. unfold same_stats, verify_step.
  cbn [snd]. intros H.
  destruct (fs_is_file (env_fs env) path).
  - destruct (untracked env tracked path);
      [cbn [snd]; rewrite !stats_log_if; exact H|].
    destruct (should_skip_file env v path);
      [cbn [snd]; rewrite !stats_log_if, !stats_bump, H; reflexivity|].
    destruct (no_language (get_language_for_file v path));
      [cbn [snd]; rewrite !stats_log_if, !stats_bump, H; reflexivity|].
    destruct (check_license_header env v path) as [ok message].
    destruct ok; cbn [snd];
      rewrite ?stats_log_if, ?stats_say, !stats_bump, H; reflexivity.
  - destruct (fs_is_dir (env_fs env) path); [|exact H].
    pose proof (verify_directory_stats path sa sb H) as D.
    destruct (verify_directory env v path tracked sa),
      (verify_directory env v path tracked sb). exact D.
Qed.

Lemma verify_paths_stats (paths : list string) (a b : bool * RunState) :
  same_stats a b ->
  same_stats (verify_paths env v tracked paths a)
             (verify_paths env v tracked paths b).
Proof.
  apply fold_same_stats. intros x a' b'. apply verify_step_stats.
Qed.

(** Once lost, [all_passed] stays lost. *)
Lemma verify_step_failed (path : string) (st : RunState) :
  fst (verify_step env v tracked (false, st) path) = false.
Proof.
  unfold verify_step.
  destruct (fs_is_file (env_fs env) path).
  - destruct (untracked env tracked path); [reflexivity|].
    destruct (should_skip_file env v path); [reflexivity|].
    destruct (no_language (get_language_for_file v path)); [reflexivity|].
    destruct (check_license_header env v path) as [ok message].
    destruct ok; reflexivity.
  - destruct (fs_is_dir (env_fs env) path); [|reflexivity].
    destruct (verify_directory env v path tracked st) as [ok st'].
    destruct ok; reflexivity.
Qed.

Lemma verify_paths_failed (paths : list string) (st : RunState) :
  fst (verify_paths env v tracked paths (false, st)) = false.
Proof.
  revert st. induction paths as [|p r IH]; intros st; [reflexivity|].
  unfold verify_paths. cbn [fold_left].
  pose proof (verify_step_failed p st) as H.
  destruct (verify_step env v tracked (false, st) p) as [b st'].
  cbn in H. subst b. apply IH.
Qed.

(** The turn of the loop on a path that is neither a file nor a
    directory. *)
Lemma verify_step_missing (path : string) (acc : bool * RunState) :
  fs_is_file (env_fs env) path = false ->
  fs_is_dir (env_fs env) path = false ->
  verify_step env v tracked acc path
  = (false, say (EvErrorNoPath path) (snd acc)).
Proof.
  intros F D. destruct acc as [b st]. unfold verify_step.
  rewrite F, D. reflexivity.
Qed.

(** The loop on a list with a missing path: the paths before it are
    processed, the run is marked failed, and the paths after it are
    processed from there; the counters are those of the other paths. *)
Lemma verify_paths_missing (l1 l2 : list string) (p : string)
  (acc : bool * RunState) :
  fs_is_file (env_fs env) p = false ->
  fs_is_dir (env_fs env) p = false ->
  verify_paths env v tracked (l1 ++ p :: l2) acc
  = verify_paths env v tracked l2
      (false, say (EvErrorNoPath p) (snd (verify_paths env v tracked l1 acc)))
  /\ fst (verify_paths env v tracked (l1 ++ p :: l2) acc) = false
  /\ rs_stats (snd (verify_paths env v tracked (l1 ++ p :: l2) acc))
     = rs_stats (snd (verify_paths env v tracked (l1 ++ l2) acc)).
Proof.
  intros F D.
  assert (E : verify_paths env v tracked (l1 ++ p :: l2) acc
              = verify_paths env v tracked l2
                  (false, say (EvErrorNoPath p)
                            (snd (verify_paths env v tracked l1 acc)))).
  { unfold verify_paths. rewrite fold_left_app. cbn [fold_left].
    rewrite (verify_step_missing p _ F D). reflexivity. }
  split; [exact E|]. rewrite E. split; [apply verify_paths_failed|].
  unfold verify_paths at 3. rewrite fold_left_app.
  apply verify_paths_stats. unfold same_stats. cbn [snd].
  rewrite stats_say. reflexivity.
Qed.

End Run.

Section Verify.

Variable env : Env.

(** The REUSE section never restores [all_passed]. *)
Lemma reuse_section_failed (a : VerifyArgs) (tracked : option (list string))
  (st : RunState) :
  match reuse_section env a tracked (false, st) with
  | Some (all_passed, _) => all_passed = false
  | None => True
  end.
Proof.
  unfold reuse_section.
  destruct (arg_reuse_compliance a && arg_pre_commit_mode a
            && match tracked with Some t => nonempty t | None => false end);
    [|reflexivity].
  destruct (find_git_root env); [|reflexivity].
  destruct (verify_reuse_compliance env _ _) as [[ok issues]|]; [|exact I].
  destruct ok; reflexivity.
Qed.

End Verify.

(* ================================================================== *)
(** ** The model at work *)

Section Examples.

Example resolve_by_extension :
  get_language_for_file Sample.run_verifier "src/Main.JAVA" = Some "java".
Proof. vm_compute; reflexivity. Qed.

Example resolve_by_legacy_suffix :
  get_language_for_file Sample.run_verifier "docker/Dockerfile" = Some "dockerfile".
Proof. vm_compute; reflexivity. Qed.

Example resolve_unknown :
  get_language_for_file Sample.run_verifier "README" = None.
Proof. vm_compute; reflexivity. Qed.

Example resolve_configured_fallback :
  get_language_for_file (Sample.fallback_verifier None) "README" = Some "python".
Proof. vm_compute; reflexivity. Qed.

Example resolve_override_first :
  get_language_for_file (Sample.fallback_verifier (Some "shell")) "README"
  = Some "shell".
Proof. vm_compute; reflexivity. Qed.

(** An override that is not a configured language gives no language,
    with a configured fallback at hand. *)
Example resolve_unknown_override :
  get_language_for_file (Sample.fallback_verifier (Some "cobol")) "README" = None.
Proof. vm_compute; reflexivity. Qed.

Example skip_node_modules :
  should_skip_file Sample.run_env Sample.run_verifier "node_modules/pkg/index.js"
  = true.
Proof. vm_compute; reflexivity. Qed.

Example keep_source_file :
  should_skip_file Sample.run_env Sample.run_verifier "src/index.js" = false.
Proof. vm_compute; reflexivity. Qed.

Example header_wrong_license :
  check_license_header Sample.run_env
    (Sample.verifier Sample.run_env "MIT" DEFAULT_COPYRIGHT None) "good.py"
  = (false, "Wrong license (expected MIT)").
Proof. vm_compute; reflexivity. Qed.

Example header_no_markers :
  check_license_header Sample.run_env Sample.run_verifier "bad.py"
  = (false, "Missing both license and copyright headers").
Proof. vm_compute; reflexivity. Qed.

Example header_unreadable :
  check_license_header Sample.run_env Sample.run_verifier "gone.py"
  = (false, "Error reading file: No such file or directory").
Proof. vm_compute; reflexivity. Qed.

Example extract_compound_expression :
  line_license_ids "/* SPDX-License-Identifier: Apache-2.0 OR MIT */"
  = ["Apache-2.0 OR MIT"].
Proof. vm_compute; reflexivity. Qed.

End Examples.

(* ================================================================== *)
(** * Further properties of the code *)

(** ** Trimming and lower case, once more *)

Section Normalisation.

Import PyStr.

Lemma rstrip_idempotent (s : string) : rstrip (rstrip s) = rstrip s.
Proof.
  induction s as [|c t IH]; [reflexivity|].
  rewrite rstrip_cons. destruct (String.eqb (rstrip t) "") eqn:E.
  - destruct (py_isspace c) eqn:S; [reflexivity|].
    cbn. rewrite S. reflexivity.
  - rewrite rstrip_cons, IH, E. reflexivity.
Qed.

Lemma lstrip_visible (s : string) :
  match lstrip s with
  | EmptyString => True
  | String c _ => py_isspace c = false
  end.
Proof.
  induction s as [|c t IH]; cbn; [exact I|].
  destruct (py_isspace c) eqn:S; [exact IH | exact S].
Qed.

Lemma lstrip_rstrip_visible (t : string) :
  match t with
  | EmptyString => True
  | String c _ => py_isspace c = false
  end ->
  lstrip (rstrip t) = rstrip t.
Proof.
  destruct t as [|c t]; [reflexivity|]. intros S.
  rewrite rstrip_cons. destruct (String.eqb (rstrip t) "").
  - rewrite S. cbn. rewrite S. reflexivity.
  - cbn. rewrite S. reflexivity.
Qed.

(** [s.strip().strip() == s.strip()]. *)
Lemma strip_idempotent (s : string) : strip (strip s) = strip s.
Proof.
  unfold strip. rewrite (lstrip_rstrip_visible _ (lstrip_visible s)).
  apply rstrip_idempotent.
Qed.

Lemma py_lower_char_idempotent (c : ascii) :
  py_lower_char (py_lower_char c) = py_lower_char c.
Proof.
  destruct c as [b0 b1 b2 b3 b4 b5 b6 b7].
  destruct b0, b1, b2, b3, b4, b5, b6, b7; reflexivity.
Qed.

(** [s.lower().lower() == s.lower()]. *)
Lemma lower_idempotent (s : string) : lower (lower s) = lower s.
Proof.
  induction s as [|c t IH]; cbn; [reflexivity|].
  rewrite py_lower_char_idempotent, IH. reflexivity.
Qed.





End Normalisation.

(** ** Ignore file and pattern set *)

Section PatternSources.

Import PyStr.
Import Documented.

(** X1. Every pattern [load_gitignore_patterns] returns is the
    trimmed text of a line read from the ignore file, is not empty and
    does not begin with [#]; a missing ignore file gives no pattern;
    and every line read that is neither blank nor a comment gives its
    pattern, also when the reading ends in an error: the patterns of
    the lines read before the error are kept. *)
Theorem load_gitignore_patterns_clean (fs : FileSystem) (directory : string) :
  let gitignore_path := PyPath.path_join directory ".gitignore" in
  (forall p, In p (load_gitignore_patterns fs directory) ->
     p <> "" /\ strip p = p /\ startswith "#" p = false
     /\ exists line, In line (fst (fs_iter_lines fs gitignore_path))
                     /\ p = strip line)
  /\ (fs_exists fs gitignore_path = false ->
      load_gitignore_patterns fs directory = [])
  /\ (fs_exists fs gitignore_path = true ->
      forall line,
        In line (fst (fs_iter_lines fs gitignore_path)) ->
        strip line <> "" -> startswith "#" (strip line) = false ->
        In (strip line) (load_gitignore_patterns fs directory)).
Proof.
  cbv zeta. unfold load_gitignore_patterns. split; [|split].
  - intros p. destruct (fs_exists fs _); [|intros []].
    rewrite filter_In, in_map_iff. intros [[raw [<- Hraw]] T].
    apply andb_true_iff in T as [T C]. apply negb_true_iff in C.
    split; [|split; [apply strip_idempotent | split; [exact C|]]].
    + intros E. rewrite E in T. discriminate.
    + exists raw. split; [exact Hraw | reflexivity].
  - intros E. rewrite E. reflexivity.
  - intros E line Hl Hn Hc. rewrite E. apply filter_In. split.
    + apply in_map, Hl.
    + rewrite Hc. unfold truthy.
      destruct (String.eqb (strip line) "") eqn:Q; [|reflexivity].
      apply String.eqb_eq in Q. contradiction.
Qed.

Lemma load_gitignore_patterns_clean_witness :
  load_gitignore_patterns Fixtures.gitignore_fs "." = ["dist/"; "!keep.txt"; "*.tmp"]
  /\ snd (fs_iter_lines Fixtures.torn_fs ".gitignore")
     = Some "'utf-8' codec can't decode byte 0xff"
  /\ load_gitignore_patterns Fixtures.torn_fs "." = ["early.txt"]
  /\ In (strip ("early.txt" ^^ NL)) (load_gitignore_patterns Fixtures.torn_fs ".").
Proof.
  split; [vm_compute; reflexivity|].
  split; [vm_compute; reflexivity|].
  split; [vm_compute; reflexivity|].
  apply (proj2 (proj2 (load_gitignore_patterns_clean Fixtures.torn_fs "."))).
  - vm_compute; reflexivity.
  - vm_compute. left. reflexivity.
  - vm_compute. discriminate.
  - vm_compute; reflexivity.
Defined.

(** X2. The list of skip patterns the constructor keeps has no
    repetition, and its members are the built-in or configured default
    patterns, the patterns of the ignore file and the patterns of the
    caller, nothing else and nothing less. *)
Theorem init_skip_patterns_members (env : Env) (license copyright : string)
  (user : option (list string)) (dbg disable enable : bool)
  (override directory : option string) :
  set_order_ok (env_set_order env) ->
  let v := fst (SPDXVerifier_init env license copyright user dbg disable
                  enable override directory) in
  NoDup (skip_patterns v)
  /\ forall x,
       In x (skip_patterns v) <->
       In x (default_skip_patterns (load_config (env_config_file env)))
       \/ In x (load_gitignore_patterns (env_fs env)
                  (match directory with Some d => d | None => env_cwd env end))
       \/ In x (match user with Some l => l | None => [] end).
Proof.
  intros O. cbv zeta.
  destruct (init_skip_patterns env license copyright user dbg disable enable
              override directory) as [P _]. cbv zeta in P. rewrite P.
  split; [apply (proj1 (O _))|].
  intros x. rewrite (proj2 (O _) x). unfold skip_sources.
  rewrite !in_app_iff. reflexivity.
Qed.

Lemma init_skip_patterns_members_witness :
  NoDup (skip_patterns
           (Sample.verifier Fixtures.gitignore_env "MIT" "ACME"
              (Some ["*.tmp"; "*.log"; "docs"])))
  /\ In "docs" (skip_patterns
                  (Sample.verifier Fixtures.gitignore_env "MIT" "ACME"
                     (Some ["*.tmp"; "*.log"; "docs"]))).
Proof.
  pose proof (init_skip_patterns_members Fixtures.gitignore_env "MIT" "ACME"
                (Some ["*.tmp"; "*.log"; "docs"]) false false false None None
                insertion_order_ok) as [N M].
  split; [exact N|]. apply M. right. right. vm_compute. tauto.
Defined.

End PatternSources.

(** ** Registry and resolution *)

Section RegistryValues.

Import PyStr.
Import Documented.

Lemma dict_set_keys_in (k v x : string) (d : PyDict.dict) :
  In x (PyDict.keys (PyDict.set k v d)) -> In x (PyDict.keys d) \/ x = k.
Proof.
  rewrite dict_keys_set. destruct (mem k (PyDict.keys d)); [auto|].
  rewrite in_app_iff. cbn. intuition.
Qed.

Lemma dict_set_entries (k v : string) (d : PyDict.dict) (e : string * string) :
  In e (PyDict.set k v d) -> In e d \/ snd e = v.
Proof.
  induction d as [|[a b] r IH]; cbn [PyDict.set].
  - intros [<-|[]]. right; reflexivity.
  - destruct (String.eqb a k).
    + intros [<-|H]; [right; reflexivity | left; right; exact H].
    + intros [<-|H]; [left; left; reflexivity|].
      destruct (IH H); [left; right; assumption | right; assumption].
Qed.

Lemma dict_get_In (k v : string) (d : PyDict.dict) :
  PyDict.get k d = Some v -> exists k', In (k', v) d.
Proof.
  induction d as [|[a b] r IH]; cbn [PyDict.get]; [discriminate|].
  destruct (String.eqb a k).
  - intros H. injection H as <-. exists a. left; reflexivity.
  - intros H. destruct (IH H) as [k' Hk]. exists k'. right; exact Hk.
Qed.

Lemma legacy_match_In (n l : string) (d : PyDict.dict) :
  legacy_match n d = Some l -> exists k', In (k', l) d.
Proof.
  induction d as [|[a b] r IH]; cbn [legacy_match]; [discriminate|].
  destruct (String.eqb n (lower a) || endswith (lower a) n).
  - intros H. injection H as <-. exists a. left; reflexivity.
  - intros H. destruct (IH H) as [k' Hk]. exists k'. right; exact Hk.
Qed.

(** What [register_keys] keeps true of a dictionary: keys in lower
    case, values among given names. *)
Lemma register_keys_invariant (names : list string) (name : string)
  (ks : option (list string)) (d : PyDict.dict) :
  In name names ->
  (forall e, In e d -> lower (fst e) = fst e /\ In (snd e) names) ->
  forall e, In e (register_keys name ks d) ->
            lower (fst e) = fst e /\ In (snd e) names.
Proof.
  intros Hn. destruct ks as [l|]; [|auto]. cbn [register_keys].
  revert d. induction l as [|k r IH]; intros d Hd; [exact Hd|].
  cbn [fold_left]. apply IH. intros e He.
  pose proof (dict_set_entries _ _ _ _ He) as Hv.
  assert (Hk : In (fst e) (PyDict.keys (PyDict.set (lower k) name d)))
    by (apply in_map, He).
  apply dict_set_keys_in in Hk. split.
  - destruct Hk as [Hk | ->]; [|apply lower_idempotent].
    apply in_map_iff in Hk as [e' [E He']]. rewrite <- E. apply Hd, He'.
  - destruct Hv as [Hv | ->]; [apply Hd, Hv | exact Hn].
Qed.

Lemma registry_loop_invariant (dbg : bool) (names : list string)
  (ls : list (string * LangConfig)) (r : Registry) :
  (forall x, In x ls -> In (fst x) names) ->
  (forall e, In e (registry_extensions r) ->
             lower (fst e) = fst e /\ In (snd e) names) ->
  (forall e, In e (registry_filenames r) ->
             lower (fst e) = fst e /\ In (snd e) names) ->
  let r' := fold_left (register_language dbg) ls r in
  (forall e, In e (registry_extensions r') ->
             lower (fst e) = fst e /\ In (snd e) names)
  /\ (forall e, In e (registry_filenames r') ->
                lower (fst e) = fst e /\ In (snd e) names).
Proof.
  revert r. induction ls as [|[n lc] rest IH]; intros r Hls He Hf.
  - cbn. auto.
  - cbn [fold_left]. apply IH.
    + intros x Hx. apply Hls. right; exact Hx.
    + destruct r as [[e2l f2l] evs]. cbn.
      apply register_keys_invariant; [|exact He].
      apply (Hls (n, lc)). left; reflexivity.
    + destruct r as [[e2l f2l] evs]. cbn.
      apply register_keys_invariant; [|exact Hf].
      apply (Hls (n, lc)). left; reflexivity.
Qed.

Lemma build_registry_invariant (dbg : bool) (cfg : Config) :
  (forall e, In e (registry_extensions (build_registry dbg cfg)) ->
             lower (fst e) = fst e /\ In (snd e) (map fst (languages cfg)))
  /\ (forall e, In e (registry_filenames (build_registry dbg cfg)) ->
                lower (fst e) = fst e /\ In (snd e) (map fst (languages cfg))).
Proof.
  apply (registry_loop_invariant dbg (map fst (languages cfg)) (languages cfg)
           ([], [], [])).
  - intros x Hx. apply in_map, Hx.
  - intros e [].
  - intros e [].
Qed.

(** X3. In the verifier the constructor builds, every key of the two
    lookup tables is in lower case, whatever the case of the extensions
    and file names of the configuration. *)
Theorem init_registry_keys_lower (env : Env) (license copyright : string)
  (user : option (list string)) (dbg disable enable : bool)
  (override directory : option string) (k : string) :
  let v := fst (SPDXVerifier_init env license copyright user dbg disable
                  enable override directory) in
  In k (PyDict.keys (ext_to_lang v)) \/ In k (PyDict.keys (filename_to_lang v)) ->
  lower k = k.
Proof.
  cbv zeta.
  destruct (init_registry env license copyright user dbg disable enable
              override directory) as [E F]. cbv zeta in E, F. rewrite E, F.
  destruct (build_registry_invariant dbg (load_config (env_config_file env)))
    as [He Hf].
  unfold PyDict.keys. rewrite !in_map_iff.
  intros [[e [<- H]]|[e [<- H]]]; [apply He, H | apply Hf, H].
Qed.

Lemma init_registry_keys_lower_witness : lower "dockerfile" = "dockerfile".
Proof.
  apply (init_registry_keys_lower Sample.run_env "MIT" "ACME" None
           false false false None None "dockerfile").
  left. vm_compute. do 31 right. left. reflexivity.
Defined.



(** X5. A language the constructed verifier resolves a path to is
    always one of the languages of its configuration. *)
Theorem get_language_for_file_configured (env : Env) (license copyright : string)
  (user : option (list string)) (dbg disable enable : bool)
  (override directory : option string) (p l : string) :
  let v := fst (SPDXVerifier_init env license copyright user dbg disable
                  enable override directory) in
  get_language_for_file v p = Some l ->
  In l (map fst (languages (load_config (env_config_file env)))).
Proof.
  cbv zeta.
  destruct (init_registry env license copyright user dbg disable enable
              override directory) as [E F]. cbv zeta in E, F.
  destruct (build_registry_invariant dbg (load_config (env_config_file env)))
    as [He Hf].
  assert (C : config (fst (SPDXVerifier_init env license copyright user dbg
                             disable enable override directory))
              = load_config (env_config_file env)).
  { unfold SPDXVerifier_init.
    destruct (build_registry dbg (load_config (env_config_file env))) as [[? ?] ?].
    destruct (compile_skip_patterns _ _ _). reflexivity. }
  unfold get_language_for_file. rewrite E, F, C.
  destruct (PyDict.get _ (registry_extensions _)) as [a|] eqn:G1.
  { intros H. injection H as <-. apply dict_get_In in G1 as [k Hk].
    apply (He (k, a)), Hk. }
  destruct (PyDict.get _ (registry_filenames _)) as [a|] eqn:G2.
  { intros H. injection H as <-. apply dict_get_In in G2 as [k Hk].
    apply (Hf (k, a)), Hk. }
  destruct (legacy_match _ (registry_extensions _)) as [a|] eqn:G3.
  { intros H. injection H as <-. apply legacy_match_In in G3 as [k Hk].
    apply (He (k, a)), Hk. }
  destruct (if enable_default_file_type _ then true else _); [|discriminate].
  match goal with
  | |- match ?d with Some _ => _ | None => _ end = _ -> _ =>
      destruct d as [a|]; [|discriminate]
  end.
  destruct (truthy a && mem a _) eqn:V; [|discriminate].
  intros H. injection H as <-. apply andb_true_iff in V as [_ V].
  apply mem_In, V.
Qed.

Lemma get_language_for_file_configured_witness :
  In "python" (map fst (languages (load_config (env_config_file Sample.fallback_env)))).
Proof.
  apply (get_language_for_file_configured Sample.fallback_env DEFAULT_LICENSE
           DEFAULT_COPYRIGHT None false false false None None "README" "python").
  vm_compute; reflexivity.
Defined.

End RegistryValues.

(** ** Fallback matching *)

Section FallbackMatching.

Import PyStr.
Import Documented.

Lemma existsb_incl {A : Type} (f : A -> bool) (a b : list A) :
  (forall x, In x a -> In x b) -> existsb f a = true -> existsb f b = true.
Proof.
  intros H. rewrite !existsb_exists. intros [x [Hx F]]. exists x. auto.
Qed.

(** X6. With the fallback matcher, skipping only grows with the
    patterns: nothing is skipped when there is no pattern, and a path
    skipped under some patterns is skipped under every list that has
    them all. *)
Theorem should_skip_file_fallback_monotone (env : Env) (v v' : SPDXVerifier)
  (path : string) :
  pathspec_matcher v = None ->
  (skip_patterns v = [] -> should_skip_file env v path = false)
  /\ (pathspec_matcher v' = None ->
      (forall x, In x (skip_patterns v) -> In x (skip_patterns v')) ->
      should_skip_file env v path = true ->
      should_skip_file env v' path = true).
Proof.
  intros M. unfold should_skip_file. rewrite M. split.
  - intros E. rewrite E. reflexivity.
  - intros M' I. rewrite M', !skip_loop_existsb. apply existsb_incl, I.
Qed.

Lemma should_skip_file_fallback_monotone_witness :
  should_skip_file Sample.run_env Fixtures.literal_verifier "dist/app.js" = true.
Proof.
  apply (proj2 (should_skip_file_fallback_monotone Sample.run_env
                  Sample.run_verifier Fixtures.literal_verifier "dist/app.js"
                  ltac:(vm_compute; reflexivity))).
  - vm_compute; reflexivity.
  - intros x Hx. vm_compute in Hx. vm_compute. tauto.
  - vm_compute; reflexivity.
Defined.

(** X7. With the fallback matcher, a pattern without [*] skips every
    path that contains it anywhere, in a directory name as in the file
    name: the pattern [build] skips [src/rebuild.py]. *)
Theorem should_skip_file_literal_pattern (env : Env) (v : SPDXVerifier)
  (path pattern : string) :
  pathspec_matcher v = None ->
  In pattern (skip_patterns v) ->
  contains "*" pattern = false ->
  contains pattern (PyPath.path_str path) = true ->
  should_skip_file env v path = true.
Proof.
  intros M I W H. unfold should_skip_file. rewrite M, skip_loop_existsb.
  apply existsb_exists. exists pattern. split; [exact I|].
  unfold _glob_match, glob_match_body. rewrite W. cbn [try_except].
  rewrite H. reflexivity.
Qed.

Lemma should_skip_file_literal_pattern_witness :
  should_skip_file Sample.run_env Fixtures.literal_verifier "src/rebuild.py" = true.
Proof.
  apply (should_skip_file_literal_pattern Sample.run_env
           Fixtures.literal_verifier "src/rebuild.py" "build").
  - vm_compute; reflexivity.
  - vm_compute. do 18 right. left. reflexivity.
  - vm_compute; reflexivity.
  - vm_compute; reflexivity.
Defined.

End FallbackMatching.

(** ** Header matcher, further *)

Section HeaderFurther.

Import PyStr.
Import Documented.

Lemma prefix_append (x b : string) : prefix x (x ^^ b) = true.
Proof.
  induction x as [|c x IH]; [apply prefix_nil|].
  cbn [String.append]. rewrite prefix_cons_same. exact IH.
Qed.

Lemma contains_append_right (x a s : string) :
  contains x s = true -> contains x (a ^^ s) = true.
Proof.
  intros H. induction a as [|c a IH]; [exact H|].
  cbn [String.append]. rewrite contains_cons, IH. apply orb_true_r.
Qed.

Lemma contains_head (x b : string) : contains x (x ^^ b) = true.
Proof.
  destruct (x ^^ b) eqn:E.
  - destruct x; [reflexivity | discriminate].
  - rewrite <- E. cbn [contains].
    pose proof (prefix_append x b) as P. rewrite E in *.
    cbn [contains]. rewrite P. reflexivity.
Qed.

(** [x in a + x + b]. *)
Lemma contains_middle (x a b : string) : contains x (a ^^ x ^^ b) = true.
Proof. apply contains_append_right, contains_head. Qed.

(** X8. [check_license_header] passes in two cases only: the file has
    no language, or it was read and among its first ten lines, trimmed,
    one carries the license marker with the expected license and one
    the copyright marker with the expected holder. *)
Theorem check_license_header_pass_iff (env : Env) (v : SPDXVerifier) (p : string) :
  fst (check_license_header env v p) = true <->
  no_language (get_language_for_file v p) = true
  \/ exists content,
       fs_read (env_fs env) p = ReadOk content
       /\ existsb (declares "SPDX-License-Identifier:" (license_id v))
                  (first_lines content) = true
       /\ existsb (declares "SPDX-FileCopyrightText:" (copyright_holder v))
                  (first_lines content) = true.
Proof.
  unfold check_license_header.
  destruct (no_language (get_language_for_file v p)); [cbn; tauto|].
  destruct (fs_read (env_fs env) p) as [content|e].
  - rewrite determine_result_table, scan_table. unfold table_flags.
    cbn [license_found copyright_found correct_license correct_copyright].
    split.
    + intros H. right. exists content. split; [reflexivity|].
      destruct (existsb (has_marker "SPDX-License-Identifier:") _),
        (existsb (has_marker "SPDX-FileCopyrightText:") _),
        (existsb (declares "SPDX-License-Identifier:" _) _),
        (existsb (declares "SPDX-FileCopyrightText:" _) _);
        cbn in H; try discriminate; auto.
    + intros [H|[c [E [L C]]]]; [discriminate|].
      injection E as <-.
      rewrite (existsb_declares_found _ _ _ L), (existsb_declares_found _ _ _ C),
        L, C. reflexivity.
  - cbn. split; [discriminate|].
    intros [H|[c [E _]]]; discriminate.
Qed.

(** X9. Detection is not tied to a comment style: when two of the
    first ten lines are the license marker followed by the expected
    license and the copyright marker followed by the expected holder,
    with any text before, between and after, and neither expected
    value begins or ends with white space, the file is valid. *)
Theorem check_license_header_any_comment_style (env : Env) (v : SPDXVerifier)
  (p content pre1 mid1 suf1 pre2 mid2 suf2 : string) :
  no_language (get_language_for_file v p) = false ->
  fs_read (env_fs env) p = ReadOk content ->
  edge_clean (license_id v) = true ->
  edge_clean (copyright_holder v) = true ->
  In (pre1 ^^ "SPDX-License-Identifier:" ^^ mid1 ^^ license_id v ^^ suf1)
     (first_lines content) ->
  In (pre2 ^^ "SPDX-FileCopyrightText:" ^^ mid2 ^^ copyright_holder v ^^ suf2)
     (first_lines content) ->
  check_license_header env v p = (true, "Valid SPDX headers found").
Proof.
  intros Hlang Hread El Ec I1 I2.
  rewrite (check_license_header_read _ _ _ _ Hlang Hread).
  apply verdict_valid.
  - apply (existsb_intro _ _ _ I1). apply declares_raw; try reflexivity.
    + exact El.
    + apply contains_middle.
    + apply contains_append_right, contains_append_right,
        contains_append_right, contains_head.
  - apply (existsb_intro _ _ _ I2). apply declares_raw; try reflexivity.
    + exact Ec.
    + apply contains_middle.
    + apply contains_append_right, contains_append_right,
        contains_append_right, contains_head.
Qed.

Lemma check_license_header_any_comment_style_witness :
  check_license_header Fixtures.block_env Fixtures.block_verifier "main.c"
  = (true, "Valid SPDX headers found").
Proof.
  apply (check_license_header_any_comment_style Fixtures.block_env
           Fixtures.block_verifier "main.c" Fixtures.block_c
           "/* " " " " */" "/* " " 2025 " " */").
  - vm_compute; reflexivity.
  - vm_compute; reflexivity.
  - vm_compute; reflexivity.
  - vm_compute; reflexivity.
  - vm_compute. left. reflexivity.
  - vm_compute. right. left. reflexivity.
Defined.

End HeaderFurther.

(** ** The walker and its counters *)

Section WalkerCounters.

Import Walk.

Variable env : Env.
Variable v : SPDXVerifier.
Variable tracked : option (list string).

Lemma add_failure_checked (m : string) (s : Stats) :
  checked (add_failure m s) = checked s
  /\ passed (add_failure m s) = passed s
  /\ skipped (add_failure m s) = skipped s.
Proof.
  unfold add_failure.
  destruct (PyStr.contains "Missing" m); [cbn; auto|].
  destruct (PyStr.contains "Wrong" m); cbn; auto.
Qed.

(** One turn of the loop of [verify_directory]. *)
Lemma directory_step_counts (directory rel : string) (b : bool) (st : RunState) :
  let r := directory_step env v directory tracked (b, st) rel in
  let c := candidate env directory tracked rel in
  let lo := left_out env v directory rel in
  let ok := header_ok env v directory rel in
  skipped (rs_stats (snd r)) = skipped (rs_stats st) + b2n (c && lo)
  /\ checked (rs_stats (snd r)) = checked (rs_stats st) + b2n (c && negb lo)
  /\ passed (rs_stats (snd r))
     = passed (rs_stats st) + b2n (c && negb lo && ok)
  /\ fst r = b && (negb (c && negb lo) || ok).
Proof.
  unfold directory_step, candidate, left_out, header_ok.
  destruct (fs_is_file (env_fs env) (PyPath.path_join directory rel));
    cbn [negb andb b2n snd fst];
    [|rewrite !Nat.add_0_r, andb_true_r; auto].
  destruct (untracked env tracked (PyPath.path_join directory rel));
    cbn [negb andb orb b2n snd fst];
    [rewrite stats_log_if, !Nat.add_0_r, andb_true_r; auto|].
  destruct (should_skip_file env v rel); cbn [negb andb orb b2n snd fst];
    [rewrite stats_log_if, stats_bump, andb_true_r; cbn; repeat split; lia|].
  destruct (no_language (get_language_for_file v (PyPath.path_join directory rel)));
    cbn [negb andb orb b2n snd fst];
    [rewrite stats_log_if, stats_bump, andb_true_r; cbn; repeat split; lia|].
  destruct (check_license_header env v (PyPath.path_join directory rel))
    as [ok message]. destruct ok; cbn [negb andb orb b2n snd fst].
  - rewrite stats_log_if, !stats_bump, andb_true_r. cbn. repeat split; lia.
  - rewrite stats_say, !stats_bump, andb_false_r.
    destruct (add_failure_checked message (add_checked (rs_stats st)))
      as (A1 & A2 & A3).
    rewrite A1, A2, A3. cbn. repeat split; lia.
Qed.

(** The loop of [verify_directory], from any state. *)
Lemma directory_loop_counts (directory : string) (l : list string)
  (b : bool) (st : RunState) :
  let r := fold_left (directory_step env v directory tracked) l (b, st) in
  let cs := filter (candidate env directory tracked) l in
  let ex := filter (fun rel => negb (left_out env v directory rel)) cs in
  skipped (rs_stats (snd r))
  = skipped (rs_stats st) + List.length (filter (left_out env v directory) cs)
  /\ checked (rs_stats (snd r)) = checked (rs_stats st) + List.length ex
  /\ passed (rs_stats (snd r))
     = passed (rs_stats st) + List.length (filter (header_ok env v directory) ex)
  /\ fst r = b && forallb (header_ok env v directory) ex.
Proof.
  revert b st. induction l as [|rel l IH]; intros b st.
  - cbn. rewrite !Nat.add_0_r, andb_true_r. auto.
  - cbn [fold_left].
    pose proof (directory_step_counts directory rel b st) as S.
    cbv zeta in S.
    destruct (directory_step env v directory tracked (b, st) rel) as [b1 st1].
    cbn [fst snd] in S. destruct S as (S1 & S2 & S3 & S4).
    specialize (IH b1 st1). cbv zeta in IH |- *.
    destruct IH as (I1 & I2 & I3 & I4).
    rewrite I1, I2, I3, I4, S1, S2, S3, S4. cbn [filter].
    destruct (candidate env directory tracked rel); cbn [andb negb orb b2n];
      [|rewrite !Nat.add_0_r, andb_true_r; auto].
    cbn [filter].
    destruct (left_out env v directory rel); cbn [andb negb orb b2n List.length];
      [rewrite !Nat.add_0_r, andb_true_r; repeat split; lia|].
    cbn [filter forallb].
    destruct (header_ok env v directory rel);
      cbn [andb negb orb b2n List.length].
    + rewrite andb_true_r. repeat split; lia.
    + rewrite andb_false_r. repeat split; lia.
Qed.

(** X10. [verify_directory] on an existing directory counts every
    regular file it meets, tracked when a filter is given, exactly
    once: as skipped when a skip pattern matches it or it has no
    language, as checked otherwise; the files passed are the checked
    ones whose verdict passes, and the result is [True] exactly when
    every checked file passes. *)
Theorem verify_directory_counts (directory : string) (st : RunState) :
  fs_exists (env_fs env) directory = true ->
  let r := verify_directory env v directory tracked st in
  skipped (rs_stats (snd r))
  = skipped (rs_stats st)
    + List.length (filter (left_out env v directory)
                          (candidates env directory tracked))
  /\ checked (rs_stats (snd r))
     = checked (rs_stats st) + List.length (examined env v directory tracked)
  /\ passed (rs_stats (snd r))
     = passed (rs_stats st)
       + List.length (filter (header_ok env v directory)
                             (examined env v directory tracked))
  /\ fst r = forallb (header_ok env v directory)
                     (examined env v directory tracked).
Proof.
  intros E. unfold verify_directory. rewrite E. cbn [negb].
  apply (directory_loop_counts directory (fs_rglob (env_fs env) directory) true st).
Qed.

End WalkerCounters.

Lemma verify_directory_counts_witness :
  let r := verify_directory Fixtures.tree_env Fixtures.tree_verifier "src" None
             Fixtures.state0 in
  skipped (rs_stats (snd r)) = 0 + 2
  /\ checked (rs_stats (snd r)) = 0 + 2
  /\ passed (rs_stats (snd r)) = 0 + 1
  /\ fst r = false.
Proof.
  apply (verify_directory_counts Fixtures.tree_env Fixtures.tree_verifier None
           "src" Fixtures.state0).
  vm_compute; reflexivity.
Defined.

Section RunInvariant.

Import Walk.

Variable env : Env.
Variable v : SPDXVerifier.
Variable tracked : option (list string).

Lemma failure_counters_pass (s : Stats) :
  passed s <= checked s ->
  failure_counters (add_passed (add_checked s)) = failure_counters s.
Proof.
  intros H. unfold failure_counters. cbn. f_equal. lia.
Qed.

Lemma failure_counters_skip (s : Stats) :
  failure_counters (add_skipped s) = failure_counters s.
Proof. reflexivity. Qed.

Lemma sound_counters_same (s0 : Stats) (b : bool) (st st' : RunState) :
  rs_stats st' = rs_stats st ->
  sound_counters s0 (b, st) -> sound_counters s0 (b, st').
Proof.
  unfold sound_counters. cbn [fst snd]. intros ->. auto.
Qed.

Lemma sound_counters_fail (s0 : Stats) (b : bool) (st st' : RunState) :
  checked (rs_stats st') = checked (rs_stats st) + 1 ->
  passed (rs_stats st') = passed (rs_stats st) ->
  sound_counters s0 (b, st) -> sound_counters s0 (false, st').
Proof.
  unfold sound_counters. cbn [fst snd]. intros C P [H _].
  split; [lia | discriminate].
Qed.

Lemma directory_step_sound (s0 : Stats) (directory rel : string)
  (acc : bool * RunState) :
  sound_counters s0 acc ->
  sound_counters s0 (directory_step env v directory tracked acc rel).
Proof.
  destruct acc as [b st]. intros H. unfold directory_step.
  destruct (negb (fs_is_file (env_fs env) (PyPath.path_join directory rel)));
    [exact H|].
  destruct (untracked env tracked (PyPath.path_join directory rel)).
  { apply (sound_counters_same s0 b st); [apply stats_log_if | exact H]. }
  assert (K : forall e, sound_counters s0
                (b, log_if (debug v) e (bump add_skipped st))).
  { intros e. destruct H as [H1 H2]. unfold sound_counters. cbn [fst snd] in *.
    rewrite stats_log_if, stats_bump. split; [exact H1|].
    rewrite failure_counters_skip. exact H2. }
  destruct (should_skip_file env v rel); [apply K|].
  destruct (no_language (get_language_for_file v (PyPath.path_join directory rel)));
    [apply K|].
  destruct (check_license_header env v (PyPath.path_join directory rel))
    as [ok message]. destruct ok.
  - destruct H as [H1 H2]. unfold sound_counters. cbn [fst snd] in *.
    rewrite stats_log_if, !stats_bump. split; [cbn; lia|].
    rewrite failure_counters_pass by exact H1. exact H2.
  - destruct (add_failure_checked message (add_checked (rs_stats st)))
      as (A1 & A2 & _).
    apply (sound_counters_fail s0 b st); [| |exact H].
    + rewrite stats_say, !stats_bump, A1. reflexivity.
    + rewrite stats_say, !stats_bump, A2. reflexivity.
Qed.

Lemma fold_sound {A : Type} (step : bool * RunState -> A -> bool * RunState)
  (s0 : Stats) (l : list A) (acc : bool * RunState) :
  (forall x a, sound_counters s0 a -> sound_counters s0 (step a x)) ->
  sound_counters s0 acc -> sound_counters s0 (fold_left step l acc).
Proof.
  intros Hstep. revert acc. induction l as [|x r IH]; intros acc H; [exact H|].
  cbn [fold_left]. apply IH, Hstep, H.
Qed.

Lemma verify_directory_sound (s0 : Stats) (directory : string) (b : bool)
  (st : RunState) :
  sound_counters s0 (b, st) ->
  sound_counters s0
    (if fst (verify_directory env v directory tracked st) then b else false,
     snd (verify_directory env v directory tracked st)).
Proof.
  intros H. unfold verify_directory.
  destruct (negb (fs_exists (env_fs env) directory)).
  { cbn [fst snd]. destruct H as [H1 _]. cbn [fst snd] in H1. split; [exact H1 | discriminate]. }
  assert (I : sound_counters (rs_stats st) (true, st)).
  { destruct H as [H1 _]. cbn [fst snd] in H1. split; [exact H1 | reflexivity]. }
  pose proof (fold_sound (directory_step env v directory tracked) (rs_stats st)
                (fs_rglob (env_fs env) directory) (true, st)
                (fun x a => directory_step_sound (rs_stats st) directory x a) I)
    as [F1 F2].
  destruct (fold_left _ _ _) as [ok st'].
  unfold sound_counters in *. cbn [fst snd] in *.
  split; [exact F1|]. destruct ok; [|discriminate].
  intros B. rewrite (F2 eq_refl). apply H, B.
Qed.

Lemma verify_step_sound (s0 : Stats) (path : string) (acc : bool * RunState) :
  sound_counters s0 acc ->
  sound_counters s0 (verify_step env v tracked acc path).
Proof.
  destruct acc as [b st]. intros H. unfold verify_step.
  destruct (fs_is_file (env_fs env) path).
  - destruct (untracked env tracked path).
    { apply (sound_counters_same s0 b st); [apply stats_log_if | exact H]. }
    assert (K : forall e, sound_counters s0
                  (b, log_if (debug v) e (bump add_skipped st))).
    { intros e. destruct H as [H1 H2]. unfold sound_counters. cbn [fst snd] in *.
      rewrite stats_log_if, stats_bump. split; [exact H1|].
      rewrite failure_counters_skip. exact H2. }
    destruct (should_skip_file env v path); [apply K|].
    destruct (no_language (get_language_for_file v path)); [apply K|].
    destruct (check_license_header env v path) as [ok message]. destruct ok.
    + destruct H as [H1 H2]. unfold sound_counters. cbn [fst snd] in *.
      rewrite stats_log_if, !stats_bump. split; [cbn; lia|].
      rewrite failure_counters_pass by exact H1. exact H2.
    + apply (sound_counters_fail s0 b st); [| |exact H];
        rewrite stats_say, stats_bump; reflexivity.
  - destruct (fs_is_dir (env_fs env) path).
    + pose proof (verify_directory_sound s0 path b st H) as D.
      destruct (verify_directory env v path tracked st) as [ok st'].
      exact D.
    + destruct H as [H1 _]. cbn [fst snd] in H1. split; [exact H1 | discriminate].
Qed.

Lemma verify_paths_sound (s0 : Stats) (paths : list string)
  (acc : bool * RunState) :
  sound_counters s0 acc ->
  sound_counters s0 (verify_paths env v tracked paths acc).
Proof.
  apply fold_sound. intros x a. apply verify_step_sound.
Qed.

End RunInvariant.

Section ExitStatus.

Import Walk.

Variable env : Env.

Lemma log_issues_stats (dbg : bool) (issues : list string) (st : RunState) :
  rs_stats (fold_left (fun s i => log_if dbg (EvReuseIssue i) s) issues st)
  = rs_stats st.
Proof.
  revert st. induction issues as [|i r IH]; intros st; [reflexivity|].
  cbn [fold_left]. rewrite IH. apply stats_log_if.
Qed.

(** The REUSE section leaves the counters alone and never restores
    [all_passed]. *)
Lemma reuse_section_stats (a : VerifyArgs) (tracked : option (list string))
  (b b' : bool) (st st' : RunState) :
  reuse_section env a tracked (b, st) = Some (b', st') ->
  rs_stats st' = rs_stats st /\ (b' = true -> b = true).
Proof.
  unfold reuse_section.
  destruct (arg_reuse_compliance a && arg_pre_commit_mode a
            && match tracked with Some t => nonempty t | None => false end).
  - destruct (find_git_root env).
    + destruct (verify_reuse_compliance env _ _) as [[ok issues]|];
        [|discriminate].
      destruct ok; intros H; injection H as <- <-.
      * auto.
      * rewrite log_issues_stats. split; [reflexivity | discriminate].
    + intros H. injection H as <- <-. auto.
  - intros H. injection H as <- <-. auto.
Qed.

(** X11. At the end of a run no more files have passed than were
    checked, and an exit status of 0 means that every checked file
    passed and that the four failure counters are 0. *)
Theorem verify_exit_zero_all_passed (a : VerifyArgs) :
  passed (final_stats (verify env a)) <= checked (final_stats (verify env a))
  /\ (exit_status (verify env a) = 0 ->
      passed (final_stats (verify env a)) = checked (final_stats (verify env a))
      /\ missing_license (final_stats (verify env a)) = 0
      /\ missing_copyright (final_stats (verify env a)) = 0
      /\ wrong_license (final_stats (verify env a)) = 0
      /\ wrong_copyright (final_stats (verify env a)) = 0).
Proof.
  unfold verify.
  destruct (SPDXVerifier_init env _ _ _ _ _ _ _ _) as [v init_log].
  set (paths := match arg_paths a with [] => ["."] | _ => _ end).
  set (tr := if arg_pre_commit_mode a then get_git_tracked_files env else None).
  set (st0 := {| rs_stats := stats0; rs_log := _ |}).
  assert (I : sound_counters stats0 (true, st0))
    by (split; [cbn; lia | reflexivity]).
  pose proof (verify_paths_sound env v tr stats0 paths (true, st0) I) as [P1 P2].
  destruct (verify_paths env v tr paths (true, st0)) as [b st] eqn:E.
  cbn [fst snd] in P1, P2.
  destruct (reuse_section env a tr (b, st)) as [[b' st']|] eqn:R.
  - apply reuse_section_stats in R as [S B]. cbn [final_stats exit_status].
    rewrite S. split; [exact P1|].
    destruct b'; [|discriminate]. intros _.
    specialize (P2 (B eq_refl)). unfold failure_counters in P2. cbn in P2.
    injection P2 as Q1 Q2 Q3 Q4 Q5. repeat split; try assumption. lia.
  - cbn [final_stats exit_status snd]. split; [exact P1 | discriminate].
Qed.


End ExitStatus.

Lemma verify_exit_zero_all_passed_witness :
  passed (final_stats (verify Sample.run_env (Sample.args ["good.py"; "two.py"])))
  = checked (final_stats (verify Sample.run_env (Sample.args ["good.py"; "two.py"])))
  /\ checked (final_stats (verify Sample.run_env
                             (Sample.args ["good.py"; "two.py"]))) = 2.
Proof.
  split.
  - apply (proj2 (verify_exit_zero_all_passed Sample.run_env
                    (Sample.args ["good.py"; "two.py"]))).
    vm_compute; reflexivity.
  - vm_compute; reflexivity.
Defined.

(** ** What the console does not change *)

Section ConsoleIndependence.

Import Walk.

Variable env : Env.
Variable v : SPDXVerifier.
Variable tracked : option (list string).

Lemma same_outcome_intro (b : bool) (st st' : RunState) :
  rs_stats st = rs_stats st' -> same_outcome (b, st) (b, st').
Proof. intros H. split; [reflexivity | exact H]. Qed.

Lemma directory_step_outcome (directory rel : string) (a b : bool * RunState) :
  same_outcome a b ->
  same_outcome (directory_step env v directory tracked a rel)
               (directory_step env v directory tracked b rel).
Proof.
  destruct a as [pa sa], b as [pb sb]. intros [P H]. cbn [fst snd] in P, H.
  subst pb. unfold directory_step.
  destruct (negb (fs_is_file (env_fs env) (PyPath.path_join directory rel)));
    [apply same_outcome_intro, H|].
  destruct (untracked env tracked (PyPath.path_join directory rel));
    [apply same_outcome_intro; rewrite !stats_log_if; exact H|].
  destruct (should_skip_file env v rel);
    [apply same_outcome_intro; rewrite !stats_log_if, !stats_bump, H;
     reflexivity|].
  destruct (no_language (get_language_for_file v (PyPath.path_join directory rel)));
    [apply same_outcome_intro; rewrite !stats_log_if, !stats_bump, H;
     reflexivity|].
  destruct (check_license_header env v (PyPath.path_join directory rel))
    as [ok message].
  destruct ok; apply same_outcome_intro;
    rewrite ?stats_log_if, ?stats_say, !stats_bump, H; reflexivity.
Qed.

Lemma fold_same_outcome {A : Type}
  (step : bool * RunState -> A -> bool * RunState)
  (l : list A) (a b : bool * RunState) :
  (forall x a b, same_outcome a b -> same_outcome (step a x) (step b x)) ->
  same_outcome a b -> same_outcome (fold_left step l a) (fold_left step l b).
Proof.
  intros Hstep. revert a b. induction l as [|x r IH]; intros a b H; [exact H|].
  cbn [fold_left]. apply IH, Hstep, H.
Qed.

Lemma verify_directory_outcome (directory : string) (sa sb : RunState) :
  rs_stats sa = rs_stats sb ->
  same_outcome (verify_directory env v directory tracked sa)
               (verify_directory env v directory tracked sb).
Proof.
  intros H. unfold verify_directory.
  destruct (negb (fs_exists (env_fs env) directory));
    [apply same_outcome_intro, H|].
  apply (fold_same_outcome (directory_step env v directory tracked)).
  - intros x a b. apply directory_step_outcome.
  - apply same_outcome_intro, H.
Qed.

Lemma verify_step_outcome (path : string) (a b : bool * RunState) :
  same_outcome a b ->
  same_outcome (verify_step env v tracked a path)
               (verify_step env v tracked b path).
Proof.
  destruct a as [pa sa], b as [pb sb]. intros [P H]. cbn [fst snd] in P, H.
  subst pb. unfold verify_step.
  destruct (fs_is_file (env_fs env) path).
  - destruct (untracked env tracked path);
      [apply same_outcome_intro; rewrite !stats_log_if; exact H|].
    destruct (should_skip_file env v path);
      [apply same_outcome_intro; rewrite !stats_log_if, !stats_bump, H;
       reflexivity|].
    destruct (no_language (get_language_for_file v path));
      [apply same_outcome_intro; rewrite !stats_log_if, !stats_bump, H;
       reflexivity|].
    destruct (check_license_header env v path) as [ok message].
    destruct ok; apply same_outcome_intro;
      rewrite ?stats_log_if, ?stats_say, !stats_bump, H; reflexivity.
  - destruct (fs_is_dir (env_fs env) path); [|apply same_outcome_intro, H].
    pose proof (verify_directory_outcome path sa sb H) as [D1 D2].
    destruct (verify_directory env v path tracked sa),
      (verify_directory env v path tracked sb).
    cbn [fst snd] in D1, D2. subst. split; [reflexivity | exact D2].
Qed.

Lemma verify_paths_outcome (paths : list string) (a b : bool * RunState) :
  same_outcome a b ->
  same_outcome (verify_paths env v tracked paths a)
               (verify_paths env v tracked paths b).
Proof.
  apply fold_same_outcome. intros x a' b'. apply verify_step_outcome.
Qed.

Lemma verify_paths_cons (p : string) (r : list string) (acc : bool * RunState) :
  verify_paths env v tracked (p :: r) acc
  = verify_paths env v tracked r (verify_step env v tracked acc p).
Proof. reflexivity. Qed.

(** X12. A failing file given as an argument of its own is counted as
    checked and nothing more: over paths none of which is walked as a
    directory, the counters of missing and wrong licenses and
    copyrights stay as they were. *)
Theorem verify_paths_files_not_classified (paths : list string)
  (acc : bool * RunState) :
  (forall p, In p paths ->
     fs_is_file (env_fs env) p = true \/ fs_is_dir (env_fs env) p = false) ->
  failure_kinds (rs_stats (snd (verify_paths env v tracked paths acc)))
  = failure_kinds (rs_stats (snd acc)).
Proof.
  revert acc. induction paths as [|p r IH]; intros acc H; [reflexivity|].
  rewrite verify_paths_cons.
  rewrite IH by (intros q Hq; apply H; right; exact Hq).
  destruct acc as [b st]. unfold verify_step. cbn [snd].
  destruct (fs_is_file (env_fs env) p) eqn:F.
  - destruct (untracked env tracked p);
      [cbn [snd]; rewrite stats_log_if; reflexivity|].
    destruct (should_skip_file env v p);
      [cbn [snd]; rewrite stats_log_if, stats_bump; reflexivity|].
    destruct (no_language (get_language_for_file v p));
      [cbn [snd]; rewrite stats_log_if, stats_bump; reflexivity|].
    destruct (check_license_header env v p) as [ok message].
    destruct ok; cbn [snd];
      rewrite ?stats_log_if, ?stats_say, !stats_bump; reflexivity.
  - destruct (H p (or_introl eq_refl)) as [E|E]; [congruence|].
    rewrite E. reflexivity.
Qed.

(** X13. Files that are not in the tracked set are neither counted nor
    able to fail the run: over paths that are all untracked files, the
    loop of [verify] leaves [all_passed] and every counter as they
    were. *)
Theorem verify_paths_untracked_ignored (paths : list string) (b : bool)
  (st : RunState) :
  (forall p, In p paths ->
     fs_is_file (env_fs env) p = true /\ untracked env tracked p = true) ->
  fst (verify_paths env v tracked paths (b, st)) = b
  /\ rs_stats (snd (verify_paths env v tracked paths (b, st))) = rs_stats st.
Proof.
  revert st. induction paths as [|p r IH]; intros st H; [auto|].
  rewrite verify_paths_cons.
  destruct (H p (or_introl eq_refl)) as [F U].
  unfold verify_step. rewrite F, U.
  destruct (IH (log_if (debug v) (EvSkipUntracked p) st)) as [I1 I2].
  { intros q Hq. apply H. right; exact Hq. }
  rewrite I1, I2, stats_log_if. auto.
Qed.

End ConsoleIndependence.

Lemma verify_paths_files_not_classified_witness :
  Walk.failure_kinds
    (rs_stats (snd (verify_paths Fixtures.tree_env Fixtures.tree_verifier None
                      ["top.py"] (true, Fixtures.state0))))
  = [0; 0; 0; 0]
  /\ Walk.failure_kinds
       (rs_stats (snd (verify_paths Fixtures.tree_env Fixtures.tree_verifier None
                         ["src"] (true, Fixtures.state0))))
     = [1; 1; 0; 0].
Proof.
  split.
  - apply (verify_paths_files_not_classified Fixtures.tree_env
             Fixtures.tree_verifier None ["top.py"] (true, Fixtures.state0)).
    intros p [<-|[]]. left. vm_compute; reflexivity.
  - vm_compute; reflexivity.
Defined.

Lemma verify_paths_untracked_ignored_witness :
  fst (verify_paths Fixtures.tree_env Fixtures.tree_verifier (Some ["src/a.py"])
         ["top.py"; "src/b.py"] (true, Fixtures.state0)) = true
  /\ rs_stats (snd (verify_paths Fixtures.tree_env Fixtures.tree_verifier
                      (Some ["src/a.py"]) ["top.py"; "src/b.py"]
                      (true, Fixtures.state0)))
     = stats0.
Proof.
  apply (verify_paths_untracked_ignored Fixtures.tree_env Fixtures.tree_verifier
           (Some ["src/a.py"]) ["top.py"; "src/b.py"] true Fixtures.state0).
  intros p [<-|[<-|[]]]; split; vm_compute; reflexivity.
Defined.

(** ** Switches of the run *)

Section Switches.

Import Walk.

Variable env : Env.

Lemma reuse_section_off (a : VerifyArgs) (tracked : option (list string))
  (acc : bool * RunState) :
  arg_pre_commit_mode a = false \/ tracked = None ->
  reuse_section env a tracked acc = Some acc.
Proof.
  intros H. unfold reuse_section. destruct acc as [b st].
  destruct H as [H | ->].
  - rewrite H, andb_false_r. reflexivity.
  - rewrite andb_false_r. reflexivity.
Qed.

(** X14. The REUSE check belongs to pre-commit mode: without that mode
    the compliance switch changes nothing of the run, neither the exit
    status nor the counters nor the console. *)
Theorem verify_reuse_needs_pre_commit (a : VerifyArgs) (b : bool) :
  arg_pre_commit_mode a = false ->
  verify env (with_reuse_compliance a b) = verify env a.
Proof.
  intros H. unfold verify, git_first_attempt, git_second_attempt, git_failed.
  cbn [with_reuse_compliance arg_paths arg_license arg_copyright_holder arg_skip
       arg_debug arg_disable_default_file_type arg_enable_default_file_type
       arg_default_file_type_override arg_pre_commit_mode].
  destruct (SPDXVerifier_init env _ _ _ _ _ _ _ _) as [v init_log].
  rewrite !reuse_section_off by (left; cbn; exact H). reflexivity.
Qed.

(** X15. When [git ls-files] fails, pre-commit mode falls back to
    checking every file: the exit status and the counters are those of
    the same run without the mode. *)
Theorem verify_git_failure_falls_back (a : VerifyArgs) :
  env_git_ls_files env = None ->
  exit_status (verify env (with_pre_commit_mode a true))
  = exit_status (verify env (with_pre_commit_mode a false))
  /\ final_stats (verify env (with_pre_commit_mode a true))
     = final_stats (verify env (with_pre_commit_mode a false)).
Proof.
  intros G. unfold verify, get_git_tracked_files.
  cbn [with_pre_commit_mode arg_paths arg_license arg_copyright_holder arg_skip
       arg_debug arg_disable_default_file_type arg_enable_default_file_type
       arg_default_file_type_override arg_pre_commit_mode]. rewrite G.
  destruct (SPDXVerifier_init env _ _ _ _ _ _ _ _) as [v init_log].
  rewrite !reuse_section_off by (right; reflexivity).
  set (paths := match arg_paths a with [] => ["."] | _ => _ end).
  match goal with
  | |- context [verify_paths env v None paths (true, ?s1)] =>
      match goal with
      | |- context [verify_paths env v None paths (true, ?s2)] =>
          lazymatch s1 with
          | s2 => fail
          | _ =>
              pose proof (verify_paths_outcome env v None paths (true, s1)
                            (true, s2) (same_outcome_intro true s1 s2 eq_refl))
                as [O1 O2]
          end
      end
  end.
  destruct (verify_paths env v None paths _) as [b1 st1].
  destruct (verify_paths env v None paths _) as [b2 st2].
  cbn [fst snd] in O1, O2. cbn [exit_status final_stats]. subst b2.
  rewrite O2. auto.
Qed.

End Switches.

Lemma verify_reuse_needs_pre_commit_witness :
  verify Sample.run_env (Walk.with_reuse_compliance (Sample.args ["good.py"]) true)
  = verify Sample.run_env (Sample.args ["good.py"]).
Proof.
  apply verify_reuse_needs_pre_commit. vm_compute; reflexivity.
Defined.

Lemma verify_git_failure_falls_back_witness :
  exit_status (verify Fixtures.tree_env
                 (Walk.with_pre_commit_mode (Sample.args ["src"]) true))
  = exit_status (verify Fixtures.tree_env
                   (Walk.with_pre_commit_mode (Sample.args ["src"]) false))
  /\ final_stats (verify Fixtures.tree_env
                    (Walk.with_pre_commit_mode (Sample.args ["src"]) true))
     = final_stats (verify Fixtures.tree_env
                      (Walk.with_pre_commit_mode (Sample.args ["src"]) false)).
Proof.
  apply verify_git_failure_falls_back. vm_compute; reflexivity.
Defined.

(** ** Failure counters and the words of the message *)

Section FailureWords.

Import PyStr.

Lemma lower_append (a b : string) : lower (a ^^ b) = lower a ^^ lower b.
Proof.
  induction a as [|c a IH]; [reflexivity|]. cbn. rewrite IH. reflexivity.
Qed.

Lemma prefix_append_left (n x b : string) :
  prefix n x = true -> prefix n (x ^^ b) = true.
Proof.
  revert x. induction n as [|a n IH]; intros x H; [apply prefix_nil|].
  destruct x as [|d x]; [discriminate|].
  apply prefix_cons_inv in H as [<- H].
  change (String a x ^^ b) with (String a (x ^^ b)).
  rewrite prefix_cons_same. apply IH, H.
Qed.

Lemma contains_append_left (n s b : string) :
  contains n s = true -> contains n (s ^^ b) = true.
Proof.
  induction s as [|c s IH].
  - intros H. apply contains_empty_hay in H. subst n. apply contains_nil.
  - rewrite contains_cons. intros H.
    change (String c s ^^ b) with (String c (s ^^ b)). rewrite contains_cons.
    apply orb_true_iff in H as [H|H].
    + change (String c (s ^^ b)) with (String c s ^^ b).
      rewrite (prefix_append_left _ _ _ H). reflexivity.
    + rewrite (IH H). apply orb_true_r.
Qed.

(** X16. In a directory walk the failure counters follow the words of
    the message, and the message quotes the expected values: a file
    that fails with a wrong copyright is counted as a wrong copyright
    and, when the expected holder contains the word license in any
    case, as a wrong license too. *)
Theorem add_failure_wrong_copyright_counts_license (holder : string) (s : Stats) :
  contains "license" (lower holder) = true ->
  contains "Missing" ("Wrong copyright (expected " ^^ holder ^^ ")") = false ->
  wrong_copyright (add_failure ("Wrong copyright (expected " ^^ holder ^^ ")") s)
  = wrong_copyright s + 1
  /\ wrong_license (add_failure ("Wrong copyright (expected " ^^ holder ^^ ")") s)
     = wrong_license s + 1.
Proof.
  intros L M. unfold add_failure. rewrite M.
  change ("Wrong copyright (expected " ^^ holder ^^ ")")
    with ("" ^^ "Wrong" ^^ " copyright (expected " ^^ holder ^^ ")") at 1.
  rewrite contains_middle.
  assert (C : contains "copyright"
                (lower ("Wrong copyright (expected " ^^ holder ^^ ")")) = true).
  { change (lower ("Wrong copyright (expected " ^^ holder ^^ ")"))
      with ("wrong " ^^ "copyright" ^^ lower (" (expected " ^^ holder ^^ ")")).
    apply contains_middle. }
  assert (W : contains "license"
                (lower ("Wrong copyright (expected " ^^ holder ^^ ")")) = true).
  { rewrite lower_append, lower_append.
    apply contains_append_right, contains_append_left, L. }
  rewrite C, W. cbn. auto.
Qed.

End FailureWords.

Lemma add_failure_wrong_copyright_counts_license_witness :
  check_license_header Fixtures.holder_env Fixtures.holder_verifier "pkg/a.py"
  = (false, "Wrong copyright (expected " ^^ Fixtures.licensing_holder ^^ ")")
  /\ wrong_copyright
       (add_failure ("Wrong copyright (expected " ^^ Fixtures.licensing_holder ^^ ")")
          stats0) = 0 + 1
  /\ wrong_license
       (add_failure ("Wrong copyright (expected " ^^ Fixtures.licensing_holder ^^ ")")
          stats0) = 0 + 1.
Proof.
  split; [vm_compute; reflexivity|].
  apply (add_failure_wrong_copyright_counts_license Fixtures.licensing_holder
           stats0); vm_compute; reflexivity.
Defined.

(** ** The skip argument and the extraction of identifiers *)

Section Parsing.

Import PyStr.

(** No piece of a split on one character contains that character. *)
Lemma split_pieces_free (c : ascii) (s piece : string) :
  In piece (split (String c "") s) -> contains (String c "") piece = false.
Proof.
  unfold split. revert piece. induction s as [|d t IH]; intros piece.
  - intros [<-|[]]. reflexivity.
  - cbn [split_from]. destruct (prefix (String c "") (String d t)) eqn:P.
    + cbn [String.length Nat.sub]. intros [<-|H]; [reflexivity | apply IH, H].
    + destruct (split_from (String c "") 0 t) as [|h r] eqn:E; cbn [cons_head].
      * intros [<-|[]]. rewrite contains_cons.
        rewrite (prefix_single_head c d "" t), P. reflexivity.
      * intros [<-|H]; [|apply IH; right; exact H].
        rewrite contains_cons, (prefix_single_head c d h t), P.
        apply IH. left; reflexivity.
Qed.

Lemma contains_strip_free (n s : string) :
  contains n s = false -> contains n (strip s) = false.
Proof.
  intros H. destruct (contains n (strip s)) eqn:E; [|reflexivity].
  apply contains_strip_sub in E. congruence.
Qed.

(** X17. Every pattern taken from the comma-separated [skip] argument
    is non-empty, trimmed and free of commas: blank items are dropped,
    and a pattern that needs a comma cannot be passed this way. *)
Theorem parse_skip_clean (skip : option string) (p : string) :
  In p (parse_skip skip) ->
  p <> "" /\ strip p = p /\ contains "," p = false.
Proof.
  unfold parse_skip. destruct skip as [s|]; [|intros []].
  destruct (truthy s); [|intros []].
  rewrite filter_In, in_map_iff. intros [[raw [<- Hraw]] T].
  split; [|split].
  - intros E. rewrite E in T. discriminate.
  - apply strip_idempotent.
  - apply contains_strip_free, (split_pieces_free _ s raw Hraw).
Qed.

Lemma parse_skip_clean_witness :
  parse_skip (Some " *.tmp , ,docs,") = ["*.tmp"; "docs"]
  /\ "docs" <> "" /\ strip "docs" = "docs" /\ contains "," "docs" = false.
Proof.
  split; [vm_compute; reflexivity|].
  apply (parse_skip_clean (Some " *.tmp , ,docs,") "docs").
  vm_compute. right. left. reflexivity.
Defined.

Lemma firstn_split_join (n : nat) (head tail : list string) :
  List.length head = n -> n <> 0 ->
  (forall l, In l (head ++ tail) -> contains NL l = false) ->
  firstn n (split NL (join NL (head ++ tail))) = head.
Proof.
  intros Hlen Hn H.
  rewrite split_join; [| destruct head; [cbn in Hlen; congruence | discriminate]
                       | exact H].
  rewrite firstn_app, Hlen, Nat.sub_diag. cbn [firstn].
  rewrite app_nil_r, <- Hlen. apply firstn_all.
Qed.

(** X18. [extract_license_identifiers_from_file] gives nothing for a
    file that cannot be read; what it gives is trimmed and comes from
    a line that carries the license marker; and it looks at the first
    twenty lines only. *)
Theorem extract_license_identifiers_window (fs : FileSystem) (p : string) :
  (forall e, fs_read fs p = ReadError e ->
     extract_license_identifiers_from_file fs p = [])
  /\ (forall i, In i (extract_license_identifiers_from_file fs p) ->
        strip i = i
        /\ exists content raw,
             fs_read fs p = ReadOk content
             /\ In raw (firstn 20 (split NL content))
             /\ contains SPDX_LICENSE_IDENTIFIER (strip raw) = true)
  /\ (forall head tail,
        List.length head = 20 ->
        (forall l, In l (head ++ tail) -> contains NL l = false) ->
        fs_read fs p = ReadOk (join NL (head ++ tail)) ->
        extract_license_identifiers_from_file fs p
        = flat_map line_license_ids head).
Proof.
  unfold extract_license_identifiers_from_file. split; [|split].
  - intros e E. rewrite E. reflexivity.
  - intros i. destruct (fs_read fs p) as [content|e]; [|intros []].
    rewrite in_flat_map. intros [raw [Hraw Hi]]. unfold line_license_ids in Hi.
    destruct (contains SPDX_LICENSE_IDENTIFIER (strip raw)) eqn:C; [|destruct Hi].
    split.
    + destruct (split SPDX_LICENSE_IDENTIFIER (strip raw)) as [|a [|b r]];
        [destruct Hi | destruct Hi |].
      destruct Hi as [<-|[]]. apply strip_idempotent.
    + exists content, raw. auto.
  - intros head tail Hlen H E. rewrite E.
    rewrite firstn_split_join by (assumption || discriminate). reflexivity.
Qed.

End Parsing.

Lemma extract_license_identifiers_window_witness :
  extract_license_identifiers_from_file Fixtures.long_fs "late.py" = []
  /\ extract_license_identifiers_from_file Fixtures.long_fs "dual.c"
     = ["Apache-2.0 OR MIT"]
  /\ PyStr.strip "Apache-2.0 OR MIT" = "Apache-2.0 OR MIT".
Proof.
  split; [|split].
  - rewrite (proj2 (proj2 (extract_license_identifiers_window Fixtures.long_fs
               "late.py")) Fixtures.long_head Fixtures.long_tail).
    + vm_compute; reflexivity.
    + vm_compute; reflexivity.
    + intros l Hl. simpl in Hl.
      repeat (destruct Hl as [<-|Hl]; [vm_compute; reflexivity|]). destruct Hl.
    + vm_compute; reflexivity.
  - vm_compute; reflexivity.
  - apply (proj1 (proj2 (extract_license_identifiers_window Fixtures.long_fs
             "dual.c")) "Apache-2.0 OR MIT").
    vm_compute. left. reflexivity.
Defined.

(** ** Extraction from a header line *)

Section BlankBoundaries.

Import PyStr.
Import Documented.

Lemma append_assoc_str (a b c : string) : (a ^^ b) ^^ c = a ^^ b ^^ c.
Proof.
  induction a as [|x a IH]; [reflexivity|]. cbn. rewrite IH. reflexivity.
Qed.

Lemma append_nil_right (a : string) : a ^^ "" = a.
Proof.
  induction a as [|x a IH]; [reflexivity|]. cbn. rewrite IH. reflexivity.
Qed.

Lemma blank_free_cons (x : ascii) (n : string) :
  contains " " (String x n) = false -> x <> " "%char /\ contains " " n = false.
Proof.
  rewrite contains_cons. intros H. apply orb_false_iff in H as [P C].
  split; [|exact C]. intros ->. rewrite prefix_cons_same, prefix_nil in P.
  discriminate.
Qed.

Lemma prefix_head_differs (x c : ascii) (n t : string) :
  x <> c -> prefix (String x n) (String c t) = false.
Proof.
  intros H. cbn. destruct (ascii_dec x c); [contradiction | reflexivity].
Qed.

(** A needle without a blank does not reach across a blank. *)
Lemma prefix_blank (n a b : string) :
  contains " " n = false -> prefix n (a ^^ " " ^^ b) = prefix n a.
Proof.
  revert a. induction n as [|x n IH]; intros a H.
  - rewrite !prefix_nil. reflexivity.
  - apply blank_free_cons in H as [Hx Hn]. destruct a as [|c t].
    + cbn [String.append]. rewrite prefix_head_differs by exact Hx. reflexivity.
    + change (String c t ^^ " " ^^ b) with (String c (t ^^ " " ^^ b)).
      destruct (ascii_dec x c) as [->|Ne].
      * rewrite !prefix_cons_same. apply IH, Hn.
      * rewrite !prefix_head_differs by exact Ne. reflexivity.
Qed.

Lemma prefix_length (n s : string) :
  prefix n s = true -> String.length n <= String.length s.
Proof.
  revert s. induction n as [|x n IH]; intros s H; [cbn; lia|].
  destruct s as [|c t]; [discriminate|].
  apply prefix_cons_inv in H as [_ H]. cbn. apply IH in H. lia.
Qed.

Lemma contains_blank (n a b : string) :
  n <> "" -> contains " " n = false ->
  contains n (a ^^ " " ^^ b) = contains n a || contains n b.
Proof.
  intros Hn Hb. induction a as [|c t IH].
  - cbn [String.append]. rewrite contains_cons.
    destruct n as [|x n]; [congruence|].
    apply blank_free_cons in Hb as [Hx _].
    rewrite prefix_head_differs by exact Hx. reflexivity.
  - change (String c t ^^ " " ^^ b) with (String c (t ^^ " " ^^ b)).
    rewrite !contains_cons, IH.
    change (String c (t ^^ " " ^^ b)) with (String c t ^^ " " ^^ b).
    rewrite prefix_blank by exact Hb. apply orb_assoc.
Qed.

(** Replacement of a needle without a blank works on each side of a
    blank. *)
Lemma replace_from_blank (old new a b : string) (k : nat) :
  old <> "" -> contains " " old = false -> k <= String.length a ->
  replace_from old new k (a ^^ " " ^^ b)
  = replace_from old new k a ^^ " " ^^ replace_from old new 0 b.
Proof.
  intros Ho Hb. revert k. induction a as [|c t IH]; intros k Hk.
  - cbn in Hk. assert (k = 0) by lia. subst k.
    cbn [String.append replace_from].
    destruct old as [|x old]; [congruence|].
    apply blank_free_cons in Hb as [Hx _].
    rewrite prefix_head_differs by exact Hx. reflexivity.
  - change (String c t ^^ " " ^^ b) with (String c (t ^^ " " ^^ b)).
    destruct k as [|k]; cbn [replace_from].
    + change (String c (t ^^ " " ^^ b)) with (String c t ^^ " " ^^ b).
      rewrite prefix_blank by exact Hb.
      destruct (prefix old (String c t)) eqn:P.
      * apply prefix_length in P. cbn in P.
        rewrite IH by lia. rewrite append_assoc_str. reflexivity.
      * rewrite IH by lia. reflexivity.
    + cbn in Hk. apply IH. lia.
Qed.

Lemma replace_blank (old new a b : string) :
  old <> "" -> contains " " old = false ->
  replace old new (a ^^ " " ^^ b) = replace old new a ^^ " " ^^ replace old new b.
Proof.
  intros Ho Hb. unfold replace. apply replace_from_blank; auto. lia.
Qed.

Lemma replace_absent (old new s : string) :
  contains old s = false -> replace old new s = s.
Proof.
  unfold replace. induction s as [|c t IH]; [reflexivity|].
  rewrite contains_cons. intros H. apply orb_false_iff in H as [P C].
  cbn [replace_from]. rewrite P, (IH C). reflexivity.
Qed.

Lemma split_absent (sep s : string) :
  contains sep s = false -> split sep s = [s].
Proof.
  unfold split. induction s as [|c t IH]; [reflexivity|].
  rewrite contains_cons. intros H. apply orb_false_iff in H as [P C].
  cbn [split_from]. rewrite P, (IH C). reflexivity.
Qed.

Lemma split_from_skip (sep a r : string) :
  split_from sep (String.length a) (a ^^ r) = split_from sep 0 r.
Proof.
  induction a as [|c a IH]; [reflexivity|]. cbn. exact IH.
Qed.

(** The first piece of a split, when nothing before the separator can
    begin one. *)
Lemma split_first (x : ascii) (sep' p rest : string) :
  contains (String x "") p = false ->
  split (String x sep') (p ^^ String x sep' ^^ rest)
  = p :: split (String x sep') rest.
Proof.
  unfold split. induction p as [|c t IH]; intros H.
  - change ("" ^^ String x sep' ^^ rest) with (String x (sep' ^^ rest)).
    cbn [split_from].
    change (String x (sep' ^^ rest)) with (String x sep' ^^ rest) at 1.
    rewrite prefix_append. cbn [String.length Nat.sub].
    rewrite Nat.sub_0_r, split_from_skip. reflexivity.
  - rewrite contains_cons in H. apply orb_false_iff in H as [P C].
    change (String c t ^^ String x sep' ^^ rest)
      with (String c (t ^^ String x sep' ^^ rest)).
    cbn [split_from].
    assert (Ne : x <> c).
    { intros ->. rewrite prefix_cons_same, prefix_nil in P. discriminate. }
    rewrite prefix_head_differs by exact Ne. rewrite (IH C). reflexivity.
Qed.

Lemma lstrip_append (a s : string) :
  match s with
  | EmptyString => False
  | String c _ => py_isspace c = false
  end ->
  lstrip (a ^^ s) = lstrip a ^^ s.
Proof.
  intros H. induction a as [|d t IH].
  - destruct s as [|c s]; [destruct H|]. cbn. rewrite H. reflexivity.
  - cbn. destruct (py_isspace d); [exact IH | reflexivity].
Qed.

Lemma ends_visible_append (a b : string) :
  ends_visible b -> ends_visible (a ^^ b).
Proof.
  intros [Hb Hr]. induction a as [|c t [It Ir]]; [split; assumption|].
  split; [discriminate|]. cbn [String.append]. rewrite rstrip_cons, Ir.
  destruct (String.eqb (t ^^ b) "") eqn:E; [|reflexivity].
  apply String.eqb_eq in E. congruence.
Qed.

Lemma edge_clean_visible (x : string) :
  x <> "" -> edge_clean x = true ->
  ends_visible x /\ lstrip x = x.
Proof.
  destruct x as [|c t]; [congruence|]. intros _ H. unfold edge_clean in H.
  apply andb_true_iff in H as [S R]. apply negb_true_iff in S.
  apply String.eqb_eq in R. split; [split; [discriminate | exact R]|].
  cbn. rewrite S. reflexivity.
Qed.

Lemma rstrip_trailing_blank (x : string) :
  ends_visible x -> rstrip (x ^^ " ") = x.
Proof.
  induction x as [|c t IH]; intros H; [destruct H; congruence|].
  cbn [String.append]. rewrite rstrip_cons. destruct t as [|d t].
  - apply ends_visible_single in H. cbn. rewrite H. reflexivity.
  - rewrite (IH (ends_visible_tail _ _ _ H)). reflexivity.
Qed.

(** The identifier of a trimmed, visible text followed by blanks is
    the text. *)
Lemma strip_trailing_blank (x : string) :
  x <> "" -> edge_clean x = true -> strip (x ^^ " ") = x.
Proof.
  intros Hx E. destruct (edge_clean_visible x Hx E) as [V L].
  unfold strip. destruct x as [|c t]; [congruence|].
  assert (S : py_isspace c = false).
  { cbn in L. destruct (py_isspace c); [|reflexivity].
    exfalso. assert (Hl : String.length (lstrip t) <= String.length t).
    { clear. induction t as [|d t IH]; cbn; [lia|].
      destruct (py_isspace d); cbn; lia. }
    rewrite L in Hl. cbn in Hl. lia. }
  cbn [String.append lstrip]. rewrite S.
  change (String c (t ^^ " ")) with (String c t ^^ " ").
  apply rstrip_trailing_blank, V.
Qed.

End BlankBoundaries.

Section HeaderExtraction.

Import PyStr.
Import Documented.

Lemma strip_edge_clean (x : string) :
  x <> "" -> edge_clean x = true -> strip x = x.
Proof.
  intros Hx E. destruct (edge_clean_visible x Hx E) as [[_ R] L].
  unfold strip. rewrite L. exact R.
Qed.

(** What is left of the text after the marker, once trimmed and rid of
    the comment terminators. *)
Lemma identifier_of_part (x closer : string) :
  x <> "" -> edge_clean x = true ->
  contains "-->" x = false -> contains "*/" x = false ->
  In closer [""; " */"; " -->"] ->
  strip (" " ^^ x ^^ closer) = x ^^ closer
  /\ strip (replace "*/" "" (replace "-->" "" (x ^^ closer))) = x.
Proof.
  intros Hx E A B Hc. destruct (edge_clean_visible x Hx E) as [V L].
  assert (F : forall b, lstrip (x ^^ b) = x ^^ b).
  { intros b. destruct x as [|c t]; [congruence|]. cbn in L |- *.
    destruct (py_isspace c); [|reflexivity].
    exfalso. assert (Hl : String.length (lstrip t) <= String.length t).
    { clear. induction t as [|d t IH]; cbn; [lia|].
      destruct (py_isspace d); cbn; lia. }
    rewrite L in Hl. cbn in Hl. lia. }
  destruct Hc as [<-|[<-|[<-|[]]]].
  - rewrite !append_nil_right. split.
    + unfold strip. cbn [String.append lstrip]. 
      change (py_isspace " ") with true. cbn iota.
      rewrite L. apply V.
    + rewrite (replace_absent "-->" "" x A), (replace_absent "*/" "" x B).
      apply strip_edge_clean; assumption.
  - split.
    + unfold strip. cbn [String.append lstrip].
      change (py_isspace " ") with true. cbn iota. rewrite F.
      apply (ends_visible_append x " */"). split; [discriminate | reflexivity].
    + change (x ^^ " */") with (x ^^ " " ^^ "*/").
      rewrite replace_blank by (discriminate || reflexivity).
      rewrite (replace_absent "-->" "" x A).
      change (replace "-->" "" "*/") with "*/".
      rewrite replace_blank by (discriminate || reflexivity).
      rewrite (replace_absent "*/" "" x B).
      change (replace "*/" "" "*/") with "".
      apply strip_trailing_blank; assumption.
  - split.
    + unfold strip. cbn [String.append lstrip].
      change (py_isspace " ") with true. cbn iota. rewrite F.
      apply (ends_visible_append x " -->"). split; [discriminate | reflexivity].
    + change (x ^^ " -->") with (x ^^ " " ^^ "-->").
      rewrite replace_blank by (discriminate || reflexivity).
      rewrite (replace_absent "-->" "" x A).
      change (replace "-->" "" "-->") with "".
      change (x ^^ " " ^^ "") with (x ^^ " " ^^ "").
      rewrite replace_blank by (discriminate || reflexivity).
      rewrite (replace_absent "*/" "" x B).
      change (replace "*/" "" "") with "".
      apply strip_trailing_blank; assumption.
Qed.

(** X19. From a header line made of a comment opening without a
    capital S, the license marker, a blank, an expression and possibly
    a blank and a comment terminator, the extraction returns the
    expression, whole: the expression may be compound, as long as it
    is trimmed and contains neither the marker nor a terminator. *)
Theorem line_license_ids_header (pre x closer : string) :
  contains "S" pre = false ->
  x <> "" -> edge_clean x = true ->
  contains SPDX_LICENSE_IDENTIFIER x = false ->
  contains "-->" x = false -> contains "*/" x = false ->
  In closer [""; " */"; " -->"] ->
  line_license_ids (pre ^^ SPDX_LICENSE_IDENTIFIER ^^ " " ^^ x ^^ closer) = [x].
Proof.
  intros Hp Hx E M A B Hc.
  destruct (identifier_of_part x closer Hx E A B Hc) as [P1 P2].
  destruct (edge_clean_visible x Hx E) as [V L].
  assert (Vt : ends_visible (x ^^ closer)).
  { destruct Hc as [<-|[<-|[<-|[]]]].
    - rewrite append_nil_right. exact V.
    - apply ends_visible_append. split; [discriminate | reflexivity].
    - apply ends_visible_append. split; [discriminate | reflexivity]. }
  assert (Mt : contains SPDX_LICENSE_IDENTIFIER (" " ^^ x ^^ closer) = false).
  { change (" " ^^ x ^^ closer) with ("" ^^ " " ^^ x ^^ closer).
    rewrite contains_blank by (discriminate || reflexivity).
    change (contains SPDX_LICENSE_IDENTIFIER "") with false. cbn [orb].
    destruct Hc as [<-|[<-|[<-|[]]]].
    - rewrite append_nil_right. exact M.
    - change (x ^^ " */") with (x ^^ " " ^^ "*/").
      rewrite contains_blank by (discriminate || reflexivity).
      rewrite M. reflexivity.
    - change (x ^^ " -->") with (x ^^ " " ^^ "-->").
      rewrite contains_blank by (discriminate || reflexivity).
      rewrite M. reflexivity. }
  assert (S : strip (pre ^^ SPDX_LICENSE_IDENTIFIER ^^ " " ^^ x ^^ closer)
              = lstrip pre ^^ SPDX_LICENSE_IDENTIFIER ^^ " " ^^ x ^^ closer).
  { unfold strip. rewrite lstrip_append by reflexivity.
    apply ends_visible_append, ends_visible_append.
    apply (ends_visible_append " "), Vt. }
  unfold line_license_ids. rewrite S, contains_middle.
  assert (Hl : contains "S" (lstrip pre) = false).
  { destruct (contains "S" (lstrip pre)) eqn:C; [|reflexivity].
    apply contains_lstrip_sub in C. congruence. }
  unfold SPDX_LICENSE_IDENTIFIER in *.
  rewrite (split_first "S" "PDX-License-Identifier:" (lstrip pre) _ Hl).
  rewrite (split_absent _ _ Mt). rewrite P1, P2. reflexivity.
Qed.

Lemma line_license_ids_header_witness :
  line_license_ids "<!-- SPDX-License-Identifier: GPL-2.0-only WITH Classpath-exception-2.0 -->"
  = ["GPL-2.0-only WITH Classpath-exception-2.0"].
Proof.
  apply (line_license_ids_header "<!-- "
           "GPL-2.0-only WITH Classpath-exception-2.0" " -->");
    try (vm_compute; reflexivity).
  - discriminate.
  - vm_compute. tauto.
Defined.

End HeaderExtraction.

(** ** Tracked files and the order of sets *)

Section TrackedFiles.

Import PyStr.
Import Documented.
Import Walk.

Variable env : Env.





End TrackedFiles.


Section ComplianceOrder.

Import PyStr.
Import Documented.

Lemma same_members_filter (f : string -> bool) (a b : list string) :
  same_members a b -> same_members (filter f a) (filter f b).
Proof.
  intros H x. rewrite !filter_In. split; intros [I F]; split; auto; apply H, I.
Qed.

Lemma same_members_map (f : string -> string) (a b : list string) :
  same_members a b -> same_members (map f a) (map f b).
Proof.
  intros H x. rewrite !in_map_iff.
  split; intros [y [E I]]; exists y; split; auto; apply H, I.
Qed.

Lemma same_members_app (a b c : list string) :
  same_members a b -> same_members (a ++ c) (b ++ c).
Proof.
  intros H x. rewrite !in_app_iff. split; intros [I|I]; auto; left; apply H, I.
Qed.

Lemma same_members_empty (a b : list string) :
  same_members a b ->
  Nat.eqb (List.length a) 0 = Nat.eqb (List.length b) 0.
Proof.
  intros H. destruct a as [|x a], b as [|y b]; try reflexivity.
  - destruct (proj2 (H y) (or_introl eq_refl)).
  - destruct (proj1 (H x) (or_introl eq_refl)).
Qed.

(** X21. The compliance verdict does not depend on the order in which
    sets are iterated nor on the order of the tracked files: two runs
    on the same file system whose tracked files have the same members
    return the same verdict and the same issues up to order and
    repetition, or both raise. *)
Theorem verify_reuse_compliance_order_free (env env' : Env)
  (tracked tracked' : list string) (root : string) :
  env_fs env = env_fs env' ->
  set_order_ok (env_set_order env) ->
  set_order_ok (env_set_order env') ->
  same_members tracked tracked' ->
  match verify_reuse_compliance env tracked root,
        verify_reuse_compliance env' tracked' root with
  | Ok (ok, issues), Ok (ok', issues') =>
      ok = ok' /\ same_members issues issues'
  | Raise _, Raise _ => True
  | _, _ => False
  end.
Proof.
  intros F O O' S. unfold verify_reuse_compliance. rewrite <- F.
  destruct (negb (fs_exists (env_fs env) (PyPath.path_join root "LICENSES"))).
  { split; [reflexivity | intros x; reflexivity]. }
  destruct (fs_iterdir (env_fs env) (PyPath.path_join root "LICENSES"))
    as [names|]; [|exact I].
  rewrite !flat_map_filter.
  assert (U : same_members (used_licenses env tracked)
                           (used_licenses env' tracked')).
  { intros x. unfold used_licenses.
    rewrite (proj2 (O _) x), (proj2 (O' _) x), <- F, !in_flat_map.
    split; intros [p [Hp Hx]]; exists p; split; auto; apply S, Hp. }
  assert (M : same_members
                (map missing_license_issue
                   (filter (fun x => negb (fs_exists (env_fs env)
                              (PyPath.path_join (PyPath.path_join root "LICENSES")
                                 (x ^^ ".txt"))))
                      (used_licenses env tracked)) ++
                 flat_map (fun name =>
                   if fs_is_file (env_fs env)
                        (PyPath.path_join (PyPath.path_join root "LICENSES") name)
                      && negb (endswith ".txt" name)
                   then [bad_extension_issue name] else []) names)
                (map missing_license_issue
                   (filter (fun x => negb (fs_exists (env_fs env)
                              (PyPath.path_join (PyPath.path_join root "LICENSES")
                                 (x ^^ ".txt"))))
                      (used_licenses env' tracked')) ++
                 flat_map (fun name =>
                   if fs_is_file (env_fs env)
                        (PyPath.path_join (PyPath.path_join root "LICENSES") name)
                      && negb (endswith ".txt" name)
                   then [bad_extension_issue name] else []) names)).
  { apply same_members_app, same_members_map, same_members_filter, U. }
  split; [apply same_members_empty, M | exact M].
Qed.

End ComplianceOrder.

Lemma verify_reuse_compliance_order_free_witness :
  match verify_reuse_compliance Sample.reuse_env Sample.reuse_tracked "/repo",
        verify_reuse_compliance (Sample.reversed Sample.reuse_env)
          (rev Sample.reuse_tracked) "/repo" with
  | Ok (ok, issues), Ok (ok', issues') =>
      ok = ok' /\ Documented.same_members issues issues'
  | Raise _, Raise _ => True
  | _, _ => False
  end.
Proof.
  apply verify_reuse_compliance_order_free.
  - reflexivity.
  - apply insertion_order_ok.
  - apply reversed_order_ok, insertion_order_ok.
  - intros x. apply in_rev.
Defined.

(** ** The root of the repository *)

Section GitRoot.

Import PyStr.
Import Walk.

Lemma split_join_slash (cs : list string) :
  cs <> [] -> (forall c, In c cs -> contains "/" c = false) ->
  split "/" (join "/" cs) = cs.
Proof.
  induction cs as [|p r IH]; [congruence|]. intros _ H.
  destruct r as [|q r].
  - apply split_absent, H. left; reflexivity.
  - change (join "/" (p :: q :: r)) with (p ^^ "/" ^^ join "/" (q :: r)).
    rewrite (split_first "/" "" p) by (apply H; left; reflexivity).
    rewrite IH; [reflexivity | discriminate |].
    intros c Hc. apply H. right; exact Hc.
Qed.

Lemma clean_components (cs : list string) :
  forallb clean_component cs = true ->
  (forall c, In c cs -> contains "/" c = false)
  /\ filter (fun c => negb (String.eqb c "") && negb (String.eqb c ".")) cs = cs.
Proof.
  intros H. rewrite forallb_forall in H. split.
  - intros c Hc. apply H in Hc. unfold clean_component in Hc.
    apply andb_true_iff in Hc as [_ Hc]. apply negb_true_iff, Hc.
  - induction cs as [|c r IH]; [reflexivity|]. cbn [filter].
    pose proof (H c (or_introl eq_refl)) as Hc. unfold clean_component in Hc.
    apply andb_true_iff in Hc as [Hc _]. rewrite Hc.
    rewrite IH; [reflexivity|]. intros x Hx. apply H. right; exact Hx.
Qed.

(** The components of an absolute path are read back as they are. *)
Lemma parts_absolute (cs : list string) :
  forallb clean_component cs = true -> PyPath.parts (absolute cs) = cs.
Proof.
  intros H. destruct (clean_components cs H) as [Hs Hf].
  unfold PyPath.parts, absolute.
  change ("/" ^^ join "/" cs) with ("" ^^ "/" ^^ join "/" cs).
  rewrite (split_first "/" "" "") by reflexivity.
  destruct cs as [|c r]; [reflexivity|].
  rewrite split_join_slash by (discriminate || exact Hs).
  cbn [filter String.eqb negb andb]. exact Hf.
Qed.

Lemma forallb_removelast {A : Type} (f : A -> bool) (l : list A) :
  forallb f l = true -> forallb f (removelast l) = true.
Proof.
  induction l as [|a l IH]; [auto|]. cbn [forallb]. intros H.
  apply andb_true_iff in H as [Ha Hl]. destruct l as [|b l]; [reflexivity|].
  change (removelast (a :: b :: l)) with (a :: removelast (b :: l)).
  cbn [forallb]. rewrite Ha, (IH Hl). reflexivity.
Qed.

Lemma path_parent_absolute (cs : list string) :
  forallb clean_component cs = true ->
  PyPath.path_parent (absolute cs) = absolute (removelast cs).
Proof.
  intros H. unfold PyPath.path_parent. rewrite (parts_absolute cs H).
  cbv zeta. unfold absolute at 1.
  change ("/" ^^ join "/" cs) with (String "/" (join "/" cs)).
  rewrite (prefix_cons_same "/" "" (join "/" cs)), prefix_nil. reflexivity.
Qed.

Lemma absolute_not_parent (cs : list string) (c : string) :
  forallb clean_component (cs ++ [c]) = true ->
  String.eqb (absolute (cs ++ [c])) (absolute cs) = false.
Proof.
  intros H. destruct (String.eqb _ _) eqn:E; [|reflexivity].
  apply String.eqb_eq in E. apply (f_equal PyPath.parts) in E.
  rewrite (parts_absolute _ H) in E.
  rewrite forallb_app in H. apply andb_true_iff in H as [H _].
  rewrite (parts_absolute _ H) in E.
  apply (f_equal (@List.length string)) in E. rewrite length_app in E.
  cbn in E. lia.
Qed.

Lemma ancestors_snoc (cs : list string) (c : string) :
  ancestors (cs ++ [c]) = absolute (cs ++ [c]) :: ancestors cs.
Proof.
  unfold ancestors. rewrite rev_app_distr. cbn [rev app ancestors_of].
  rewrite rev_involutive. reflexivity.
Qed.

(** The loop of [find_git_root] from an absolute directory, with the
    fuel the model gives it. *)
Lemma find_git_root_from_absolute (fs : FileSystem) (cs : list string) :
  forallb clean_component cs = true ->
  find_git_root_from fs (S (List.length cs)) (absolute cs)
  = find (fun d => fs_exists fs (PyPath.path_join d ".git")) (ancestors cs).
Proof.
  induction cs as [|c cs IH] using rev_ind; intros H.
  - reflexivity.
  - rewrite length_app, Nat.add_comm. cbn [List.length Nat.add].
    cbn [find_git_root_from].
    rewrite (path_parent_absolute _ H), removelast_last.
    rewrite (absolute_not_parent cs c H), ancestors_snoc. cbn [find].
    destruct (fs_exists fs (PyPath.path_join (absolute (cs ++ [c])) ".git"));
      [reflexivity|].
    apply IH. rewrite forallb_app in H. apply andb_true_iff in H. tauto.
Qed.

(** X22. [find_git_root] returns the nearest directory holding [.git]
    among the resolved start and the directories above it, the root of
    the file system left out, and none when there is no such
    directory. *)
Theorem find_git_root_nearest (env : Env) (cs : list string) :
  forallb clean_component cs = true ->
  fs_resolve (env_fs env) "." = absolute cs ->
  find_git_root env
  = find (fun d => fs_exists (env_fs env) (PyPath.path_join d ".git"))
         (ancestors cs).
Proof.
  intros H R. unfold find_git_root. rewrite R, (parts_absolute cs H).
  apply find_git_root_from_absolute, H.
Qed.

End GitRoot.

Lemma find_git_root_nearest_witness :
  find_git_root Fixtures.nested_env = Some "/home/dev/project"
  /\ Walk.ancestors ["home"; "dev"; "project"; "src"; "lib"]
     = ["/home/dev/project/src/lib"; "/home/dev/project/src";
        "/home/dev/project"; "/home/dev"; "/home"].
Proof.
  split; [|vm_compute; reflexivity].
  rewrite (find_git_root_nearest Fixtures.nested_env
             ["home"; "dev"; "project"; "src"; "lib"]).
  - vm_compute; reflexivity.
  - vm_compute; reflexivity.
  - vm_compute; reflexivity.
Defined.

(** ** A missing path in the run *)

Section MissingPath.

Import Walk.

Variable env : Env.

Lemma log_extends_refl (s : RunState) : log_extends s s.
Proof. exists []. symmetry. apply app_nil_r. Qed.

Lemma log_extends_trans (s t u : RunState) :
  log_extends s t -> log_extends t u -> log_extends s u.
Proof.
  intros [r1 H1] [r2 H2]. exists (r1 ++ r2). rewrite H2, H1.
  symmetry. apply app_assoc.
Qed.

Lemma log_extends_log_if (c : bool) (e : Event) (s : RunState) :
  log_extends s (log_if c e s).
Proof. destruct c; [exists [e]; reflexivity | apply log_extends_refl]. Qed.

Lemma log_extends_bump (f : Stats -> Stats) (s : RunState) :
  log_extends s (bump f s).
Proof. exists []. symmetry. apply app_nil_r. Qed.

Ltac extends :=
  repeat match goal with
         | |- log_extends ?s ?s => apply log_extends_refl
         | |- log_extends ?s (log_if _ _ ?t) =>
             apply (log_extends_trans s t); [|apply log_extends_log_if]
         | |- log_extends ?s (say _ ?t) =>
             apply (log_extends_trans s t); [|apply log_extends_log_if]
         | |- log_extends ?s (bump _ ?t) =>
             apply (log_extends_trans s t); [|apply log_extends_bump]
         end.

Lemma fold_log_extends {A : Type} (step : bool * RunState -> A -> bool * RunState)
  (l : list A) (acc : bool * RunState) :
  (forall acc x, log_extends (snd acc) (snd (step acc x))) ->
  log_extends (snd acc) (snd (fold_left step l acc)).
Proof.
  intros H. revert acc. induction l as [|x r IH]; intros acc.
  - apply log_extends_refl.
  - cbn [fold_left]. eapply log_extends_trans; [apply H | apply IH].
Qed.

Lemma directory_step_log (v : SPDXVerifier) (directory : string)
  (tracked : option (list string)) (acc : bool * RunState) (rel : string) :
  log_extends (snd acc) (snd (directory_step env v directory tracked acc rel)).
Proof.
  destruct acc as [b st]. unfold directory_step.
  destruct (negb (fs_is_file (env_fs env) (PyPath.path_join directory rel)));
    [apply log_extends_refl|].
  destruct (untracked env tracked (PyPath.path_join directory rel));
    [cbn [snd]; extends|].
  destruct (should_skip_file env v rel); [cbn [snd]; extends|].
  destruct (no_language (get_language_for_file v (PyPath.path_join directory rel)));
    [cbn [snd]; extends|].
  destruct (check_license_header env v (PyPath.path_join directory rel))
    as [ok message].
  destruct ok; cbn [snd]; extends.
Qed.

Lemma verify_directory_log (v : SPDXVerifier) (directory : string)
  (tracked : option (list string)) (st : RunState) :
  log_extends st (snd (verify_directory env v directory tracked st)).
Proof.
  unfold verify_directory.
  destruct (negb (fs_exists (env_fs env) directory)); [cbn [snd]; extends|].
  apply (fold_log_extends (directory_step env v directory tracked) _ (true, st)).
  intros acc x. apply directory_step_log.
Qed.

Lemma verify_step_log (v : SPDXVerifier) (tracked : option (list string))
  (acc : bool * RunState) (path : string) :
  log_extends (snd acc) (snd (verify_step env v tracked acc path)).
Proof.
  destruct acc as [b st]. unfold verify_step.
  destruct (fs_is_file (env_fs env) path).
  - destruct (untracked env tracked path); [cbn [snd]; extends|].
    destruct (should_skip_file env v path); [cbn [snd]; extends|].
    destruct (no_language (get_language_for_file v path)); [cbn [snd]; extends|].
    destruct (check_license_header env v path) as [ok message].
    destruct ok; cbn [snd]; extends.
  - destruct (fs_is_dir (env_fs env) path); [|cbn [snd]; extends].
    pose proof (verify_directory_log v path tracked st) as D.
    destruct (verify_directory env v path tracked st) as [ok st'].
    exact D.
Qed.

Lemma verify_paths_log (v : SPDXVerifier) (tracked : option (list string))
  (paths : list string) (acc : bool * RunState) :
  log_extends (snd acc) (snd (verify_paths env v tracked paths acc)).
Proof.
  apply fold_log_extends. intros a x. apply verify_step_log.
Qed.

Lemma log_issues_extends (dbg : bool) (issues : list string) (st : RunState) :
  log_extends st (fold_left (fun s i => log_if dbg (EvReuseIssue i) s) issues st).
Proof.
  revert st. induction issues as [|i r IH]; intros st.
  - apply log_extends_refl.
  - cbn [fold_left]. eapply log_extends_trans; [apply log_extends_log_if|].
    apply IH.
Qed.

Lemma reuse_section_log (a : VerifyArgs) (tracked : option (list string))
  (b b' : bool) (st st' : RunState) :
  reuse_section env a tracked (b, st) = Some (b', st') -> log_extends st st'.
Proof.
  unfold reuse_section.
  destruct (arg_reuse_compliance a && arg_pre_commit_mode a
            && match tracked with Some t => nonempty t | None => false end).
  - destruct (find_git_root env).
    + destruct (verify_reuse_compliance env _ _) as [[ok issues]|];
        [|discriminate].
      destruct ok; intros H; injection H as <- <-.
      * extends.
      * eapply log_extends_trans; [|apply log_issues_extends]. extends.
    + intros H. injection H as <- <-. extends.
  - intros H. injection H as <- <-. apply log_extends_refl.
Qed.

(** [verify] is its loop over the paths, followed by the REUSE
    section. *)
Lemma verify_run_loop (a : VerifyArgs) :
  verify env a
  = match reuse_section env a (run_tracked env a)
            (run_loop env a (run_paths a)) with
    | Some (all_passed, st) =>
        {| exit_status := if all_passed then 0 else 1;
           final_stats := rs_stats st; console := rs_log st |}
    | None =>
        {| exit_status := 1;
           final_stats := rs_stats (snd (run_loop env a (run_paths a)));
           console := rs_log (snd (run_loop env a (run_paths a))) |}
    end.
Proof.
  unfold verify, run_loop, run_start, run_init, run_tracked, run_paths.
  destruct (SPDXVerifier_init env _ _ _ _ _ _ _ _) as [v init_log].
  reflexivity.
Qed.

(** X24. A path given to the run for which [is_file] and [is_dir] both
    answer no does not stop it. The loop of [verify] processes the
    paths before it, marks the run failed, prints the error and goes
    on with the paths after it; the run ends with exit status 1, its
    console starts with everything the loop printed, the error
    included, and its counters are those of the loop over the other
    paths. *)
Theorem verify_missing_path_fails_run (a : VerifyArgs) (l1 l2 : list string)
  (p : string) :
  arg_paths a = l1 ++ p :: l2 ->
  fs_is_file (env_fs env) p = false ->
  fs_is_dir (env_fs env) p = false ->
  run_loop env a (l1 ++ p :: l2)
  = verify_paths env (fst (run_init env a)) (run_tracked env a) l2
      (false, say (EvErrorNoPath p) (snd (run_loop env a l1)))
  /\ exit_status (verify env a) = 1
  /\ (exists rest,
        console (verify env a)
        = rs_log (snd (run_loop env a (l1 ++ p :: l2))) ++ rest)
  /\ In (EvErrorNoPath p) (console (verify env a))
  /\ final_stats (verify env a) = rs_stats (snd (run_loop env a (l1 ++ l2))).
Proof.
  intros P F D.
  assert (RP : run_paths a = l1 ++ p :: l2).
  { unfold run_paths. rewrite P. destruct l1; reflexivity. }
  destruct (verify_paths_missing env (fst (run_init env a)) (run_tracked env a)
              l1 l2 p (run_start env a) F D) as (E & Hf & Hs).
  fold (run_loop env a (l1 ++ p :: l2)) in E, Hf, Hs.
  fold (run_loop env a l1) in E. fold (run_loop env a (l1 ++ l2)) in Hs.
  split; [exact E|].
  assert (M : In (EvErrorNoPath p) (rs_log (snd (run_loop env a (l1 ++ p :: l2))))).
  { rewrite E.
    destruct (verify_paths_log (fst (run_init env a)) (run_tracked env a) l2
                (false, say (EvErrorNoPath p) (snd (run_loop env a l1))))
      as [rest R].
    rewrite R. cbn [snd say log_if rs_log]. rewrite !in_app_iff.
    left. right. left. reflexivity. }
  rewrite verify_run_loop, RP.
  destruct (run_loop env a (l1 ++ p :: l2)) as [b st] eqn:L.
  cbn [fst snd] in Hf, Hs, M. subst b.
  destruct (reuse_section env a (run_tracked env a) (false, st))
    as [[b' st']|] eqn:R.
  - pose proof (reuse_section_stats env a _ _ _ _ _ R) as [S B].
    pose proof (reuse_section_log a _ _ _ _ _ R) as [rest X].
    cbn [exit_status console final_stats].
    split; [destruct b'; [specialize (B eq_refl); discriminate | reflexivity]|].
    split; [exists rest; exact X|].
    split; [rewrite X; apply in_or_app; left; exact M|].
    rewrite S. exact Hs.
  - cbn [exit_status console final_stats snd].
    split; [reflexivity|].
    split; [exists []; symmetry; apply app_nil_r|].
    split; [exact M | exact Hs].
Qed.

End MissingPath.

Lemma verify_missing_path_fails_run_witness :
  exit_status (verify Sample.run_env (Sample.args ["good.py"; "nope.py"; "bad.py"]))
  = 1
  /\ In (EvErrorNoPath "nope.py")
        (console (verify Sample.run_env
                    (Sample.args ["good.py"; "nope.py"; "bad.py"])))
  /\ final_stats (verify Sample.run_env
                    (Sample.args ["good.py"; "nope.py"; "bad.py"]))
     = final_stats (verify Sample.run_env (Sample.args ["good.py"; "bad.py"]))
  /\ checked (final_stats (verify Sample.run_env
                             (Sample.args ["good.py"; "nope.py"; "bad.py"]))) = 2.
Proof.
  destruct (verify_missing_path_fails_run Sample.run_env
              (Sample.args ["good.py"; "nope.py"; "bad.py"])
              ["good.py"] ["bad.py"] "nope.py")
    as (_ & E & _ & M & _).
  - vm_compute; reflexivity.
  - vm_compute; reflexivity.
  - vm_compute; reflexivity.
  - split; [exact E|]. split; [exact M|].
    split; vm_compute; reflexivity.
Defined.
